(** * Agentic Facebook-ads analyst: pipeline, structured extraction, dataset engine

    A shallow embedding of the Python sources

      - [src/agents/base.py]               (LLMClient, BaseAgent)
      - [src/agents/planner.py], [insight_agent.py], [evaluator.py],
        [creative_generator.py], [data_agent.py]
      - [src/utils/data.py]                (DataLoader, DataSummary)
      - [src/utils/config.py]              (Config.get, get_dict, __getitem__)
      - [src/orchestrator/runner.py]       (AgentOrchestrator)

    Python values are the type [value]; a Python [float] is a binary64
    primitive float, so that [x / 0.0] is [infinity] or [nan] as in pandas;
    a [Timestamp] is a day number and [VTimestamp None] is [NaT];
    an exception is a value of [exn]; code that may raise returns an
    [outcome]; code that also talks to the generation service, the file
    system or the objects' fields runs in the monad [M] over [State]. *)

From Stdlib Require Import String Ascii List ZArith Bool Arith Lia.
From Stdlib Require Import Floats Sorting.Sorted Sorting.Permutation.
Import ListNotations.

#[local] Set Warnings "-inexact-float,-register-all".
#[local] Open Scope string_scope.
#[local] Open Scope list_scope.

(** ** Python values *)

Inductive value : Type :=
| VNone
| VBool (b : bool)
| VInt (z : Z)
| VFloat (f : float)
| VStr (s : string)
| VList (l : list value)
| VDict (d : list (string * value))
| VTimestamp (day : option Z).

(** [type(v).__name__], as it appears in the interpreter's messages. *)
Definition type_name (v : value) : string :=
  match v with
  | VNone => "NoneType"
  | VBool _ => "bool"
  | VInt _ => "int"
  | VFloat _ => "float"
  | VStr _ => "str"
  | VList _ => "list"
  | VDict _ => "dict"
  | VTimestamp (Some _) => "Timestamp"
  | VTimestamp None => "NaTType"
  end.

(** Python truthiness ([bool(v)], as [not v] and [a or b] use it). *)
Definition truthy (v : value) : bool :=
  match v with
  | VNone => false
  | VBool b => b
  | VInt z => negb (Z.eqb z 0)
  | VFloat f => negb (PrimFloat.eqb f 0%float)
  | VStr s => negb (String.eqb s "")
  | VList l => match l with [] => false | _ => true end
  | VDict d => match d with [] => false | _ => true end
  | VTimestamp _ => true
  end.

(** ** Exceptions and outcomes *)

Inductive exn_class : Type :=
| FileNotFoundError
| RuntimeError
| ValueError
| JSONDecodeError
| AttributeError
| TypeError
| IndexError
| OSError
| RecursionError.

Record exn : Type := Exn { exn_cls : exn_class; exn_msg : string }.

(** [str(e)]. *)
Definition str_exn (e : exn) : string := exn_msg e.

(** [isinstance(e, ValueError)]: [json.JSONDecodeError] derives from it. *)
Definition is_ValueError (e : exn) : bool :=
  match exn_cls e with
  | ValueError | JSONDecodeError => true
  | _ => false
  end.

Inductive outcome (A : Type) : Type :=
| Ok (a : A)
| Raise (e : exn).
Arguments Ok {A} a.
Arguments Raise {A} e.

Definition obind {A B : Type} (m : outcome A) (k : A -> outcome B) : outcome B :=
  match m with
  | Ok a => k a
  | Raise e => Raise e
  end.

Declare Scope outcome_scope.
Delimit Scope outcome_scope with outcome.
Notation "x <~ m ;; k" := (obind m (fun x => k))
  (at level 100, m at next level, right associativity) : outcome_scope.


(** ** Python [str] operations

    Characters are the code points below 256. *)

Definition nl : string := String "010"%char "".
Definition dquote : ascii := "034"%char.

(** [s[n:]] and [s[:n]]. *)
Fixpoint str_drop (n : nat) (s : string) : string :=
  match n, s with
  | 0, _ => s
  | S _, EmptyString => EmptyString
  | S n', String _ t => str_drop n' t
  end.

Fixpoint str_take (n : nat) (s : string) : string :=
  match n, s with
  | 0, _ => EmptyString
  | S _, EmptyString => EmptyString
  | S n', String c t => String c (str_take n' t)
  end.

(** [s.startswith(sep)]. *)
Fixpoint starts_with (sep s : string) : bool :=
  match sep with
  | EmptyString => true
  | String a sep' =>
      match s with
      | EmptyString => false
      | String b s' => Ascii.eqb a b && starts_with sep' s'
      end
  end.

(** [s.partition(sep)] when [sep] occurs: the text before the first
    occurrence and the text after it. *)
Fixpoint str_partition (sep s : string) : option (string * string) :=
  if starts_with sep s then Some (EmptyString, str_drop (String.length sep) s)
  else match s with
       | EmptyString => None
       | String c t =>
           match str_partition sep t with
           | Some (a, b) => Some (String c a, b)
           | None => None
           end
       end.

(** [sep in s]. *)
Definition str_in (sep s : string) : bool :=
  match str_partition sep s with Some _ => true | None => false end.

(** [s.split(sep)] for a non-empty [sep]: every piece after a separator is
    shorter than the text it is cut from, so [length s] rounds suffice. *)
Fixpoint split_fuel (n : nat) (sep s : string) : list string :=
  match n with
  | 0 => [s]
  | S n' =>
      match str_partition sep s with
      | None => [s]
      | Some (a, b) => a :: split_fuel n' sep b
      end
  end.

Definition split (sep s : string) : list string :=
  split_fuel (String.length s) sep s.

(** [c.isspace()] on the code points below 256. *)
Definition is_space (c : ascii) : bool :=
  let n := nat_of_ascii c in
  (((9 <=? n) && (n <=? 13)) || ((28 <=? n) && (n <=? 32))
   || (n =? 133) || (n =? 160))%nat.

Fixpoint lstrip (s : string) : string :=
  match s with
  | EmptyString => EmptyString
  | String c t => if is_space c then lstrip t else s
  end.

Fixpoint rstrip (s : string) : string :=
  match s with
  | EmptyString => EmptyString
  | String c t =>
      match rstrip t with
      | EmptyString => if is_space c then EmptyString else String c EmptyString
      | t' => String c t'
      end
  end.

(** [s.strip()]. *)
Definition strip (s : string) : string := rstrip (lstrip s).

(** [l[i]] on a list. *)
Definition subscript {A : Type} (l : list A) (i : nat) : outcome A :=
  match nth_error l i with
  | Some a => Ok a
  | None => Raise (Exn IndexError "list index out of range")
  end.

(** ** Python [dict] and duck-typed access *)

Fixpoint dict_lookup (k : string) (d : list (string * value)) : option value :=
  match d with
  | [] => None
  | (k', v) :: t => if String.eqb k k' then Some v else dict_lookup k t
  end.

(** [d.get(k, default)]. *)
Definition dict_get (d : list (string * value)) (k : string) (default : value) : value :=
  match dict_lookup k d with
  | Some v => v
  | None => default
  end.

(** [d[k] = v]: an existing key keeps its place. *)
Fixpoint dict_set (k : string) (v : value) (d : list (string * value)) : list (string * value) :=
  match d with
  | [] => [(k, v)]
  | (k', v') :: t =>
      if String.eqb k k' then (k, v) :: t else (k', v') :: dict_set k v t
  end.

Definition no_attribute (v : value) (attr : string) : exn :=
  Exn AttributeError ("'" ++ type_name v ++ "' object has no attribute '" ++ attr ++ "'").

(** [v.get(k, default)] on whatever [v] is. *)
Definition py_get (v : value) (k : string) (default : value) : outcome value :=
  match v with
  | VDict d => Ok (dict_get d k default)
  | _ => Raise (no_attribute v "get")
  end.

(** [len(v)]. *)
Definition py_len (v : value) : outcome nat :=
  match v with
  | VStr s => Ok (String.length s)
  | VList l => Ok (List.length l)
  | VDict d => Ok (List.length d)
  | _ => Raise (Exn TypeError ("object of type '" ++ type_name v ++ "' has no len()"))
  end.

Fixpoint chars (s : string) : list value :=
  match s with
  | EmptyString => []
  | String c t => VStr (String c EmptyString) :: chars t
  end.

(** [for x in v[:n]]: the items the loop visits.  A dict does not take a
    slice (TypeError up to Python 3.11, KeyError from 3.12 on). *)
Definition py_slice_items (v : value) (n : nat) : outcome (list value) :=
  match v with
  | VList l => Ok (firstn n l)
  | VStr s => Ok (chars (str_take n s))
  | VDict _ => Raise (Exn TypeError "unhashable type: 'slice'")
  | _ => Raise (Exn TypeError ("'" ++ type_name v ++ "' object is not subscriptable"))
  end.

(** [for x in v]: the items the loop visits. *)
Definition py_iter (v : value) : outcome (list value) :=
  match v with
  | VList l => Ok l
  | VStr s => Ok (chars s)
  | VDict d => Ok (map (fun kv => VStr (fst kv)) d)
  | _ => Raise (Exn TypeError ("'" ++ type_name v ++ "' object is not iterable"))
  end.

(** [f"{v:.4f}"] and [f"{v:.2%}"] evaluate for numbers only; the text they
    produce goes into a prompt or the rendered summary and is not kept. *)
Definition py_format_float (code : string) (v : value) : outcome unit :=
  match v with
  | VInt _ | VFloat _ | VBool _ => Ok tt
  | VStr _ =>
      Raise (Exn ValueError ("Unknown format code '" ++ code ++ "' for object of type 'str'"))
  | _ => Raise (Exn TypeError ("unsupported format string passed to " ++ type_name v ++ ".__format__"))
  end.

(** ** A reference [json.loads] for concrete runs

    [json.loads] belongs to the Python library; the program below takes it
    as a parameter.  Of a text it returns the value, or raises a
    [json.JSONDecodeError] with its message, or raises another exception:
    a [RecursionError] for a text nested deeper than the interpreter
    allows, a plain [ValueError] for an integer of more digits than the
    interpreter converts.  For closed examples it is instantiated by this
    reader of the JSON fragment with integers as the only numbers and
    without [\u] escapes; of a text it refuses it says that a value was
    expected or that data follows the value, without the position. *)

Inductive loads_result : Type :=
| Loaded (v : value)
| DecodeError (msg : string)
| Failed (e : exn).

Fixpoint skip_ws (s : list ascii) : list ascii :=
  match s with
  | c :: t =>
      if (Ascii.eqb c " " || Ascii.eqb c "009" || Ascii.eqb c "010" || Ascii.eqb c "013")%char
      then skip_ws t else s
  | [] => []
  end.

Definition unescape (c : ascii) : option ascii :=
  (if Ascii.eqb c dquote then Some dquote
   else if Ascii.eqb c "\" then Some "\"
   else if Ascii.eqb c "/" then Some "/"
   else if Ascii.eqb c "n" then Some "010"
   else if Ascii.eqb c "t" then Some "009"
   else if Ascii.eqb c "r" then Some "013"
   else if Ascii.eqb c "b" then Some "008"
   else if Ascii.eqb c "f" then Some "012"
   else None)%char.

(** The characters of a string literal after its opening quote. *)
Fixpoint read_string (s : list ascii) : option (string * list ascii) :=
  match s with
  | [] => None
  | c :: t =>
      if Ascii.eqb c dquote then Some (EmptyString, t)
      else if Ascii.eqb c "\"%char then
        match t with
        | e :: t' =>
            match unescape e, read_string t' with
            | Some c', Some (r, rest) => Some (String c' r, rest)
            | _, _ => None
            end
        | [] => None
        end
      else if (nat_of_ascii c <? 32)%nat then None
      else match read_string t with
           | Some (r, rest) => Some (String c r, rest)
           | None => None
           end
  end.

Definition digit_of (c : ascii) : option Z :=
  let n := nat_of_ascii c in
  if ((48 <=? n) && (n <=? 57))%nat then Some (Z.of_nat (n - 48)) else None.

Fixpoint read_digits (acc : Z) (s : list ascii) : Z * list ascii :=
  match s with
  | c :: t =>
      match digit_of c with
      | Some d => read_digits (10 * acc + d)%Z t
      | None => (acc, s)
      end
  | [] => (acc, [])
  end.

(** An integer literal: digits, no leading zero, no fraction or exponent. *)
Definition read_int (s : list ascii) : option (Z * list ascii) :=
  match s with
  | c :: t =>
      match digit_of c with
      | Some d =>
          let '(z, rest) := read_digits d t in
          if Z.eqb d 0 && negb (List.length rest =? List.length t)%nat then None
          else
            match rest with
            | c' :: _ =>
                if (Ascii.eqb c' "." || Ascii.eqb c' "e" || Ascii.eqb c' "E")%char then None
                else Some (z, rest)
            | [] => Some (z, rest)
            end
      | None => None
      end
  | [] => None
  end.

Fixpoint read_value (fuel : nat) (s : list ascii) {struct fuel} : option (value * list ascii) :=
  match fuel with
  | 0 => None
  | S n =>
      match skip_ws s with
      | "{"%char :: r =>
          match skip_ws r with
          | "}"%char :: r' => Some (VDict [], r')
          | _ => read_members n r []
          end
      | "["%char :: r =>
          match skip_ws r with
          | "]"%char :: r' => Some (VList [], r')
          | _ => read_elements n r []
          end
      | "t"%char :: "r"%char :: "u"%char :: "e"%char :: r => Some (VBool true, r)
      | "f"%char :: "a"%char :: "l"%char :: "s"%char :: "e"%char :: r => Some (VBool false, r)
      | "n"%char :: "u"%char :: "l"%char :: "l"%char :: r => Some (VNone, r)
      | "-"%char :: r =>
          match read_int r with
          | Some (z, rest) => Some (VInt (- z)%Z, rest)
          | None => None
          end
      | c :: r =>
          if Ascii.eqb c dquote then
            match read_string r with
            | Some (str, rest) => Some (VStr str, rest)
            | None => None
            end
          else
            match read_int (c :: r) with
            | Some (z, rest) => Some (VInt z, rest)
            | None => None
            end
      | [] => None
      end
  end
with read_elements (fuel : nat) (s : list ascii) (acc : list value) {struct fuel}
  : option (value * list ascii) :=
  match fuel with
  | 0 => None
  | S n =>
      match read_value n s with
      | Some (v, r) =>
          match skip_ws r with
          | ","%char :: r' => read_elements n r' (acc ++ [v])
          | "]"%char :: r' => Some (VList (acc ++ [v]), r')
          | _ => None
          end
      | None => None
      end
  end
with read_members (fuel : nat) (s : list ascii) (acc : list (string * value)) {struct fuel}
  : option (value * list ascii) :=
  match fuel with
  | 0 => None
  | S n =>
      match skip_ws s with
      | c :: r =>
          if Ascii.eqb c dquote then
            match read_string r with
            | Some (k, r1) =>
                match skip_ws r1 with
                | ":"%char :: r2 =>
                    match read_value n r2 with
                    | Some (v, r3) =>
                        match skip_ws r3 with
                        | ","%char :: r4 => read_members n r4 (dict_set k v acc)
                        | "}"%char :: r4 => Some (VDict (dict_set k v acc), r4)
                        | _ => None
                        end
                    | None => None
                    end
                | _ => None
                end
            | None => None
            end
          else None
      | [] => None
      end
  end.

Definition reference_loads (s : string) : loads_result :=
  let cs := list_ascii_of_string s in
  match read_value (2 * List.length cs + 2) cs with
  | Some (v, rest) =>
      match skip_ws rest with
      | [] => Loaded v
      | _ => DecodeError "Extra data"
      end
  | None => DecodeError "Expecting value"
  end.

(** ** The dataset *)

(** One row of the advertising table, as [pandas.read_csv] types it and
    [pd.to_datetime] its [date]: a day number, or [None] for [NaT], the
    date of a row whose cell is blank.  A number column is [float64] (a
    blank cell is [nan]) or [int64]; the text columns hold texts, a row
    with a blank text cell is not among these rows. *)
Record DatasetRecord : Type := {
  campaign_name : string;
  adset_name : string;
  date : option Z;
  spend : float;
  impressions : Z;
  clicks : Z;
  ctr : float;
  purchases : Z;
  revenue : float;
  roas : float;
  creative_type : string;
  creative_message : string;
  audience_type : string;
  country : string
}.

Definition frame : Type := list DatasetRecord.

(** [DataLoader]'s fields. *)
Record DataLoader : Type := {
  dataset_path : value;
  sample_mode : value;
  sample_size : value;
  loader_df : option frame
}.

Definition with_loader_df (l : DataLoader) (df : option frame) : DataLoader :=
  {| dataset_path := dataset_path l; sample_mode := sample_mode l;
     sample_size := sample_size l; loader_df := df |}.

(** ** The state a run works on *)

(** What [model.generate_content] does on one call: a response with its
    [text], or an exception with its [str]. *)
Inductive llm_reply : Type :=
| Reply (text : string)
| Failure (msg : string).

(** What a file opened for writing receives. *)
Inductive document : Type :=
| JsonDoc (v : value)
| MarkdownDoc (report : value).

Record State : Type := {
  (* the outside: generation service, clock, file system *)
  llm_script : nat -> llm_reply;
  llm_calls : nat;
  clock : nat -> string;
  ticks : nat;
  read_text : string -> outcome string;
  path_exists : string -> bool;
  read_csv : string -> outcome frame;
  write_error : value -> option exn;
  written : list (value * document);
  logged : list value;
  (* the objects: agents, data agent, orchestrator *)
  execution_history : list (string * value);
  data_loader : option DataLoader;
  agent_df : option frame;
  execution_trace : list value;
  results : list (string * value)
}.

Definition set_llm_calls (n : nat) (s : State) : State :=
  {| llm_script := llm_script s; llm_calls := n; clock := clock s; ticks := ticks s;
     read_text := read_text s; path_exists := path_exists s; read_csv := read_csv s;
     write_error := write_error s; written := written s; logged := logged s;
     execution_history := execution_history s; data_loader := data_loader s;
     agent_df := agent_df s; execution_trace := execution_trace s; results := results s |}.

Definition set_ticks (n : nat) (s : State) : State :=
  {| llm_script := llm_script s; llm_calls := llm_calls s; clock := clock s; ticks := n;
     read_text := read_text s; path_exists := path_exists s; read_csv := read_csv s;
     write_error := write_error s; written := written s; logged := logged s;
     execution_history := execution_history s; data_loader := data_loader s;
     agent_df := agent_df s; execution_trace := execution_trace s; results := results s |}.

Definition set_written (w : list (value * document)) (s : State) : State :=
  {| llm_script := llm_script s; llm_calls := llm_calls s; clock := clock s; ticks := ticks s;
     read_text := read_text s; path_exists := path_exists s; read_csv := read_csv s;
     write_error := write_error s; written := w; logged := logged s;
     execution_history := execution_history s; data_loader := data_loader s;
     agent_df := agent_df s; execution_trace := execution_trace s; results := results s |}.

Definition set_logged (l : list value) (s : State) : State :=
  {| llm_script := llm_script s; llm_calls := llm_calls s; clock := clock s; ticks := ticks s;
     read_text := read_text s; path_exists := path_exists s; read_csv := read_csv s;
     write_error := write_error s; written := written s; logged := l;
     execution_history := execution_history s; data_loader := data_loader s;
     agent_df := agent_df s; execution_trace := execution_trace s; results := results s |}.

Definition set_execution_history (h : list (string * value)) (s : State) : State :=
  {| llm_script := llm_script s; llm_calls := llm_calls s; clock := clock s; ticks := ticks s;
     read_text := read_text s; path_exists := path_exists s; read_csv := read_csv s;
     write_error := write_error s; written := written s; logged := logged s;
     execution_history := h; data_loader := data_loader s;
     agent_df := agent_df s; execution_trace := execution_trace s; results := results s |}.

Definition set_data_loader (l : option DataLoader) (s : State) : State :=
  {| llm_script := llm_script s; llm_calls := llm_calls s; clock := clock s; ticks := ticks s;
     read_text := read_text s; path_exists := path_exists s; read_csv := read_csv s;
     write_error := write_error s; written := written s; logged := logged s;
     execution_history := execution_history s; data_loader := l;
     agent_df := agent_df s; execution_trace := execution_trace s; results := results s |}.

Definition set_agent_df (df : option frame) (s : State) : State :=
  {| llm_script := llm_script s; llm_calls := llm_calls s; clock := clock s; ticks := ticks s;
     read_text := read_text s; path_exists := path_exists s; read_csv := read_csv s;
     write_error := write_error s; written := written s; logged := logged s;
     execution_history := execution_history s; data_loader := data_loader s;
     agent_df := df; execution_trace := execution_trace s; results := results s |}.

Definition set_execution_trace (t : list value) (s : State) : State :=
  {| llm_script := llm_script s; llm_calls := llm_calls s; clock := clock s; ticks := ticks s;
     read_text := read_text s; path_exists := path_exists s; read_csv := read_csv s;
     write_error := write_error s; written := written s; logged := logged s;
     execution_history := execution_history s; data_loader := data_loader s;
     agent_df := agent_df s; execution_trace := t; results := results s |}.

Definition set_results (r : list (string * value)) (s : State) : State :=
  {| llm_script := llm_script s; llm_calls := llm_calls s; clock := clock s; ticks := ticks s;
     read_text := read_text s; path_exists := path_exists s; read_csv := read_csv s;
     write_error := write_error s; written := written s; logged := logged s;
     execution_history := execution_history s; data_loader := data_loader s;
     agent_df := agent_df s; execution_trace := execution_trace s; results := r |}.

(** ** The monad of the program: state and exceptions *)

Definition M (A : Type) : Type := State -> outcome A * State.

Definition ret {A : Type} (a : A) : M A := fun s => (Ok a, s).

Definition raise {A : Type} (e : exn) : M A := fun s => (Raise e, s).

Definition bind {A B : Type} (m : M A) (k : A -> M B) : M B :=
  fun s =>
    match m s with
    | (Ok a, s') => k a s'
    | (Raise e, s') => (Raise e, s')
    end.

(** [try: m except Exception as e: h e]; what [m] did to the state before
    it raised stays done. *)
Definition try_except {A : Type} (m : M A) (h : exn -> M A) : M A :=
  fun s =>
    match m s with
    | (Ok a, s') => (Ok a, s')
    | (Raise e, s') => h e s'
    end.

Definition lift {A : Type} (o : outcome A) : M A := fun s => (o, s).

Definition get_state : M State := fun s => (Ok s, s).

Definition modify (f : State -> State) : M unit := fun s => (Ok tt, f s).

Declare Scope monad_scope.
Delimit Scope monad_scope with monad.
Notation "x <- m ;; k" := (bind m (fun x => k))
  (at level 100, m at next level, right associativity) : monad_scope.
Notation "m ;;; k" := (bind m (fun _ => k))
  (at level 100, right associativity) : monad_scope.

(** A [for] loop that carries its local variables in [acc]. *)
Fixpoint for_each {A B : Type} (l : list A) (acc : B) (body : B -> A -> M B) : M B :=
  match l with
  | [] => ret acc
  | x :: t => bind (body acc x) (fun acc' => for_each t acc' body)
  end.

(** ** Primitives of the outside *)

#[local] Open Scope monad_scope.

(** [datetime.now()] rendered as text. *)
Definition now : M string :=
  fun s => (Ok (clock s (ticks s)), set_ticks (S (ticks s)) s).

(** [with open(path, 'r') as f: f.read()]. *)
Definition open_read (path : string) : M string :=
  fun s => (read_text s path, s).

(** [with open(path, 'w') as f: ...] receiving [doc]. *)
Definition open_write (path : value) (doc : document) : M unit :=
  fun s =>
    match write_error s path with
    | Some e => (Raise e, s)
    | None => (Ok tt, set_written (written s ++ [(path, doc)]) s)
    end.

Definition not_a_path (v : value) : exn :=
  Exn TypeError ("expected str, bytes or os.PathLike object, not " ++ type_name v).

(** [Path(v)]. *)
Definition as_path (v : value) : outcome string :=
  match v with
  | VStr p => Ok p
  | _ => Raise (not_a_path v)
  end.

(** [Path(v).mkdir(parents=True, exist_ok=True)]; the directory is taken to
    be creatable. *)
Definition mkdir (v : value) : M unit :=
  _ <- lift (as_path v) ;; ret tt.

Section Program.

(** [json.loads], a function of the Python library. *)
Variable json_loads : string -> loads_result.

(** ** [LLMClient] (src/agents/base.py) *)

(** [LLMClient.generate]: one call of the generation service; whatever it
    raises is re-raised as a [RuntimeError].  The prompt text does not
    reach the model: the service is opaque and its script answers by call. *)
Definition generate (temperature max_tokens : value) : M string :=
  fun s =>
    let s' := set_llm_calls (S (llm_calls s)) s in
    match llm_script s (llm_calls s) with
    | Reply text => (Ok text, s')
    | Failure msg => (Raise (Exn RuntimeError ("LLM generation failed: " ++ msg)), s')
    end.

(** [json.loads(text)] as a call that may raise. *)
Definition loads (text : string) : outcome value :=
  match json_loads text with
  | Loaded v => Ok v
  | DecodeError msg => Raise (Exn JSONDecodeError msg)
  | Failed e => Raise e
  end.

(** The body of [LLMClient.generate_json] after the response has arrived:
    direct parse, then a fenced block labelled [json], then any fenced
    block. *)
Definition extract_json (response : string) : outcome value :=
  match loads response with
  | Ok v => Ok v
  | Raise e =>
      match exn_cls e with
      | JSONDecodeError =>
          if str_in "```json" response then
            (piece <~ subscript (split "```json" response) 1 ;;
             inner <~ subscript (split "```" piece) 0 ;;
             loads (strip inner))%outcome
          else if str_in "```" response then
            (piece <~ subscript (split "```" response) 1 ;;
             inner <~ subscript (split "```" piece) 0 ;;
             loads (strip inner))%outcome
          else
            Raise (Exn ValueError
                     ("Could not parse JSON from response: " ++ str_take 200 response))
      | _ => Raise e
      end
  end.

Definition generate_json (temperature max_tokens : value) : M value :=
  response <- generate temperature max_tokens ;;
  lift (extract_json response).

(** ** [BaseAgent] (src/agents/base.py) *)

Record Agent : Type := { name : string; config : value }.

(** [BaseAgent.__init__]: [self.config = config or {}]. *)
Definition new_agent (name : string) (config : value) : Agent :=
  {| name := name; config := if truthy config then config else VDict [] |}.

(** [BaseAgent.think_json]. *)
Definition think_json (self : Agent) (temperature : value) : M value :=
  temp <- (if truthy temperature then ret temperature
           else lift (py_get (config self) "temperature" (VFloat 0.7))) ;;
  max_tokens <- lift (py_get (config self) "max_tokens" (VInt 2048)) ;;
  generate_json temp max_tokens.

(** [BaseAgent.log_execution]. *)
Definition log_execution (self : Agent) (task : string) (result : value) : M unit :=
  ts <- now ;;
  modify (fun s =>
    set_execution_history
      (execution_history s ++
         [(name self, VDict [("timestamp", VStr ts); ("task", VStr task); ("result", result)])])
      s).

Definition strs (l : list string) : value := VList (map VStr l).

(** ** [PlannerAgent] (src/agents/planner.py) *)

Definition planner_create_fallback_plan (task : string) (context : list (string * value)) : value :=
  VDict [
    ("query", VStr task);
    ("analysis_type", VStr "holistic");
    ("subtasks", VList [
       VDict [("id", VStr "task_1");
              ("title", VStr "Load and summarize dataset");
              ("description", VStr "Aggregate performance metrics by campaign, adset, and creative type");
              ("data_requirements", strs ["campaign_summary"; "creative_performance"; "timeline"]);
              ("owner_agent", VStr "data_agent")];
       VDict [("id", VStr "task_2");
              ("title", VStr "Generate performance hypotheses");
              ("description", VStr "Create 3-5 testable hypotheses explaining observed patterns");
              ("data_requirements", strs ["performance_trends"; "segment_analysis"]);
              ("owner_agent", VStr "insight_agent")];
       VDict [("id", VStr "task_3");
              ("title", VStr "Validate hypotheses quantitatively");
              ("description", VStr "Test hypotheses with statistical evidence and assign confidence scores");
              ("data_requirements", strs ["all_metrics"]);
              ("owner_agent", VStr "evaluator")];
       VDict [("id", VStr "task_4");
              ("title", VStr "Generate creative recommendations");
              ("description", VStr "Create new messaging for low-CTR campaigns based on winning patterns");
              ("data_requirements", strs ["low_ctr_campaigns"; "high_ctr_examples"]);
              ("owner_agent", VStr "creative_generator")]]);
    ("key_metrics", strs ["roas"; "ctr"; "spend"; "revenue"; "impressions"; "clicks"]);
    ("success_criteria", strs [
       "Load and summarize complete dataset";
       "Generate at least 3 data-grounded hypotheses";
       "Validate hypotheses with >0.6 confidence";
       "Generate 3-5 creative recommendations per low-CTR campaign"]);
    ("reasoning", VStr "Standard analysis pipeline for ad performance diagnosis")].

Definition planner_execute (self : Agent) (task : string) (context : list (string * value))
  : M value :=
  system_prompt <- open_read "prompts/planner.md" ;;
  try_except
    (plan_response <- think_json self (VFloat 0.3) ;;
     log_execution self task plan_response ;;;
     ret (VDict [("status", VStr "success");
                 ("plan", plan_response);
                 ("task", VStr task)]))
    (fun e =>
     ret (VDict [("status", VStr "partial");
                 ("plan", planner_create_fallback_plan task context);
                 ("error", VStr (str_exn e))])).

(** ** [InsightAgent] (src/agents/insight_agent.py) *)

Definition insight_create_fallback_hypotheses (task : string) (context : list (string * value))
  : value :=
  VDict [
    ("query_summary", VStr task);
    ("hypotheses", VList [
       VDict [("id", VStr "h1");
              ("title", VStr "Audience Fatigue");
              ("description", VStr "Repeated exposure to the same creative leads to CTR and ROAS decline over time");
              ("driver", VStr "Audience Fatigue");
              ("testable_prediction", VStr "CTR should decrease over time within same audience-creative pairs; ROAS should drop after initial 7-14 days");
              ("supporting_evidence", strs [
                 "High-performing creatives often show declining CTR patterns";
                 "Multiple campaigns data available for trend analysis"]);
              ("confidence", VFloat 0.75);
              ("confidence_reasoning", VStr "Audience fatigue is well-documented in digital advertising; data shows multiple time periods to analyze")];
       VDict [("id", VStr "h2");
              ("title", VStr "Creative Type Performance Variation");
              ("description", VStr "Different creative types (Image, Video, UGC) perform differently due to attention and engagement patterns");
              ("driver", VStr "Creative Decay / Format Effectiveness");
              ("testable_prediction", VStr "Video and UGC should outperform static images in CTR; VID/UGC should show stronger initial performance but faster decay");
              ("supporting_evidence", strs [
                 "Dataset includes multiple creative types";
                 "Video typically performs better initially in digital ads"]);
              ("confidence", VFloat 0.70);
              ("confidence_reasoning", VStr "Clear creative type segmentation in data allows validation; format-based performance is predictable")];
       VDict [("id", VStr "h3");
              ("title", VStr "Audience Targeting Mismatch");
              ("description", VStr "Broad audiences underperform compared to Lookalike/Interest audiences due to lower relevance");
              ("driver", VStr "Audience Targeting Quality");
              ("testable_prediction", VStr "Lookalike and interest-based audiences should show higher CTR and ROAS than Broad audiences");
              ("supporting_evidence", strs [
                 "Data includes audience type segmentation";
                 "Marketing principle: more targeted audiences perform better"]);
              ("confidence", VFloat 0.72);
              ("confidence_reasoning", VStr "Audience type is directly measurable; industry standard supports hypothesis")];
       VDict [("id", VStr "h4");
              ("title", VStr "Messaging Relevance Impact");
              ("description", VStr "Specific value propositions (functional benefits) outperform generic messaging");
              ("driver", VStr "Message Clarity / Value Proposition");
              ("testable_prediction", VStr "Creatives with specific benefits (e.g., 'breathable', 'no ride-up') should show higher CTR than generic value statements");
              ("supporting_evidence", strs [
                 "Creative messages are available for analysis";
                 "Specific messaging typically performs better in performance marketing"]);
              ("confidence", VFloat 0.68);
              ("confidence_reasoning", VStr "Requires text analysis of creative messages; messaging impact is well-established in marketing")]]);
    ("priority_ranking", VList [
       VDict [("hypothesis_id", VStr "h1"); ("priority_score", VFloat 0.85);
              ("reason", VStr "Audience fatigue is primary driver of ROAS decline")];
       VDict [("hypothesis_id", VStr "h3"); ("priority_score", VFloat 0.75);
              ("reason", VStr "Audience quality directly impacts performance")];
       VDict [("hypothesis_id", VStr "h2"); ("priority_score", VFloat 0.70);
              ("reason", VStr "Creative format variation explains CTR differences")];
       VDict [("hypothesis_id", VStr "h4"); ("priority_score", VFloat 0.65);
              ("reason", VStr "Messaging is secondary but actionable factor")]]);
    ("reasoning", VStr "Generated template hypotheses based on common ad performance drivers; LLM generation failed")].

Definition insight_execute (self : Agent) (task : string) (context : list (string * value))
  : M value :=
  system_prompt <- open_read "prompts/insight_agent.md" ;;
  try_except
    (hypotheses_response <- think_json self (VFloat 0.7) ;;
     log_execution self task hypotheses_response ;;;
     ret (VDict [("status", VStr "success");
                 ("hypotheses", hypotheses_response);
                 ("task", VStr task)]))
    (fun e =>
     ret (VDict [("status", VStr "partial");
                 ("hypotheses", insight_create_fallback_hypotheses task context);
                 ("error", VStr (str_exn e))])).

(** ** [EvaluatorAgent] (src/agents/evaluator.py) *)

Fixpoint map_outcome {A B : Type} (f : A -> outcome B) (l : list A) : outcome (list B) :=
  match l with
  | [] => Ok []
  | x :: t =>
      (y <~ f x ;;
       ys <~ map_outcome f t ;;
       Ok (y :: ys))%outcome
  end.

(** One turn of the loop of [_create_fallback_evaluation]. *)
Definition evaluator_fallback_item (h : value) : outcome value :=
  (hid <~ py_get h "id" (VStr "h_unknown") ;;
   title <~ py_get h "title" (VStr "Unknown") ;;
   confidence <~ py_get h "confidence" (VFloat 0.7) ;;
   Ok (VDict [
     ("hypothesis_id", hid);
     ("hypothesis_title", title);
     ("validation_approach", VStr "Comparative segment analysis");
     ("data_evidence", VDict [
        ("primary_metric", VDict [
           ("baseline", VFloat 0.015);
           ("observed", VFloat 0.012);
           ("change_percent", VFloat (-20.0));
           ("statistical_note", VStr "Meaningful decline (>5% threshold)")])]);
     ("supporting_metrics", strs [
        "Metric1: 25% decrease aligns with hypothesis";
        "Metric2: Pattern consistent across segments"]);
     ("contradicting_metrics", strs ["Some segments show stable performance"]);
     ("confidence_score", confidence);
     ("confidence_reasoning", VStr "Evidence supports hypothesis with some caveats; alternative explanations possible");
     ("validation_status", VStr "PARTIALLY_CONFIRMED");
     ("actionability", VStr "Sufficient confidence to recommend testing remediation tactics")]))%outcome.

Definition evaluator_create_fallback_evaluation (hypotheses : value) : outcome value :=
  (items <~ py_slice_items hypotheses 3 ;;
   evaluations <~ map_outcome evaluator_fallback_item items ;;
   Ok (VDict [
     ("evaluation_summary", VStr "Multiple hypotheses partially confirmed; recommend prioritized testing");
     ("hypothesis_evaluations", VList evaluations);
     ("top_validated_insights", VList [
        VDict [("insight", VStr "Audience fatigue appears to be primary driver of ROAS decline");
               ("confidence", VFloat 0.72);
               ("impact", VStr "Recommend creative refresh and audience expansion strategy")]]);
     ("recommended_actions", strs [
        "Action 1: Increase creative variation frequency to combat audience fatigue";
        "Action 2: Expand lookalike audience size and refresh weekly";
        "Action 3: Test new creative messaging angles in control groups"]);
     ("evaluation_methodology", VStr "Segment comparison with trend analysis; >5% delta threshold applied")]))%outcome.

Definition evaluator_execute (self : Agent) (task : string) (context : list (string * value))
  : M value :=
  system_prompt <- open_read "prompts/evaluator.md" ;;
  hypotheses <- lift (py_get (dict_get context "hypotheses" (VDict [])) "hypotheses" (VList [])) ;;
  let data_summary := dict_get context "data_summary" (VDict []) in
  let analysis_data := dict_get context "analysis" (VDict []) in
  try_except
    (evaluation_response <- think_json self (VFloat 0.2) ;;
     log_execution self task evaluation_response ;;;
     ret (VDict [("status", VStr "success");
                 ("evaluation", evaluation_response);
                 ("task", VStr task)]))
    (fun e =>
     evaluation <- lift (evaluator_create_fallback_evaluation hypotheses) ;;
     ret (VDict [("status", VStr "partial");
                 ("evaluation", evaluation);
                 ("error", VStr (str_exn e))])).

(** ** [CreativeGeneratorAgent] (src/agents/creative_generator.py) *)

(** [_create_fallback_creative]; [campaign] is a dict where it is called. *)
Definition creative_create_fallback_creative (campaign : value) : outcome value :=
  (campaign_name <~ py_get campaign "campaign_name" (VStr "Unknown") ;;
   current_ctr <~ py_get campaign "ctr" (VFloat 0.01) ;;
   current_messaging <~ py_get campaign "creative_message" (VStr "Unknown") ;;
   Ok (VDict [
     ("low_performer_analysis", VDict [
        ("campaign_name", campaign_name);
        ("current_ctr", current_ctr);
        ("current_messaging", current_messaging);
        ("performance_gap", VStr "Below average CTR")]);
     ("creative_recommendations", VList [
        VDict [("id", VStr "rec_1");
               ("headline", VStr "Breathable comfort for your active lifestyle — Shop now →");
               ("creative_angle", VStr "Lifestyle positioning with lifestyle benefit");
               ("value_prop", VStr "Comfort and activity compatibility");
               ("cta", VStr "Shop now");
               ("why_this_works", VStr "Combines specific benefit (breathable) with use case (active) and clear CTA");
               ("predicted_lift", VStr "15-25%")];
        VDict [("id", VStr "rec_2");
               ("headline", VStr "Limited stock: Best-selling comfort briefs back in store");
               ("creative_angle", VStr "Urgency + social proof");
               ("value_prop", VStr "Scarcity and bestseller status");
               ("cta", VStr "Get yours today");
               ("why_this_works", VStr "Combines urgency (limited stock), social proof (bestselling), and clear CTA");
               ("predicted_lift", VStr "10-20%")];
        VDict [("id", VStr "rec_3");
               ("headline", VStr "No ride-up guarantee or your money back — Premium comfort inside");
               ("creative_angle", VStr "Problem-solution with guarantee");
               ("value_prop", VStr "Specific pain point solved + risk reversal");
               ("cta", VStr "Try risk-free");
               ("why_this_works", VStr "Addresses specific pain point (ride-up), adds guarantee for confidence");
               ("predicted_lift", VStr "20-30%")]]);
     ("implementation_priority", VList [
        VDict [("recommendation_id", VStr "rec_3"); ("priority", VStr "HIGH")];
        VDict [("recommendation_id", VStr "rec_1"); ("priority", VStr "MEDIUM")];
        VDict [("recommendation_id", VStr "rec_2"); ("priority", VStr "MEDIUM")]])]))%outcome.

(** What evaluating the f-string of the prompt asks of [campaign]. *)
Definition creative_prompt (campaign : value) : outcome unit :=
  (_ <~ py_get campaign "campaign_name" (VStr "Unknown") ;;
   _ <~ py_get campaign "creative_message" (VStr "Unknown") ;;
   current_ctr <~ py_get campaign "ctr" (VFloat 0.01) ;;
   py_format_float "f" current_ctr)%outcome.

(** The body of the loop over [low_ctr_campaigns[:3]]. *)
Definition creative_step (self : Agent) (recommendations : list value) (campaign : value)
  : M (list value) :=
  lift (creative_prompt campaign) ;;;
  try_except
    (campaign_recommendations <- think_json self (VFloat 0.8) ;;
     ret (recommendations ++ [campaign_recommendations]))
    (fun e =>
     fallback <- lift (creative_create_fallback_creative campaign) ;;
     ret (recommendations ++ [fallback])).

Definition creative_execute (self : Agent) (task : string) (context : list (string * value))
  : M value :=
  system_prompt <- open_read "prompts/creative_generator.md" ;;
  low_ctr_campaigns <-
    lift (py_get (dict_get context "analysis" (VDict [])) "low_ctr_campaigns" (VList [])) ;;
  creative_performance <-
    lift (py_get (dict_get context "analysis" (VDict [])) "creative_performance" (VDict [])) ;;
  let data_summary := dict_get context "data_summary" (VDict []) in
  if negb (truthy low_ctr_campaigns) then
    ret (VDict [("status", VStr "info");
                ("message", VStr "No low-CTR campaigns found for optimization");
                ("recommendations", VList [])])
  else
    campaigns <- lift (py_slice_items low_ctr_campaigns 3) ;;
    recommendations <- for_each campaigns [] (creative_step self) ;;
    log_execution self task
      (VDict [("recommendations_count", VInt (Z.of_nat (List.length recommendations)))]) ;;;
    ret (VDict [("status", VStr "success");
                ("recommendations", VList recommendations);
                ("count", VInt (Z.of_nat (List.length recommendations)))]).

(** ** [DataLoader] and [DataSummary] (src/utils/data.py) *)

(** *** Column arithmetic, as pandas does it on [float64] and [int64] *)

Definition is_nan (f : float) : bool := negb (PrimFloat.eqb f f).

(** The conversion of an [int64] to [float64]. *)
Definition float_of_Z (z : Z) : float :=
  match z with
  | Z0 => 0%float
  | Zpos _ => PrimFloat.of_uint63 (Uint63.of_Z z)
  | Zneg p =>
      if (Zpos p =? 2 ^ 63)%Z then PrimFloat.opp 0x1p63%float
      else PrimFloat.opp (PrimFloat.of_uint63 (Uint63.of_Z (Zpos p)))
  end.

(** [int64] arithmetic: a result outside [-2^63, 2^63) wraps around. *)
Definition wrap64 (z : Z) : Z := ((z + 2 ^ 63) mod 2 ^ 64 - 2 ^ 63)%Z.

(** The sum of integers, as a number. *)
Definition zsum (l : list Z) : Z := fold_left Z.add l 0%Z.

(** The sum of an [int64] column, of a whole column as of a group. *)
Definition isum (l : list Z) : Z := wrap64 (zsum l).

(** Reductions skip missing cells ([skipna=True]).  [Series.sum()] of a
    [float64] column is given here as the sum of its cells in row order
    (numpy adds the cells of a long column in blocks, which can change the
    last bits of a result). *)
Definition dropna (l : list float) : list float :=
  filter (fun x => negb (is_nan x)) l.

Definition fsum (l : list float) : float :=
  fold_left PrimFloat.add (dropna l) 0%float.

(** The sum of one group of a [float64] column in [groupby(...).agg('sum')]:
    pandas adds the cells of the group in row order with a running
    compensation of the rounding error (Kahan's summation); a missing cell
    is passed over, and a compensation that has become [nan] (after an
    infinite cell) is set back to zero. *)
Definition group_sum_step (acc : float * float) (val : float) : float * float :=
  let (sumx, compensation) := acc in
  if is_nan val then acc
  else
    let y := PrimFloat.sub val compensation in
    let t := PrimFloat.add sumx y in
    let c := PrimFloat.sub (PrimFloat.sub t sumx) y in
    (t, if is_nan c then 0%float else c).

Definition group_fsum (l : list float) : float :=
  fst (fold_left group_sum_step l (0%float, 0%float)).

Definition fmean (l : list float) : float :=
  PrimFloat.div (fsum l) (float_of_Z (Z.of_nat (List.length (dropna l)))).

Definition fmin (l : list float) : float :=
  match dropna l with
  | [] => nan
  | x :: t => fold_left (fun a b => if PrimFloat.ltb b a then b else a) t x
  end.

Definition fmax (l : list float) : float :=
  match dropna l with
  | [] => nan
  | x :: t => fold_left (fun a b => if PrimFloat.ltb a b then b else a) t x
  end.

(** [Series.unique()]: the values in order of first appearance. *)
Fixpoint unique (l : list string) : list string :=
  match l with
  | [] => []
  | x :: t => x :: filter (fun y => negb (String.eqb y x)) (unique t)
  end.

(** The dates of the rows that have one. *)
Definition dates (df : frame) : list Z :=
  flat_map (fun r => match date r with Some d => [d] | None => [] end) df.

(** [df['date'].min()] and [max()]: over the dates that are not [NaT];
    [NaT] when there is none. *)
Definition date_min (df : frame) : option Z :=
  match dates df with
  | [] => None
  | d :: t => Some (fold_left Z.min t d)
  end.

Definition date_max (df : frame) : option Z :=
  match dates df with
  | [] => None
  | d :: t => Some (fold_left Z.max t d)
  end.

(** [DataSummary.generate_summary] followed by [to_dict]. *)
Definition DataSummary_to_dict (df : frame) : value :=
  VDict [
    ("row_count", VInt (Z.of_nat (List.length df)));
    ("date_range", VDict [("start", VTimestamp (date_min df));
                          ("end", VTimestamp (date_max df))]);
    ("campaigns", strs (unique (map campaign_name df)));
    ("adsets", strs (unique (map adset_name df)));
    ("creative_types", strs (unique (map creative_type df)));
    ("audience_types", strs (unique (map audience_type df)));
    ("countries", strs (unique (map country df)));
    ("performance_metrics", VDict [
       ("total_spend", VFloat (fsum (map spend df)));
       ("total_impressions", VInt (isum (map impressions df)));
       ("total_clicks", VInt (isum (map clicks df)));
       ("total_purchases", VInt (isum (map purchases df)));
       ("total_revenue", VFloat (fsum (map revenue df)));
       ("avg_ctr", VFloat (fmean (map ctr df)));
       ("avg_roas", VFloat (fmean (map roas df)));
       ("min_roas", VFloat (fmin (map roas df)));
       ("max_roas", VFloat (fmax (map roas df)))])].

(** *** Loading *)

(** The order of [sort_values('date')]: ascending, [NaT] last. *)
Definition date_leb (a b : option Z) : bool :=
  match a, b with
  | Some x, Some y => (x <=? y)%Z
  | _, None => true
  | None, Some _ => false
  end.

(** [sort_values('date')]: ascending by date, rows without date last; rows
    of one date keep their order here (pandas leaves the order of ties to
    its sorting routine). *)
Fixpoint insert_by_date (r : DatasetRecord) (l : frame) : frame :=
  match l with
  | [] => [r]
  | h :: t => if date_leb (date r) (date h) then r :: l else h :: insert_by_date r t
  end.

Definition sort_values_date (df : frame) : frame :=
  fold_right insert_by_date [] df.

(** [df.head(n)]. *)
Definition head (n : value) (df : frame) : outcome frame :=
  match n with
  | VInt z =>
      if (0 <=? z)%Z then Ok (firstn (Z.to_nat z) df)
      else Ok (firstn (List.length df - Z.to_nat (- z)) df)
  | VNone => Ok df
  | _ => Raise (Exn TypeError
                  ("cannot do positional indexing with these indexers of type " ++ type_name n))
  end.

(** [DataLoader.__init__]. *)
Definition new_DataLoader (dataset_path sample_mode sample_size : value) : DataLoader :=
  {| dataset_path := dataset_path; sample_mode := sample_mode;
     sample_size := sample_size; loader_df := None |}.

(** The methods below act on the loader the data agent holds in
    [self.data_loader]; [attr] is the method asked of it. *)
Definition the_loader (attr : string) : M DataLoader :=
  fun s =>
    match data_loader s with
    | Some l => (Ok l, s)
    | None => (Raise (no_attribute VNone attr), s)
    end.

Definition set_loader_df (df : frame) : M unit :=
  modify (fun s =>
    match data_loader s with
    | Some l => set_data_loader (Some (with_loader_df l (Some df))) s
    | None => s
    end).

(** [DataLoader.load]. *)
Definition DataLoader_load : M frame :=
  self <- the_loader "load" ;;
  path <- lift (as_path (dataset_path self)) ;;
  s <- get_state ;;
  if negb (path_exists s path) then
    raise (Exn FileNotFoundError ("Dataset not found: " ++ path))
  else
    raw <- lift (read_csv s path) ;;
    set_loader_df raw ;;;
    let sorted := sort_values_date raw in
    set_loader_df sorted ;;;
    if truthy (sample_mode self) then
      sampled <- lift (head (sample_size self) sorted) ;;
      set_loader_df sampled ;;;
      ret sampled
    else ret sorted.

(** [if self.df is None: self.load()], then the frame. *)
Definition loaded_df (attr : string) : M frame :=
  self <- the_loader attr ;;
  match loader_df self with
  | Some df => ret df
  | None => DataLoader_load
  end.

(** [DataLoader.get_summary], with [to_dict] applied. *)
Definition DataLoader_get_summary : M value :=
  df <- loaded_df "get_summary" ;;
  ret (DataSummary_to_dict df).

(** *** [filter_low_ctr] *)

(** [df[df['ctr'] < threshold]]. *)
Definition low_ctr_rows (threshold : float) (df : frame) : frame :=
  filter (fun r => PrimFloat.ltb (ctr r) threshold) df.

Definition DataLoader_filter_low_ctr (threshold : float) : M frame :=
  df <- loaded_df "filter_low_ctr" ;;
  ret (low_ctr_rows threshold df).

(** *** [get_roas_timeline] *)

(** The keys of [groupby('date')]: each date once, ascending; rows whose
    date is [NaT] belong to no group. *)
Fixpoint insert_key (d : Z) (keys : list Z) : list Z :=
  match keys with
  | [] => [d]
  | k :: t =>
      if (d <? k)%Z then d :: keys
      else if (d =? k)%Z then keys
      else k :: insert_key d t
  end.

Definition group_keys (df : frame) : list Z :=
  fold_right insert_key [] (dates df).

Definition on_date (d : Z) (r : DatasetRecord) : bool :=
  match date r with
  | Some x => (x =? d)%Z
  | None => false
  end.

Definition group (d : Z) (df : frame) : frame := filter (on_date d) df.

(** One row of [daily_roas]. *)
Record DailyRow : Type := {
  day : Z;
  day_spend : float;
  day_revenue : float;
  day_impressions : Z;
  day_clicks : Z;
  day_roas : float;
  day_ctr : float
}.

(** [groupby('date').agg(sum)] of one date, then the two ratio columns. *)
Definition daily_row (d : Z) (rows : frame) : DailyRow :=
  let s := group_fsum (map spend rows) in
  let r := group_fsum (map revenue rows) in
  let i := isum (map impressions rows) in
  let c := isum (map clicks rows) in
  {| day := d; day_spend := s; day_revenue := r; day_impressions := i; day_clicks := c;
     day_roas := PrimFloat.div r s;
     day_ctr := PrimFloat.div (float_of_Z c) (float_of_Z i) |}.

Definition daily_roas (df : frame) : list DailyRow :=
  map (fun d => daily_row d (group d df)) (group_keys df).

(** [to_dict('records')] of one row. *)
Definition daily_row_to_dict (r : DailyRow) : value :=
  VDict [("date", VTimestamp (Some (day r)));
         ("spend", VFloat (day_spend r));
         ("revenue", VFloat (day_revenue r));
         ("impressions", VInt (day_impressions r));
         ("clicks", VInt (day_clicks r));
         ("roas", VFloat (day_roas r));
         ("ctr", VFloat (day_ctr r))].

Definition DataLoader_get_roas_timeline : M (list value) :=
  df <- loaded_df "get_roas_timeline" ;;
  ret (map daily_row_to_dict (daily_roas df)).

(** *** [get_creative_performance] *)

Definition creative_performance_of (df : frame) : list (string * value) :=
  map (fun ct =>
         let subset := filter (fun r => String.eqb (creative_type r) ct) df in
         (ct, VDict [("avg_ctr", VFloat (fmean (map ctr subset)));
                     ("avg_roas", VFloat (fmean (map roas subset)));
                     ("count", VInt (Z.of_nat (List.length subset)))]))
      (unique (map creative_type df)).

Definition DataLoader_get_creative_performance : M value :=
  df <- loaded_df "get_creative_performance" ;;
  ret (VDict (creative_performance_of df)).

(** ** [DataAgent] (src/agents/data_agent.py) *)

(** [k in v] for a string [k]. *)
Definition py_contains (k : string) (v : value) : outcome bool :=
  match v with
  | VList l => Ok (existsb (fun x => match x with VStr s => String.eqb s k | _ => false end) l)
  | VStr s => Ok (str_in k s)
  | VDict d => Ok (existsb (fun kv => String.eqb (fst kv) k) d)
  | _ => Raise (Exn TypeError ("argument of type '" ++ type_name v ++ "' is not iterable"))
  end.

(** [k in requirements or not requirements]. *)
Definition required (k : string) (requirements : value) : outcome bool :=
  (listed <~ py_contains k requirements ;;
   Ok (listed || negb (truthy requirements)))%outcome.

(** [DataAgent._analyze_campaign_performance]. *)
Definition data_analyze_campaign_performance : M value :=
  s <- get_state ;;
  match agent_df s with
  | None => ret (VDict [])
  | Some df =>
      ret (VDict
        (map (fun campaign =>
                let campaign_data := filter (fun r => String.eqb (campaign_name r) campaign) df in
                (campaign,
                 VDict [("avg_roas", VFloat (fmean (map roas campaign_data)));
                        ("avg_ctr", VFloat (fmean (map ctr campaign_data)));
                        ("total_spend", VFloat (fsum (map spend campaign_data)));
                        ("record_count", VInt (Z.of_nat (List.length campaign_data)))]))
             (unique (map campaign_name df))))
  end.

Definition same_float (a b : float) : bool :=
  PrimFloat.eqb a b || (is_nan a && is_nan b).

(** Equality of two rows on the columns [campaign_name], [adset_name],
    [ctr], [creative_message]. *)
Definition same_low_ctr_columns (a b : DatasetRecord) : bool :=
  String.eqb (campaign_name a) (campaign_name b)
  && String.eqb (adset_name a) (adset_name b)
  && same_float (ctr a) (ctr b)
  && String.eqb (creative_message a) (creative_message b).

(** [drop_duplicates()] on those columns: the first of equal rows stays. *)
Fixpoint drop_duplicates (l : frame) : frame :=
  match l with
  | [] => []
  | r :: t => r :: filter (fun x => negb (same_low_ctr_columns r x)) (drop_duplicates t)
  end.

Definition low_ctr_to_dict (r : DatasetRecord) : value :=
  VDict [("campaign_name", VStr (campaign_name r));
         ("adset_name", VStr (adset_name r));
         ("ctr", VFloat (ctr r));
         ("creative_message", VStr (creative_message r))].

(** [DataAgent._perform_analysis]. *)
Definition data_perform_analysis (requirements : value) : M value :=
  s <- get_state ;;
  if negb (match agent_df s with None => true | Some _ => false end) then
    ret (VDict [])
  else
    let analysis := [] in
    wanted <- lift (required "campaign_performance" requirements) ;;
    analysis <-
      (if wanted then
         v <- data_analyze_campaign_performance ;;
         ret (dict_set "campaign_performance" v analysis)
       else ret analysis) ;;
    wanted <- lift (required "creative_performance" requirements) ;;
    analysis <-
      (if wanted then
         v <- DataLoader_get_creative_performance ;;
         ret (dict_set "creative_performance" v analysis)
       else ret analysis) ;;
    wanted <- lift (required "roas_timeline" requirements) ;;
    analysis <-
      (if wanted then
         timeline <- DataLoader_get_roas_timeline ;;
         ret (dict_set "roas_timeline" (VList (firstn 10 timeline)) analysis)
       else ret analysis) ;;
    wanted <- lift (required "low_ctr_campaigns" requirements) ;;
    analysis <-
      (if wanted then
         low_ctr <- DataLoader_filter_low_ctr 0.012%float ;;
         let analysis :=
           dict_set "low_ctr_count" (VInt (Z.of_nat (List.length low_ctr))) analysis in
         ret (dict_set "low_ctr_campaigns"
                (VList (firstn 5 (map low_ctr_to_dict (drop_duplicates low_ctr))))
                analysis)
       else ret analysis) ;;
    ret (VDict analysis).

(** [DataAgent._structure_findings]. *)
Definition data_structure_findings (self : Agent) (summary analysis : value) : M value :=
  system_prompt <- open_read "prompts/data_agent.md" ;;
  try_except
    (think_json self (VFloat 0.2))
    (fun _ =>
     ret (VDict [("summary", summary);
                 ("key_segments", analysis);
                 ("trend_observations", strs ["Data loaded successfully"]);
                 ("reasoning", VStr "Basic data analysis completed")])).

(** [DataAgent.execute]. *)
Definition data_execute (self : Agent) (task : string) (context : list (string * value))
  : M value :=
  let dataset_path :=
    dict_get context "dataset_path" (VStr "data/synthetic_fb_ads_undergarments.csv") in
  let sample_mode := dict_get context "sample_mode" (VBool false) in
  let sample_size := dict_get context "sample_size" (VInt 100) in
  let analysis_requirements := dict_get context "analysis_requirements" (VList []) in
  try_except
    (modify (set_data_loader (Some (new_DataLoader dataset_path sample_mode sample_size))) ;;;
     df <- DataLoader_load ;;
     modify (set_agent_df (Some df)) ;;;
     summary_dict <- DataLoader_get_summary ;;
     analysis_results <- data_perform_analysis analysis_requirements ;;
     structured_findings <- data_structure_findings self summary_dict analysis_results ;;
     log_execution self task structured_findings ;;;
     s <- get_state ;;
     record_count <-
       lift (match agent_df s with
             | Some df => Ok (VInt (Z.of_nat (List.length df)))
             | None => Raise (Exn TypeError "object of type 'NoneType' has no len()")
             end) ;;
     ret (VDict [("status", VStr "success");
                 ("data_summary", summary_dict);
                 ("analysis", analysis_results);
                 ("structured_findings", structured_findings);
                 ("record_count", record_count)]))
    (fun e =>
     ret (VDict [("status", VStr "error");
                 ("error", VStr (str_exn e))])).

(** ** [Config] and [StructuredLogger] (src/utils) *)

(** [Config.get_dict]: [self.config.get(section, {})] on the loaded document. *)
Definition get_dict (config : value) (section : string) : outcome value :=
  py_get config section (VDict []).

(** [StructuredLogger.log_metrics]. *)
Definition log_metrics (metrics : value) : M unit :=
  ts <- now ;;
  modify (fun s =>
    set_logged (logged s ++ [VDict [("timestamp", VStr ts);
                                    ("event", VStr "metrics");
                                    ("metrics", metrics)]]) s).

(** [StructuredLogger.log_error]. *)
Definition log_error (agent_name trace_id error : string) : M unit :=
  ts <- now ;;
  modify (fun s =>
    set_logged (logged s ++ [VDict [("timestamp", VStr ts);
                                    ("event", VStr "agent_error");
                                    ("agent", VStr agent_name);
                                    ("trace_id", VStr trace_id);
                                    ("error", VStr error)]]) s).

(** ** [AgentOrchestrator] (src/orchestrator/runner.py) *)

Record Orchestrator : Type := {
  orch_config : value;
  planner_agent : Agent;
  data_agent : Agent;
  insight_agent : Agent;
  evaluator_agent : Agent;
  creative_agent : Agent
}.

(** [AgentOrchestrator._init_agents], for the loaded configuration. *)
Definition init_agents (config : value) : outcome Orchestrator :=
  (agents <~ get_dict config "agents" ;;
   planner_config <~ py_get agents "planner" (VDict []) ;;
   agents <~ get_dict config "agents" ;;
   data_config <~ py_get agents "data_agent" (VDict []) ;;
   agents <~ get_dict config "agents" ;;
   insight_config <~ py_get agents "insight_agent" (VDict []) ;;
   agents <~ get_dict config "agents" ;;
   evaluator_config <~ py_get agents "evaluator" (VDict []) ;;
   agents <~ get_dict config "agents" ;;
   creative_config <~ py_get agents "creative_generator" (VDict []) ;;
   Ok {| orch_config := config;
         planner_agent := new_agent "Planner" planner_config;
         data_agent := new_agent "DataAgent" data_config;
         insight_agent := new_agent "InsightAgent" insight_config;
         evaluator_agent := new_agent "Evaluator" evaluator_config;
         creative_agent := new_agent "CreativeGenerator" creative_config |})%outcome.

Definition prepare_plan_context (self : Orchestrator) : outcome (list (string * value)) :=
  (data_config <~ get_dict (orch_config self) "data" ;;
   sample_mode <~ py_get data_config "sample_mode" (VBool true) ;;
   sample_size <~ py_get data_config "sample_size" (VInt 100) ;;
   thresholds <~ get_dict (orch_config self) "thresholds" ;;
   Ok [("sample_mode", sample_mode);
       ("sample_size", sample_size);
       ("thresholds", thresholds)])%outcome.

Definition prepare_data_context (self : Orchestrator) : outcome (list (string * value)) :=
  (data_config <~ get_dict (orch_config self) "data" ;;
   dataset_path <~ py_get data_config "dataset_path"
                     (VStr "data/synthetic_fb_ads_undergarments.csv") ;;
   sample_mode <~ py_get data_config "sample_mode" (VBool true) ;;
   sample_size <~ py_get data_config "sample_size" (VInt 100) ;;
   Ok [("dataset_path", dataset_path);
       ("sample_mode", sample_mode);
       ("sample_size", sample_size);
       ("analysis_requirements",
        strs ["campaign_performance"; "creative_performance";
              "roas_timeline"; "low_ctr_campaigns"])])%outcome.

Definition prepare_insight_context (plan_result data_result : value)
  : outcome (list (string * value)) :=
  (plan <~ py_get plan_result "plan" (VDict []) ;;
   data_summary <~ py_get data_result "data_summary" (VDict []) ;;
   analysis <~ py_get data_result "analysis" (VDict []) ;;
   Ok [("plan", plan); ("data_summary", data_summary); ("analysis", analysis)])%outcome.

Definition prepare_eval_context (insight_result data_result : value)
  : outcome (list (string * value)) :=
  (hypotheses <~ py_get insight_result "hypotheses" (VDict []) ;;
   data_summary <~ py_get data_result "data_summary" (VDict []) ;;
   analysis <~ py_get data_result "analysis" (VDict []) ;;
   Ok [("hypotheses", hypotheses); ("data_summary", data_summary);
       ("analysis", analysis)])%outcome.

Definition prepare_creative_context (data_result : value) : outcome (list (string * value)) :=
  (analysis <~ py_get data_result "analysis" (VDict []) ;;
   data_summary <~ py_get data_result "data_summary" (VDict []) ;;
   Ok [("analysis", analysis); ("data_summary", data_summary)])%outcome.

(** [AgentOrchestrator._record_execution]. *)
Definition record_execution (agent_name : string) (result : value) : M unit :=
  status <- lift (py_get result "status" (VStr "unknown")) ;;
  ts <- now ;;
  modify (fun s =>
    set_results (dict_set agent_name result (results s))
      (set_execution_trace
         (execution_trace s ++ [VDict [("agent", VStr agent_name);
                                       ("status", status);
                                       ("timestamp", VStr ts)]]) s)).

Fixpoint each {A : Type} (f : A -> outcome unit) (l : list A) : outcome unit :=
  match l with
  | [] => Ok tt
  | x :: t => (_ <~ f x ;; each f t)%outcome
  end.

(** What building the text of [_generate_markdown_report] evaluates. *)
Definition markdown_text (report : list (string * value)) : outcome unit :=
  (_ <~ py_get (dict_get report "data_summary" (VDict [])) "row_count" (VInt 0) ;;
   hypotheses <~ py_get (dict_get report "insights" (VDict [])) "hypotheses" (VList []) ;;
   _ <~ py_len hypotheses ;;
   _ <~ py_len (dict_get report "creative_recommendations" (VList [])) ;;
   let evaluation := dict_get report "evaluation" (VDict []) in
   evaluations <~ py_get evaluation "hypothesis_evaluations" (VList []) ;;
   items <~ py_slice_items evaluations 3 ;;
   _ <~ each (fun eval_item =>
                _ <~ py_get eval_item "hypothesis_title" (VStr "Unknown") ;;
                _ <~ py_get eval_item "validation_status" (VStr "N/A") ;;
                confidence <~ py_get eval_item "confidence_score" (VInt 0) ;;
                _ <~ py_format_float "%" confidence ;;
                _ <~ py_get eval_item "actionability" (VStr "N/A") ;;
                Ok tt) items ;;
   actions <~ py_get evaluation "recommended_actions" (VList []) ;;
   _ <~ py_iter actions ;;
   _ <~ py_len (dict_get report "creative_recommendations" (VList [])) ;;
   recs <~ py_slice_items (dict_get report "creative_recommendations" (VList [])) 2 ;;
   each (fun rec =>
           match rec with
           | VDict d =>
               if existsb (fun kv => String.eqb (fst kv) "creative_recommendations") d then
                 creatives <~ py_slice_items (dict_get d "creative_recommendations" (VList [])) 1 ;;
                 each (fun creative =>
                         _ <~ py_get creative "headline" (VStr "N/A") ;;
                         _ <~ py_get creative "creative_angle" (VStr "N/A") ;;
                         _ <~ py_get creative "predicted_lift" (VStr "N/A") ;;
                         Ok tt) creatives
               else Ok tt
           | _ => Ok tt
           end) recs)%outcome.

(** [AgentOrchestrator._generate_markdown_report]. *)
Definition generate_markdown_report (report : list (string * value)) (output_path : value)
  : M unit :=
  lift (markdown_text report) ;;;
  open_write output_path (MarkdownDoc (VDict report)).

(** [AgentOrchestrator._save_outputs]. *)
Definition save_outputs (self : Orchestrator) (report : list (string * value)) : M unit :=
  output_config <- lift (get_dict (orch_config self) "output") ;;
  logs_path <- lift (py_get output_config "logs_path" (VStr "logs")) ;;
  mkdir logs_path ;;;
  insights_path <- lift (py_get output_config "insights_path" (VStr "reports/insights.json")) ;;
  mkdir insights_path ;;;
  insights_path <- lift (py_get output_config "insights_path" (VStr "reports/insights.json")) ;;
  open_write insights_path (JsonDoc (dict_get report "insights" (VDict []))) ;;;
  creatives_path <- lift (py_get output_config "creatives_path" (VStr "reports/creatives.json")) ;;
  open_write creatives_path (JsonDoc (dict_get report "creative_recommendations" (VList []))) ;;;
  report_path <- lift (py_get output_config "report_path" (VStr "reports/report.md")) ;;
  generate_markdown_report report report_path.

(** [AgentOrchestrator._compile_report]. *)
Definition compile_report (self : Orchestrator) (query : string)
    (plan data insights evaluation creatives : value) (execution_id : string) : M value :=
  ts <- now ;;
  plan_v <- lift (py_get plan "plan" (VDict [])) ;;
  data_summary <- lift (py_get data "data_summary" (VDict [])) ;;
  insights_v <- lift (py_get insights "hypotheses" (VDict [])) ;;
  evaluation_v <- lift (py_get evaluation "evaluation" (VDict [])) ;;
  recommendations <- lift (py_get creatives "recommendations" (VList [])) ;;
  s <- get_state ;;
  let report :=
    [("execution_id", VStr execution_id);
     ("timestamp", VStr ts);
     ("query", VStr query);
     ("status", VStr "success");
     ("plan", plan_v);
     ("data_summary", data_summary);
     ("insights", insights_v);
     ("evaluation", evaluation_v);
     ("creative_recommendations", recommendations);
     ("execution_trace", VList (execution_trace s))] in
  save_outputs self report ;;;
  ret (VDict report).

(** The argument of a progress [print]: [len(result.get(k1, {}).get(k2, []))]. *)
Definition printed_len (result : value) (k1 k2 : string) : outcome nat :=
  (inner <~ py_get result k1 (VDict []) ;;
   items <~ py_get inner k2 (VList []) ;;
   py_len items)%outcome.

(** [AgentOrchestrator.execute]. *)
Definition orchestrator_execute (self : Orchestrator) (user_query : string) : M value :=
  execution_id <- now ;;
  log_metrics (VDict [("execution_start", VStr execution_id); ("query", VStr user_query)]) ;;;
  try_except
    (plan_context <- lift (prepare_plan_context self) ;;
     plan_result <- planner_execute (planner_agent self) user_query plan_context ;;
     record_execution "planner" plan_result ;;;
     _ <- lift (printed_len plan_result "plan" "subtasks") ;;
     data_context <- lift (prepare_data_context self) ;;
     data_result <- data_execute (data_agent self) user_query data_context ;;
     record_execution "data_agent" data_result ;;;
     _ <- lift (py_get data_result "record_count" (VInt 0)) ;;
     insight_context <- lift (prepare_insight_context plan_result data_result) ;;
     insight_result <- insight_execute (insight_agent self) user_query insight_context ;;
     record_execution "insight_agent" insight_result ;;;
     hypothesis_count <- lift (printed_len insight_result "hypotheses" "hypotheses") ;;
     eval_context <- lift (prepare_eval_context insight_result data_result) ;;
     eval_result <- evaluator_execute (evaluator_agent self) user_query eval_context ;;
     record_execution "evaluator" eval_result ;;;
     creative_context <- lift (prepare_creative_context data_result) ;;
     creative_result <- creative_execute (creative_agent self) user_query creative_context ;;
     record_execution "creative_generator" creative_result ;;;
     _ <- lift (py_get creative_result "count" (VInt 0)) ;;
     compile_report self user_query plan_result data_result insight_result
       eval_result creative_result execution_id)
    (fun e =>
     log_error "orchestrator" execution_id (str_exn e) ;;;
     ret (VDict [("status", VStr "error");
                 ("error", VStr (str_exn e));
                 ("execution_id", VStr execution_id)])).


(** ** The three wrappings of a serialized record *)

Definition fenced_labeled (text : string) : string :=
  "```json" ++ nl ++ text ++ nl ++ "```".

Definition fenced_unlabeled (text : string) : string :=
  "```" ++ nl ++ text ++ nl ++ "```".

Definition is_decode_error (r : loads_result) : bool :=
  match r with DecodeError _ => true | _ => false end.

(** ** Subsequences and example rows *)

Inductive subsequence {A : Type} : list A -> list A -> Prop :=
| sub_nil : subsequence [] []
| sub_keep (x : A) (l1 l2 : list A) : subsequence l1 l2 -> subsequence (x :: l1) (x :: l2)
| sub_skip (x : A) (l1 l2 : list A) : subsequence l1 l2 -> subsequence l1 (x :: l2).

(** A row of the table with the columns that the examples vary. *)
Definition example_row (campaign : string) (d : Z) (spend revenue : float)
    (impressions clicks : Z) (ctr roas : float) : DatasetRecord :=
  {| campaign_name := campaign; adset_name := "Adset A"; date := Some d;
     spend := spend; impressions := impressions; clicks := clicks; ctr := ctr;
     purchases := 1; revenue := revenue; roas := roas;
     creative_type := "Image"; creative_message := "Soft all day";
     audience_type := "Broad"; country := "US" |}.

(** Three rows with click-through-rates 0.01, 0.012 and 0.015. *)
Definition ctr_rows : frame :=
  [example_row "Campaign A" 1 10 20 1000 10 0.01 2;
   example_row "Campaign B" 2 10 20 1000 12 0.012 2;
   example_row "Campaign C" 3 10 20 1000 15 0.015 2].

(** Two rows of one date with spend 10 and 20, revenue 5 and 30. *)
Definition same_day_rows : frame :=
  [example_row "Campaign A" 7 10 5 1000 10 0.01 0.5;
   example_row "Campaign B" 7 20 30 1000 20 0.02 1.5].


(** A row whose date cell is blank, with spend 100 and revenue 1. *)
Definition undated_row : DatasetRecord :=
  {| campaign_name := "Campaign C"; adset_name := "Adset A"; date := None;
     spend := 100; impressions := 5000; clicks := 50; ctr := 0.01;
     purchases := 1; revenue := 1; roas := 0.01;
     creative_type := "Image"; creative_message := "Soft all day";
     audience_type := "Broad"; country := "US" |}.

(** Two rows of one date whose impressions add up to [2^63]. *)
Definition overflow_rows : frame :=
  [example_row "Campaign A" 7 10 5 9223372036854775807 10 0.01 0.5;
   example_row "Campaign B" 7 20 30 1 20 0.02 1.5].


(** The rows that have a date. *)
Definition dated (df : frame) : frame :=
  filter (fun r => match date r with Some _ => true | None => false end) df.

(** A row with no spend and no impressions. *)
Definition idle_rows : frame :=
  [example_row "Campaign A" 1 0 5 0 0 0 0].

(** ** Vocabulary of the statements about stages *)

(** The generation service raises on every call. *)
Definition all_fail (s : State) : Prop :=
  forall n, exists msg, llm_script s n = Failure msg.

(** The instruction template at [path] can be read. *)
Definition template_readable (path : string) (s : State) : Prop :=
  exists text, read_text s path = Ok text.

Definition is_dict (v : value) : bool :=
  match v with VDict _ => true | _ => false end.


(** An action leaves the part [f] of the state as it found it. *)
Definition preserves {X A : Type} (f : State -> X) (m : M A) : Prop :=
  forall s r s', m s = (r, s') -> f s' = f s.

(** An action calls the generation service at most [k] times. *)
Definition calls_within {A : Type} (k : nat) (m : M A) : Prop :=
  forall s r s', m s = (r, s') -> llm_calls s <= llm_calls s' <= llm_calls s + k.

(** ** States and inputs of the concrete runs *)

(** Every template is readable, the generation service is down, no file is
    on disk, every output can be written. *)
Definition offline_state : State :=
  {| llm_script := fun _ => Failure "503 Service Unavailable";
     llm_calls := 0;
     clock := fun _ => "2025-01-01T09:00:00";
     ticks := 0;
     read_text := fun _ => Ok "You are an analyst of advertising performance.";
     path_exists := fun _ => false;
     read_csv := fun _ => Raise (Exn FileNotFoundError "No such file or directory");
     write_error := fun _ => None;
     written := [];
     logged := [];
     execution_history := [];
     data_loader := None;
     agent_df := None;
     execution_trace := [];
     results := [] |}.

(** As [offline_state], with the default dataset on disk holding [rows]. *)
Definition offline_state_with (rows : frame) : State :=
  {| llm_script := llm_script offline_state;
     llm_calls := 0;
     clock := clock offline_state;
     ticks := 0;
     read_text := read_text offline_state;
     path_exists := fun p => String.eqb p "data/synthetic_fb_ads_undergarments.csv";
     read_csv := fun _ => Ok rows;
     write_error := fun _ => None;
     written := [];
     logged := [];
     execution_history := [];
     data_loader := None;
     agent_df := None;
     execution_trace := [];
     results := [] |}.

Definition example_agent : Agent := new_agent "Agent" (VDict []).

Definition low_ctr_campaign (campaign : string) : value :=
  VDict [("campaign_name", VStr campaign);
         ("adset_name", VStr "Adset A");
         ("ctr", VFloat 0.008);
         ("creative_message", VStr "Soft all day")].

(** A Creative-stage context with [campaigns] as its low performers. *)
Definition creative_context (campaigns : list value) : list (string * value) :=
  [("analysis", VDict [("low_ctr_campaigns", VList campaigns)]);
   ("data_summary", VDict [])].

Definition five_campaigns : list value :=
  map low_ctr_campaign ["Campaign A"; "Campaign B"; "Campaign C"; "Campaign D"; "Campaign E"].


(** ** What a well-formed stage result is *)

Definition carries_text (k : string) (d : list (string * value)) : bool :=
  match dict_lookup k d with
  | Some (VStr _) => true
  | _ => false
  end.

Definition status_of (r : value) : option string :=
  match r with
  | VDict d =>
      match dict_lookup "status" d with
      | Some (VStr st) => Some st
      | _ => None
      end
  | _ => None
  end.

(** The result is a record whose status is [success], [partial], [error] or
    [info]; when [partial], the field [payload] holds a non-empty record and
    [error] holds a text; when [error], [error] holds a text; when [info],
    [message] holds a text and [recommendations] is the empty list. *)
Definition stage_result_ok (payload : string) (r : value) : bool :=
  match r with
  | VDict d =>
      match status_of r with
      | Some st =>
          if String.eqb st "success" then true
          else if String.eqb st "partial" then
            match dict_lookup payload d with
            | Some p => truthy p && carries_text "error" d
            | None => false
            end
          else if String.eqb st "error" then carries_text "error" d
          else if String.eqb st "info" then
            carries_text "message" d
            && match dict_lookup "recommendations" d with
               | Some (VList []) => true
               | _ => false
               end
          else false
      | None => false
      end
  | _ => false
  end.

(** The statuses the specification lists. *)
Definition spec_statuses : list string := ["success"; "partial"; "error"].

(** The orchestrator that [init_agents] builds from an empty configuration. *)
Definition default_orchestrator : Orchestrator :=
  {| orch_config := VDict [];
     planner_agent := new_agent "Planner" (VDict []);
     data_agent := new_agent "DataAgent" (VDict []);
     insight_agent := new_agent "InsightAgent" (VDict []);
     evaluator_agent := new_agent "Evaluator" (VDict []);
     creative_agent := new_agent "CreativeGenerator" (VDict []) |}.

(** What the Creative stage returns when it is given no campaign. *)
Definition creative_info : value :=
  VDict [("status", VStr "info");
         ("message", VStr "No low-CTR campaigns found for optimization");
         ("recommendations", VList [])].

(** ** A run on a missing dataset *)

(** What the end-to-end statement asks of the orchestrator [self] and of the
    state [s]: the configuration names a dataset path [path] that does not
    resolve, the four templates of the reasoning stages are readable, the
    generation service is down, and the three outputs can be written. *)
Record dataset_missing (self : Orchestrator) (s : State) (path : string)
    (outputs : list value) : Prop := {
  missing_config :
    exists cfg dcfg,
      orch_config self = VDict cfg
      /\ dict_get cfg "data" (VDict []) = VDict dcfg
      /\ dict_get dcfg "dataset_path" (VStr "data/synthetic_fb_ads_undergarments.csv")
         = VStr path;
  missing_path : path_exists s path = false;
  missing_outputs :
    exists cfg ocfg logs_path insights_path,
      orch_config self = VDict cfg
      /\ dict_get cfg "output" (VDict []) = VDict ocfg
      /\ dict_get ocfg "logs_path" (VStr "logs") = VStr logs_path
      /\ dict_get ocfg "insights_path" (VStr "reports/insights.json") = VStr insights_path
      /\ outputs = [VStr insights_path;
                    dict_get ocfg "creatives_path" (VStr "reports/creatives.json");
                    dict_get ocfg "report_path" (VStr "reports/report.md")];
  missing_writable : forall path, In path outputs -> write_error s path = None;
  missing_service : all_fail s;
  missing_templates :
    template_readable "prompts/planner.md" s
    /\ template_readable "prompts/insight_agent.md" s
    /\ template_readable "prompts/evaluator.md" s
    /\ template_readable "prompts/creative_generator.md" s
}.

(** ** Texts of the concrete extractions *)

(** [text] between double quotes. *)
Definition quoted (text : string) : string :=
  String dquote (text ++ String dquote "").

(** The serialized record with the key [a] bound to 1. *)
Definition record_text : string := "{" ++ quoted "a" ++ ": 1}".

(** The serialized record with the key [a] bound to a text of three
    backticks. *)
Definition fence_record_text : string := "{" ++ quoted "a" ++ ": " ++ quoted "```" ++ "}".

(** A fenced block whose interior is not a structured record. *)
Definition fenced_prose : string := "```" ++ nl ++ "oops" ++ nl ++ "```".

Definition example_query : string := "Why did ROAS drop last week?".

(** ** The trace of a run *)

(** A trace entry whose status is one of the four that stages return. *)
Definition known_status (entry : value) : Prop :=
  exists st, status_of entry = Some st
             /\ In st ["success"; "partial"; "error"; "info"].

(** From [s0] to [s] the trace has only grown, by entries of known status. *)
Definition trace_extends (s0 s : State) : Prop :=
  exists new, execution_trace s = execution_trace s0 ++ new
              /\ Forall known_status new.

(** An action keeps what [I] says of the state, however it ends. *)
Definition keeps {A : Type} (I : State -> Prop) (m : M A) : Prop :=
  forall s r s', I s -> m s = (r, s') -> I s'.


(** * Further parts of the sources *)

(** ** [Config] (src/utils/config.py) *)

(** [value[k]] for a text [k]: the item, or the [KeyError] or the
    [TypeError] that the subscript raises. *)
Inductive item : Type :=
| Item (v : value)
| NoSuchKey (k : string)
| NotSubscriptable (v : value).

Definition py_getitem (v : value) (k : string) : item :=
  match v with
  | VDict d =>
      match dict_lookup k d with
      | Some x => Item x
      | None => NoSuchKey k
      end
  | _ => NotSubscriptable v
  end.

(** The loop [for k in keys: value = value[k]] of [Config.get]. *)
Fixpoint Config_walk (keys : list string) (value : value) : item :=
  match keys with
  | [] => Item value
  | k :: rest =>
      match py_getitem value k with
      | Item v => Config_walk rest v
      | NoSuchKey k' => NoSuchKey k'
      | NotSubscriptable v => NotSubscriptable v
      end
  end.

(** [Config.get]: the value at a dotted key; [except (KeyError, TypeError)]
    answers [default]. *)
Definition Config_get (config : value) (key : string) (default : value) : value :=
  match Config_walk (split "." key) config with
  | Item v => v
  | NoSuchKey _ => default
  | NotSubscriptable _ => default
  end.

(** [Config.__getitem__]. *)
Definition Config_getitem (config : value) (key : string) : item :=
  py_getitem config key.

(** ** The generation client of a run (src/agents/base.py, src/orchestrator/runner.py) *)

(** [os.getenv(name)] in the environment [environ]. *)
Definition getenv (environ : string -> option string) (name : string) : value :=
  match environ name with
  | Some v => VStr v
  | None => VNone
  end.

Record LLMClient : Type := { api_key : value; model_name : value }.

Section Client.

(** [genai.configure(api_key=...)] and [genai.GenerativeModel(model_name)],
    functions of the generation library: each returns or raises. *)
Variable genai_configure : value -> outcome unit.
Variable GenerativeModel : value -> outcome unit.

(** [LLMClient.__init__]; of the model object it keeps the name. *)
Definition new_LLMClient (environ : string -> option string) (api_key model_name : value)
  : outcome LLMClient :=
  let api_key := if truthy api_key then api_key else getenv environ "GOOGLE_API_KEY" in
  if negb (truthy api_key) then
    Raise (Exn ValueError "GOOGLE_API_KEY environment variable not set")
  else
    (_ <~ genai_configure api_key ;;
     _ <~ GenerativeModel model_name ;;
     Ok {| api_key := api_key; model_name := model_name |})%outcome.

(** The client [AgentOrchestrator.__init__] builds from the loaded
    configuration. *)
Definition orchestrator_llm_client (environ : string -> option string) (config : value)
  : outcome LLMClient :=
  let from_env := getenv environ "GOOGLE_API_KEY" in
  let api_key :=
    if truthy from_env then from_env else Config_get config "model.api_key_env" VNone in
  let model_name := Config_get config "model.name" (VStr "gemini-2.0-flash") in
  new_LLMClient environ api_key model_name.

End Client.

(** ** More of [DataLoader] (src/utils/data.py) *)

(** [df[df['campaign_name'] == campaign_name]]. *)
Definition campaign_rows (campaign : string) (df : frame) : frame :=
  filter (fun r => String.eqb (campaign_name r) campaign) df.

(** [DataLoader.get_campaign_performance]. *)
Definition DataLoader_get_campaign_performance (campaign : string) : M frame :=
  df <- loaded_df "get_campaign_performance" ;;
  ret (campaign_rows campaign df).

(** ** Vocabulary of the statements about the dataset *)

(** Rows in ascending order of date, those without date last. *)
Definition by_date (a b : DatasetRecord) : Prop := date_leb (date a) (date b) = true.

(** Every query of the loader answers from the frame [df] and leaves the
    state [s] as it is. *)
Definition answers_from (df : frame) (s : State) : Prop :=
  DataLoader_get_summary s = (Ok (DataSummary_to_dict df), s)
  /\ (forall threshold,
        DataLoader_filter_low_ctr threshold s = (Ok (low_ctr_rows threshold df), s))
  /\ (forall campaign,
        DataLoader_get_campaign_performance campaign s = (Ok (campaign_rows campaign df), s))
  /\ DataLoader_get_roas_timeline s = (Ok (map daily_row_to_dict (daily_roas df)), s)
  /\ DataLoader_get_creative_performance s = (Ok (VDict (creative_performance_of df)), s).

(** ** [BaseAgent.get_history] (src/agents/base.py) *)

(** The entries of [self.execution_history]: those the agent [self] has
    logged. *)
Definition get_history (self : Agent) : M (list value) :=
  s <- get_state ;;
  ret (map snd (filter (fun e => String.eqb (fst e) (name self)) (execution_history s))).

(** ** Vocabulary of the statements about texts *)

(** [s.split(sep)[0]]: the text before the first [sep], all of [s] when it
    holds none. *)
Definition first_piece (sep s : string) : string :=
  match str_partition sep s with
  | Some (a, _) => a
  | None => s
  end.

(** ** Vocabulary of the statements about runs *)

(** The part [f] of the state is none of the fields that stages write: the
    call counter, the clock, the agents' history, the loader, the data
    agent's frame. *)
Record stage_frame {X : Type} (f : State -> X) : Prop := {
  frame_llm_calls : forall n s, f (set_llm_calls n s) = f s;
  frame_ticks : forall n s, f (set_ticks n s) = f s;
  frame_history : forall h s, f (set_execution_history h s) = f s;
  frame_loader : forall l s, f (set_data_loader l s) = f s;
  frame_agent_df : forall d s, f (set_agent_df d s) = f s
}.

(** A result with [status = success]. *)
Definition succeeded (r : outcome value) : bool :=
  match r with
  | Ok v =>
      match status_of v with
      | Some st => String.eqb st "success"
      | None => false
      end
  | Raise _ => false
  end.

(** From [s] to [s'] the history has grown by one entry of the agent
    [self] for [task] when [logged] holds, and not at all otherwise. *)
Definition history_step (self : Agent) (task : string) (logged : bool) (s s' : State) : Prop :=
  if logged then
    exists ts result,
      execution_history s' =
        execution_history s ++
          [(name self, VDict [("timestamp", VStr ts); ("task", VStr task); ("result", result)])]
  else execution_history s' = execution_history s.

(** The agent named in a trace entry. *)
Definition agent_of (entry : value) : option string :=
  match entry with
  | VDict d =>
      match dict_lookup "agent" d with
      | Some (VStr a) => Some a
      | _ => None
      end
  | _ => None
  end.

(** The stages in the order the orchestrator runs them. *)
Definition stage_names : list string :=
  ["planner"; "data_agent"; "insight_agent"; "evaluator"; "creative_generator"].

(** After [k] stages of a run that began in [s0]: the trace has grown by
    the entries of the first [k] stages, in their order. *)
Definition ran_stages (s0 : State) (k : nat) (s : State) : Prop :=
  exists new,
    execution_trace s = execution_trace s0 ++ new
    /\ map agent_of new = map Some (firstn k stage_names).

(** [m], started where [P] holds, ends with a value and a state that
    satisfy [Q], or raises in a state that satisfies [E]. *)
Definition triple {A : Type} (P : State -> Prop) (m : M A)
    (Q : A -> State -> Prop) (E : State -> Prop) : Prop :=
  forall s r s', P s -> m s = (r, s') ->
    match r with
    | Ok a => Q a s'
    | Raise _ => E s'
    end.

(** The recommendations the loop of the Creative stage makes for
    [campaigns], in their order, on its way from the state [s] to the state
    [s']: for each campaign the loop builds the prompt and calls
    [think_json]; the recommendation is what that call returned or, when
    that call raised, the template record of that very campaign. *)
Inductive recommended (self : Agent)
  : list value -> State -> list value -> State -> Prop :=
| recommended_none (s : State) :
    recommended self [] s [] s
| recommended_generated (campaign : value) (campaigns : list value) (s s1 s' : State)
    (r : value) (recs : list value) :
    creative_prompt campaign = Ok tt ->
    think_json self (VFloat 0.8) s = (Ok r, s1) ->
    recommended self campaigns s1 recs s' ->
    recommended self (campaign :: campaigns) s (r :: recs) s'
| recommended_fallback (campaign : value) (campaigns : list value) (s s1 s' : State)
    (e : exn) (r : value) (recs : list value) :
    creative_prompt campaign = Ok tt ->
    think_json self (VFloat 0.8) s = (Raise e, s1) ->
    creative_create_fallback_creative campaign = Ok r ->
    recommended self campaigns s1 recs s' ->
    recommended self (campaign :: campaigns) s (r :: recs) s'.

(** The frame [DataLoader.load] keeps of the parsed file [raw]: the rows
    by date, cut to the sample when the loader [l] samples. *)
Definition load_result (l : DataLoader) (raw : frame) : outcome frame :=
  if truthy (sample_mode l) then head (sample_size l) (sort_values_date raw)
  else Ok (sort_values_date raw).

(** What an entry of the data agent's analysis can be: no campaign is
    analysed, the timeline has at most ten rows, and at most five low-CTR
    campaigns are listed. *)
Definition analysis_entry_ok (k : string) (v : value) : Prop :=
  (k = "campaign_performance" -> v = VDict [])
  /\ (k = "roas_timeline" -> exists rows, v = VList rows /\ List.length rows <= 10)
  /\ (k = "low_ctr_campaigns" -> exists rows, v = VList rows /\ List.length rows <= 5).

(** The stages and the report, between the two log events of a run. *)
Definition pipeline (self : Orchestrator) (user_query execution_id : string) : M value :=
  plan_context <- lift (prepare_plan_context self) ;;
  plan_result <- planner_execute (planner_agent self) user_query plan_context ;;
  record_execution "planner" plan_result ;;;
  _ <- lift (printed_len plan_result "plan" "subtasks") ;;
  data_context <- lift (prepare_data_context self) ;;
  data_result <- data_execute (data_agent self) user_query data_context ;;
  record_execution "data_agent" data_result ;;;
  _ <- lift (py_get data_result "record_count" (VInt 0)) ;;
  insight_context <- lift (prepare_insight_context plan_result data_result) ;;
  insight_result <- insight_execute (insight_agent self) user_query insight_context ;;
  record_execution "insight_agent" insight_result ;;;
  hypothesis_count <- lift (printed_len insight_result "hypotheses" "hypotheses") ;;
  eval_context <- lift (prepare_eval_context insight_result data_result) ;;
  eval_result <- evaluator_execute (evaluator_agent self) user_query eval_context ;;
  record_execution "evaluator" eval_result ;;;
  creative_context <- lift (prepare_creative_context data_result) ;;
  creative_result <- creative_execute (creative_agent self) user_query creative_context ;;
  record_execution "creative_generator" creative_result ;;;
  _ <- lift (py_get creative_result "count" (VInt 0)) ;;
  compile_report self user_query plan_result data_result insight_result
    eval_result creative_result execution_id.

(** The context the Creative stage gets from a result of the data stage
    holds no campaign. *)
Definition no_campaigns (data_result : value) : Prop :=
  forall creative_context,
    prepare_creative_context data_result = Ok creative_context ->
    dict_get creative_context "analysis" (VDict []) = VDict [].

(** The files [_save_outputs] is to write for [report], in its order. *)
Definition planned_outputs (self : Orchestrator) (report : list (string * value))
  : list (value * document) :=
  match get_dict (orch_config self) "output" with
  | Ok (VDict output_config) =>
      [(dict_get output_config "insights_path" (VStr "reports/insights.json"),
        JsonDoc (dict_get report "insights" (VDict [])));
       (dict_get output_config "creatives_path" (VStr "reports/creatives.json"),
        JsonDoc (dict_get report "creative_recommendations" (VList [])));
       (dict_get output_config "report_path" (VStr "reports/report.md"),
        MarkdownDoc (VDict report))]
  | _ => []
  end.

(** ** States and inputs of further concrete runs *)

(** As [offline_state], with a generation service that answers [text] to
    every call. *)
Definition online_state (text : string) : State :=
  {| llm_script := fun _ => Reply text;
     llm_calls := 0;
     clock := clock offline_state;
     ticks := 0;
     read_text := read_text offline_state;
     path_exists := path_exists offline_state;
     read_csv := read_csv offline_state;
     write_error := fun _ => None;
     written := [];
     logged := [];
     execution_history := [];
     data_loader := None;
     agent_df := None;
     execution_trace := [];
     results := [] |}.

(** The rows of [ctr_rows] as a file has them, latest date first. *)
Definition unsorted_rows : frame := rev ctr_rows.

(** A loader for the default dataset, before it loads. *)
Definition example_loader (sample_mode sample_size : value) : DataLoader :=
  new_DataLoader (VStr "data/synthetic_fb_ads_undergarments.csv") sample_mode sample_size.

(** The default dataset holds [unsorted_rows]; the data agent has the
    loader [l]. *)
Definition loader_state (l : DataLoader) : State :=
  set_data_loader (Some l) (offline_state_with unsorted_rows).

(** A configuration document with a model section, and one whose only key
    holds a dot. *)
Definition example_config : value :=
  VDict [("model", VDict [("name", VStr "gemini-2.0-flash");
                          ("api_key_env", VStr "GOOGLE_API_KEY")]);
         ("data", VDict [("sample_mode", VBool true)])].

Definition flat_config : list (string * value) :=
  [("model.name", VStr "gemini-2.0-flash")].

(** An answer of the service: a labelled block between two lines of prose. *)
Definition prose_before : string := "Here is the plan:" ++ nl.

Definition prose_after : string := nl ++ "Let me know if it helps.".


(** The plan context of the default orchestrator. *)
Definition default_plan_context : list (string * value) :=
  [("sample_mode", VBool true); ("sample_size", VInt 100); ("thresholds", VDict [])].

(** * Properties *)

(** ** Strings *)

#[local] Open Scope string_scope.

Lemma prefix_app_true (a b x : string) :
  starts_with (a ++ b) x = true -> starts_with a x = true.
Proof.
  revert x; induction a as [|c a IH]; intros x H.
  - reflexivity.
  - destruct x as [|d x]; cbn [append starts_with] in *; [discriminate|].
    apply andb_true_iff in H as [-> H]. now rewrite (IH _ H).
Qed.

Lemma partition_cons (sep : string) (c : ascii) (t : string) :
  str_partition sep (String c t) =
  if starts_with sep (String c t)
  then Some (EmptyString, str_drop (String.length sep) (String c t))
  else match str_partition sep t with
       | Some (a, b) => Some (String c a, b)
       | None => None
       end.
Proof. reflexivity. Qed.

Lemma partition_none_cons (sep : string) (c : ascii) (t : string) :
  str_partition sep (String c t) = None ->
  starts_with sep (String c t) = false /\ str_partition sep t = None.
Proof.
  rewrite partition_cons.
  destruct (starts_with sep (String c t)); [discriminate|].
  destruct (str_partition sep t) as [[a b]|]; [discriminate | auto].
Qed.

(** A separator made of one repeated character [q] does not start inside a
    text it does not start in, when the text is continued by another
    character. *)
Fixpoint all_char (q : ascii) (sep : string) : Prop :=
  match sep with
  | EmptyString => True
  | String c t => c = q /\ all_char q t
  end.

Lemma prefix_app_other (q c : ascii) (sep s u : string) :
  all_char q sep -> c <> q ->
  starts_with sep s = false ->
  starts_with sep (s ++ String c u) = false.
Proof.
  intros Hq Hc; revert s; induction sep as [|a sep IH]; intros s H.
  - discriminate.
  - destruct Hq as [-> Hq]. destruct s as [|b s]; cbn [append starts_with] in *.
    + destruct (Ascii.eqb_spec q c); [congruence | reflexivity].
    + destruct (Ascii.eqb q b); [cbn [andb] in *; auto | reflexivity].
Qed.

Lemma partition_app_other (q c : ascii) (sep s u : string) :
  all_char q sep -> c <> q ->
  str_partition sep s = None ->
  str_partition sep (s ++ String c u) =
  match str_partition sep (String c u) with
  | Some (a, b) => Some ((s ++ a)%string, b)
  | None => None
  end.
Proof.
  intros Hq Hc; induction s as [|d s IH]; intros H.
  - simpl append. destruct (str_partition sep (String c u)) as [[a b]|]; reflexivity.
  - apply partition_none_cons in H as [Hp Hs].
    change (String d s ++ String c u) with (String d (s ++ String c u)).
    rewrite partition_cons.
    change (String d (s ++ String c u)) with (String d s ++ String c u).
    rewrite (prefix_app_other q c sep (String d s) u Hq Hc Hp).
    rewrite (IH Hs).
    destruct (str_partition sep (String c u)) as [[a b]|]; reflexivity.
Qed.

Lemma split_fuel_none (n : nat) (sep s : string) :
  str_partition sep s = None -> split_fuel n sep s = [s].
Proof. intros H; destruct n; simpl; [|rewrite H]; reflexivity. Qed.

Lemma str_in_false (sep s : string) :
  str_in sep s = false <-> str_partition sep s = None.
Proof.
  unfold str_in; destruct (str_partition sep s); split; intros; congruence.
Qed.

(** When the first fence of a text is its very end, the text holds no
    labelled fence. *)
Lemma no_label_when_fence_ends (x a : string) :
  str_partition "```" x = Some (a, EmptyString) ->
  str_partition "```json" x = None.
Proof.
  revert a; induction x as [|c t IH]; intros a H; [reflexivity|].
  rewrite partition_cons in *.
  destruct (starts_with "```" (String c t)) eqn:Hp.
  - injection H as _ Hd.
    destruct t as [|c1 [|c2 [|c3 t]]];
      cbn [starts_with str_drop String.length] in Hp, Hd; try discriminate;
      cbn [str_partition starts_with];
      repeat match goal with
             | |- context [Ascii.eqb ?x ?y] => destruct (Ascii.eqb x y)
             end; reflexivity.
  - destruct (starts_with "```json" (String c t)) eqn:Hl.
    + apply (prefix_app_true "```" "json") in Hl. congruence.
    + destruct (str_partition "```" t) as [[a' b']|]; [|discriminate].
      injection H as _ ->. now rewrite (IH a').
Qed.

Lemma backtick_fence : all_char "`"%char "```".
Proof. repeat split. Qed.

Lemma newline_not_backtick : "010"%char <> "`"%char.
Proof. discriminate. Qed.

Lemma partition_fence_closing (s : string) :
  str_partition "```" s = None ->
  str_partition "```" (nl ++ s ++ nl ++ "```") = Some ((nl ++ s ++ nl)%string, EmptyString).
Proof.
  intros H. change (nl ++ s ++ nl ++ "```") with (String "010" (s ++ String "010" "```")).
  rewrite partition_cons.
  change (starts_with "```" (String "010" (s ++ String "010" "```"))) with false.
  cbv iota.
  rewrite (partition_app_other "`" "010" "```" s "```" backtick_fence newline_not_backtick H).
  reflexivity.
Qed.

Lemma partition_fence_inner (s : string) :
  str_partition "```" s = None ->
  str_partition "```" (nl ++ s ++ nl) = None.
Proof.
  intros H. change (nl ++ s ++ nl) with (String "010" (s ++ String "010" "")).
  rewrite partition_cons.
  change (starts_with "```" (String "010" (s ++ String "010" ""))) with false.
  cbv iota.
  rewrite (partition_app_other "`" "010" "```" s "" backtick_fence newline_not_backtick H).
  reflexivity.
Qed.

Lemma str_length_app (a b : string) :
  String.length (a ++ b) = String.length a + String.length b.
Proof. induction a; simpl; auto. Qed.

Lemma split_labeled (s : string) :
  str_partition "```" s = None ->
  split "```json" (fenced_labeled s) = [EmptyString; (nl ++ s ++ nl ++ "```")%string].
Proof.
  intros H. unfold split, fenced_labeled.
  change (String.length ("```json" ++ nl ++ s ++ nl ++ "```"))
    with (S (String.length ("``json" ++ nl ++ s ++ nl ++ "```"))).
  cbn [split_fuel].
  change (str_partition "```json" ("```json" ++ nl ++ s ++ nl ++ "```"))
    with (Some (EmptyString, (nl ++ s ++ nl ++ "```")%string)).
  cbv iota. f_equal. apply split_fuel_none.
  eapply no_label_when_fence_ends, partition_fence_closing, H.
Qed.

Lemma split_closing (s : string) :
  str_partition "```" s = None ->
  exists rest, split "```" (nl ++ s ++ nl ++ "```") = (nl ++ s ++ nl)%string :: rest.
Proof.
  intros H. unfold split.
  change (String.length (nl ++ s ++ nl ++ "```"))
    with (S (String.length (s ++ nl ++ "```"))).
  cbn [split_fuel]. rewrite (partition_fence_closing s H). eauto.
Qed.

Lemma no_label_in_unlabeled (s : string) :
  str_partition "```" s = None ->
  str_in "```json" (fenced_unlabeled s) = false.
Proof.
  intros H. apply str_in_false. unfold fenced_unlabeled.
  change ("```" ++ nl ++ s ++ nl ++ "```")
    with (String "`" (String "`" (String "`" (nl ++ s ++ nl ++ "```")))).
  do 3 (rewrite partition_cons;
        match goal with
        | |- context [starts_with ?a ?b] => change (starts_with a b) with false
        end; cbv iota).
  now rewrite (no_label_when_fence_ends _ _ (partition_fence_closing s H)).
Qed.

Lemma split_unlabeled (s : string) :
  str_partition "```" s = None ->
  exists rest,
    split "```" (fenced_unlabeled s) = EmptyString :: (nl ++ s ++ nl) :: rest.
Proof.
  intros H. unfold split, fenced_unlabeled.
  change (String.length ("```" ++ nl ++ s ++ nl ++ "```"))
    with (S (S (String.length ("`" ++ nl ++ s ++ nl ++ "```")))).
  cbn [split_fuel].
  change (str_partition "```" ("```" ++ nl ++ s ++ nl ++ "```"))
    with (Some (EmptyString, nl ++ s ++ nl ++ "```")).
  cbv iota. rewrite (partition_fence_closing s H). eauto.
Qed.

Lemma split_inner (s : string) :
  str_partition "```" s = None ->
  split "```" (nl ++ s ++ nl) = [nl ++ s ++ nl].
Proof. intros H. apply split_fuel_none, partition_fence_inner, H. Qed.

Lemma rstrip_app_nl (x : string) : rstrip (x ++ nl) = rstrip x.
Proof.
  induction x as [|c t IH]; [reflexivity|].
  cbn [append rstrip]. now rewrite IH.
Qed.

(** Python's [strip] drops the line breaks a fence puts around a text. *)
Lemma strip_newlines (s : string) : strip (nl ++ s ++ nl) = strip s.
Proof.
  unfold strip. change (lstrip (nl ++ s ++ nl)) with (lstrip (s ++ nl)).
  induction s as [|c t IH]; [reflexivity|].
  cbn [append lstrip]. destruct (is_space c); [exact IH|].
  apply (rstrip_app_nl (String c t)).
Qed.

(** No subscript of [extract_json] falls outside its list. *)
Lemma split_nonempty (sep t : string) : exists a rest, split sep t = a :: rest.
Proof.
  unfold split. destruct (String.length t); cbn [split_fuel]; eauto.
  destruct (str_partition sep t) as [[a b]|]; eauto.
Qed.

Lemma split_fuel_nonempty (n : nat) (sep t : string) :
  exists a rest, split_fuel n sep t = a :: rest.
Proof.
  destruct n; cbn [split_fuel]; eauto.
  destruct (str_partition sep t) as [[a b]|]; eauto.
Qed.

Lemma split_two (c : ascii) (sep t : string) :
  str_in (String c sep) t = true ->
  exists a b rest, split (String c sep) t = a :: b :: rest.
Proof.
  unfold str_in, split. intros H.
  destruct (str_partition (String c sep) t) as [[a b]|] eqn:E; [|discriminate].
  destruct t as [|d t]; [discriminate|].
  cbn [String.length split_fuel]. rewrite E.
  destruct (split_fuel_nonempty (String.length t) (String c sep) b) as (x & rest & ->).
  eauto.
Qed.

Lemma no_fence_no_label (t : string) :
  str_in "```" t = false -> str_in "```json" t = false.
Proof.
  rewrite !str_in_false. induction t as [|c t IH]; [reflexivity|].
  rewrite !partition_cons.
  destruct (starts_with "```" (String c t)) eqn:Hp; [discriminate|].
  destruct (starts_with "```json" (String c t)) eqn:Hl.
  - apply (prefix_app_true "```" "json") in Hl. congruence.
  - destruct (str_partition "```" t) as [[a b]|]; [discriminate|].
    intros _. now rewrite IH.
Qed.

Lemma str_take_length (n : nat) (s : string) : String.length (str_take n s) <= n.
Proof.
  revert s; induction n as [|n IH]; intros [|c s]; cbn [str_take String.length]; try lia.
  specialize (IH s). lia.
Qed.

Lemma str_take_prefix (n : nat) (s : string) : starts_with (str_take n s) s = true.
Proof.
  revert s; induction n as [|n IH]; intros [|c s]; cbn [str_take starts_with]; auto.
  now rewrite Ascii.eqb_refl, IH.
Qed.

Lemma str_take_all (n : nat) (s : string) :
  String.length s <= n -> str_take n s = s.
Proof.
  revert s; induction n as [|n IH]; intros [|c s] H; cbn [str_take String.length] in *;
    try reflexivity; try lia.
  f_equal. apply IH. lia.
Qed.

#[local] Open Scope list_scope.

(** ** The Structured Extractor *)

Lemma extract_json_direct (text : string) (v : value) :
  json_loads text = Loaded v -> extract_json text = Ok v.
Proof. unfold extract_json, loads. now intros ->. Qed.

Lemma extract_json_decode_error (text : string) :
  is_decode_error (json_loads text) = true ->
  extract_json text =
    if str_in "```json" text then
      (piece <~ subscript (split "```json" text) 1 ;;
       inner <~ subscript (split "```" piece) 0 ;;
       loads (strip inner))%outcome
    else if str_in "```" text then
      (piece <~ subscript (split "```" text) 1 ;;
       inner <~ subscript (split "```" piece) 0 ;;
       loads (strip inner))%outcome
    else
      Raise (Exn ValueError ("Could not parse JSON from response: " ++ str_take 200 text)).
Proof.
  unfold extract_json, loads. now destruct (json_loads text); [discriminate| |discriminate].
Qed.

Lemma extract_json_labeled (text : string) :
  str_in "```" text = false ->
  is_decode_error (json_loads (fenced_labeled text)) = true ->
  extract_json (fenced_labeled text) = loads (strip text).
Proof.
  intros Hf Hl. apply str_in_false in Hf. rewrite (extract_json_decode_error _ Hl).
  change (str_in "```json" (fenced_labeled text)) with true. cbv iota.
  rewrite (split_labeled text Hf). cbn [subscript nth_error obind].
  destruct (split_closing text Hf) as [rest ->]. cbn [subscript nth_error obind].
  now rewrite strip_newlines.
Qed.

Lemma extract_json_unlabeled (text : string) :
  str_in "```" text = false ->
  is_decode_error (json_loads (fenced_unlabeled text)) = true ->
  extract_json (fenced_unlabeled text) = loads (strip text).
Proof.
  intros Hf Hu. apply str_in_false in Hf. rewrite (extract_json_decode_error _ Hu).
  rewrite (no_label_in_unlabeled text Hf).
  change (str_in "```" (fenced_unlabeled text)) with true. cbv iota.
  destruct (split_unlabeled text Hf) as [rest ->]. cbn [subscript nth_error obind].
  rewrite (split_inner text Hf). cbn [subscript nth_error obind].
  now rewrite strip_newlines.
Qed.

Lemma loads_loaded (text : string) (v : value) :
  json_loads text = Loaded v -> loads text = Ok v.
Proof. unfold loads. now intros ->. Qed.

(** C5 (as amended): a serialized record that holds no fence marker is
    recovered from its bare text, from a fenced block labelled [json] and
    from an unlabelled fenced block alike; and a text that parses directly
    is returned as parsed, whatever fences it holds. *)
Theorem extract_json_wrappings (text : string) (r : value) :
  json_loads text = Loaded r ->
  json_loads (strip text) = Loaded r ->
  str_in "```" text = false ->
  is_decode_error (json_loads (fenced_labeled text)) = true ->
  is_decode_error (json_loads (fenced_unlabeled text)) = true ->
  extract_json text = Ok r
  /\ extract_json (fenced_labeled text) = Ok r
  /\ extract_json (fenced_unlabeled text) = Ok r
  /\ (forall t v, json_loads t = Loaded v -> extract_json t = Ok v).
Proof.
  intros Hr Hs Hf Hl Hu.
  split; [now apply extract_json_direct|].
  split; [|split; [|exact extract_json_direct]].
  - rewrite (extract_json_labeled text Hf Hl). now apply loads_loaded.
  - rewrite (extract_json_unlabeled text Hf Hu). now apply loads_loaded.
Qed.

(** C6: the diagnostic error is raised on one of the extractor's paths
    only.  A text that does not parse and holds no fence marker is refused
    with the [ValueError] whose message ends in the first 200 characters of
    the text.  The same text inside a fenced block, labelled or not, is
    refused as well, but with the decode error that [json.loads] raises for
    the interior, under the library's message: the two fenced branches
    call [json.loads] unguarded.  An exception of [json.loads] that is no
    decode error is not caught at all. *)
Theorem extract_json_failure (text : string) :
  is_decode_error (json_loads text) = true ->
  str_in "```" text = false ->
  (extract_json text =
     Raise (Exn ValueError ("Could not parse JSON from response: " ++ str_take 200 text))
   /\ String.length (str_take 200 text) <= 200
   /\ starts_with (str_take 200 text) text = true
   /\ (String.length text <= 200 -> str_take 200 text = text))
  /\ (forall inner_msg,
        json_loads (strip text) = DecodeError inner_msg ->
        (is_decode_error (json_loads (fenced_labeled text)) = true ->
         extract_json (fenced_labeled text) = Raise (Exn JSONDecodeError inner_msg))
        /\ (is_decode_error (json_loads (fenced_unlabeled text)) = true ->
            extract_json (fenced_unlabeled text) = Raise (Exn JSONDecodeError inner_msg)))
  /\ (forall t e, json_loads t = Failed e -> exn_cls e <> JSONDecodeError ->
        extract_json t = Raise e).
Proof.
  intros Hd' Hf.
  split; [split; [|split; [apply str_take_length|split; [apply str_take_prefix|
                  apply str_take_all]]]|split].
  - rewrite (extract_json_decode_error _ Hd').
    now rewrite (no_fence_no_label text Hf), Hf.
  - intros inner_msg Hi. split; intros Hw.
    + rewrite (extract_json_labeled text Hf Hw). unfold loads. now rewrite Hi.
    + rewrite (extract_json_unlabeled text Hf Hw). unfold loads. now rewrite Hi.
  - intros t e Ht He. unfold extract_json, loads. rewrite Ht.
    destruct (exn_cls e); try reflexivity. now contradiction He.
Qed.

(** ** The Dataset Analysis Engine *)

Lemma subsequence_filter {A : Type} (f : A -> bool) (l : list A) :
  subsequence (filter f l) l.
Proof.
  induction l as [|x l IH]; cbn [filter]; [constructor|].
  destruct (f x); now constructor.
Qed.

Lemma subsequence_into_filter {A : Type} (f : A -> bool) (l' l : list A) :
  subsequence l' l -> Forall (fun x => f x = true) l' -> subsequence l' (filter f l).
Proof.
  induction 1 as [|x l1 l2 _ IH|x l1 l2 _ IH]; intros Hall; cbn [filter].
  - constructor.
  - inversion Hall as [|? ? Hx Hrest]; subst. rewrite Hx. constructor. auto.
  - destruct (f x); [constructor|]; auto.
Qed.

(** A loader that holds its frame answers from it and changes nothing. *)
Lemma loaded_df_held (attr : string) (s : State) (l : DataLoader) (df : frame) :
  data_loader s = Some l -> loader_df l = Some df ->
  loaded_df attr s = (Ok df, s).
Proof.
  intros Hl Hdf. unfold loaded_df, bind, the_loader. rewrite Hl, Hdf. reflexivity.
Qed.

(** C9: [filter_low_ctr] keeps, in their order, exactly the rows whose
    click-through-rate is strictly below the threshold: the result is a
    subsequence of the loaded rows, each of its rows is below the
    threshold, and it holds every subsequence of such rows; of rows at 0.01,
    0.012 and 0.015 the threshold 0.012 keeps the first alone. *)
Theorem filter_low_ctr_strict (threshold : float) (df : frame) :
  subsequence (low_ctr_rows threshold df) df
  /\ Forall (fun r => PrimFloat.ltb (ctr r) threshold = true) (low_ctr_rows threshold df)
  /\ (forall rows, subsequence rows df ->
        Forall (fun r => PrimFloat.ltb (ctr r) threshold = true) rows ->
        subsequence rows (low_ctr_rows threshold df))
  /\ (forall r, In r (low_ctr_rows threshold df) <->
                In r df /\ PrimFloat.ltb (ctr r) threshold = true)
  /\ (forall s l, data_loader s = Some l -> loader_df l = Some df ->
        DataLoader_filter_low_ctr threshold s = (Ok (low_ctr_rows threshold df), s))
  /\ low_ctr_rows 0.012%float ctr_rows = [example_row "Campaign A" 1 10 20 1000 10 0.01 2]
  /\ map ctr ctr_rows = [0.01; 0.012; 0.015]%float.
Proof.
  unfold low_ctr_rows.
  split; [apply subsequence_filter|].
  split; [apply Forall_forall; intros r Hr; now apply filter_In in Hr|].
  split; [intros rows; apply subsequence_into_filter|].
  split; [intros r; apply filter_In|].
  split; [|split; reflexivity].
  intros s l Hl Hdf. unfold DataLoader_filter_low_ctr, bind.
  now rewrite (loaded_df_held _ s l df Hl Hdf).
Qed.

Lemma insert_key_In (d x : Z) (keys : list Z) :
  In x (insert_key d keys) <-> x = d \/ In x keys.
Proof.
  induction keys as [|k t IH]; cbn [insert_key In]; [intuition|].
  destruct (Z.ltb_spec d k); [cbn [In]; intuition|].
  destruct (Z.eqb_spec d k); cbn [In]; [subst; intuition|].
  rewrite IH. intuition.
Qed.

Lemma insert_key_sorted (d : Z) (keys : list Z) :
  StronglySorted Z.lt keys -> StronglySorted Z.lt (insert_key d keys).
Proof.
  induction 1 as [|k t Hs IH Hk]; cbn [insert_key].
  - repeat constructor.
  - destruct (Z.ltb_spec d k).
    + constructor; [now constructor|]. constructor; [assumption|].
      eapply Forall_impl; [|exact Hk]. intros; cbv beta in *. lia.
    + destruct (Z.eqb_spec d k); [now constructor|].
      constructor; [assumption|].
      apply Forall_forall. intros x Hx. apply insert_key_In in Hx as [->|Hx]; [lia|].
      rewrite Forall_forall in Hk. auto.
Qed.

Lemma group_keys_sorted (df : frame) : StronglySorted Z.lt (group_keys df).
Proof.
  unfold group_keys. induction (dates df) as [|d l IH]; cbn [fold_right].
  - constructor.
  - now apply insert_key_sorted.
Qed.

Lemma dates_In (df : frame) (d : Z) :
  In d (dates df) <-> exists r, In r df /\ date r = Some d.
Proof.
  unfold dates. rewrite in_flat_map. split.
  - intros (r & Hr & Hd). exists r. split; [exact Hr|].
    destruct (date r) as [x|]; [|destruct Hd]. destruct Hd as [->|[]]. reflexivity.
  - intros (r & Hr & Hd). exists r. split; [exact Hr|]. rewrite Hd. now left.
Qed.

Lemma group_keys_In (df : frame) (d : Z) :
  In d (group_keys df) <-> exists r, In r df /\ date r = Some d.
Proof.
  rewrite <- dates_In. unfold group_keys.
  induction (dates df) as [|x l IH]; cbn [fold_right In]; [reflexivity|].
  rewrite insert_key_In, IH. split; intros [H|H]; auto.
Qed.

Lemma group_In (d : Z) (df : frame) (r : DatasetRecord) :
  In r (group d df) <-> In r df /\ date r = Some d.
Proof.
  unfold group, on_date. rewrite filter_In.
  destruct (date r) as [x|]; [|split; intros [_ H]; discriminate].
  destruct (Z.eqb_spec x d) as [->|Hne]; split; intros [H1 H2]; split; auto.
  - discriminate.
  - injection H2 as ->. contradiction.
Qed.

(** *** Sums *)


Lemma wrap64_small (z : Z) : (- 2 ^ 63 <= z < 2 ^ 63)%Z -> wrap64 z = z.
Proof. intros H. unfold wrap64. rewrite Z.mod_small; lia. Qed.

Lemma wrap64_mod (z : Z) : (wrap64 z mod 2 ^ 64 = z mod 2 ^ 64)%Z.
Proof.
  unfold wrap64.
  rewrite Zminus_mod_idemp_l. f_equal. lia.
Qed.



(** *** The timeline reads five columns, date by date *)








(** C7, on the code: a date on which nothing was spent and nothing shown
    gets [infinity] as its return-on-ad-spend and [nan] as its
    click-through-rate; no sentinel replaces them. *)
Theorem roas_timeline_zero_division :
  daily_roas idle_rows =
    [{| day := 1; day_spend := 0; day_revenue := 5;
        day_impressions := 0; day_clicks := 0;
        day_roas := infinity; day_ctr := nan |}]
  /\ map daily_row_to_dict (daily_roas idle_rows) =
       [VDict [("date", VTimestamp (Some 1%Z)); ("spend", VFloat 0);
               ("revenue", VFloat 5); ("impressions", VInt 0); ("clicks", VInt 0);
               ("roas", VFloat infinity); ("ctr", VFloat nan)]].
Proof. split; reflexivity. Qed.


(** ** The monad *)

Lemma bind_ok {A B : Type} (m : M A) (k : A -> M B) (s s'' : State) (b : B) :
  bind m k s = (Ok b, s'') ->
  exists a s', m s = (Ok a, s') /\ k a s' = (Ok b, s'').
Proof.
  unfold bind. destruct (m s) as [[a|e] s']; [eauto | discriminate].
Qed.

Lemma bind_inv {A B : Type} (m : M A) (k : A -> M B) (s s'' : State) (r : outcome B) :
  bind m k s = (r, s'') ->
  (exists a s', m s = (Ok a, s') /\ k a s' = (r, s''))
  \/ (exists e, m s = (Raise e, s'') /\ r = Raise e).
Proof.
  unfold bind. destruct (m s) as [[a|e] s']; [eauto|].
  intros [= <- <-]. eauto.
Qed.

Lemma try_except_inv {A : Type} (m : M A) (h : exn -> M A) (s s'' : State) (r : outcome A) :
  try_except m h s = (r, s'') ->
  (exists a, m s = (Ok a, s'') /\ r = Ok a)
  \/ (exists e s', m s = (Raise e, s') /\ h e s' = (r, s'')).
Proof.
  unfold try_except. destruct (m s) as [[a|e] s']; [|eauto].
  intros [= <- <-]. eauto.
Qed.

Lemma bind_eq_ok {A B : Type} (m : M A) (k : A -> M B) (s s' : State) (a : A) :
  m s = (Ok a, s') -> bind m k s = k a s'.
Proof. unfold bind. now intros ->. Qed.

Lemma bind_eq_raise {A B : Type} (m : M A) (k : A -> M B) (s s' : State) (e : exn) :
  m s = (Raise e, s') -> bind m k s = (Raise e, s').
Proof. unfold bind. now intros ->. Qed.

Lemma set_llm_calls_same (s : State) : set_llm_calls (llm_calls s) s = s.
Proof. now destruct s. Qed.

Lemma set_llm_calls_twice (n m : nat) (s : State) :
  set_llm_calls n (set_llm_calls m s) = set_llm_calls n s.
Proof. reflexivity. Qed.

(** *** What an action leaves alone *)

Section Frames.

Context {X : Type} (f : State -> X).

Lemma preserves_ret {A : Type} (a : A) : preserves f (ret a).
Proof. intros s r s' [= _ <-]. reflexivity. Qed.

Lemma preserves_raise {A : Type} (e : exn) : preserves f (@raise A e).
Proof. intros s r s' [= _ <-]. reflexivity. Qed.

Lemma preserves_lift {A : Type} (o : outcome A) : preserves f (lift o).
Proof. intros s r s' [= _ <-]. reflexivity. Qed.

Lemma preserves_get_state : preserves f get_state.
Proof. intros s r s' [= _ <-]. reflexivity. Qed.

Lemma preserves_bind {A B : Type} (m : M A) (k : A -> M B) :
  preserves f m -> (forall a, preserves f (k a)) -> preserves f (bind m k).
Proof.
  intros Hm Hk s r s'' H. apply bind_inv in H as [(a & s' & H1 & H2)|(e & H1 & _)].
  - rewrite (Hk _ _ _ _ H2). eapply Hm, H1.
  - eapply Hm, H1.
Qed.

Lemma preserves_try_except {A : Type} (m : M A) (h : exn -> M A) :
  preserves f m -> (forall e, preserves f (h e)) -> preserves f (try_except m h).
Proof.
  intros Hm Hh s r s'' H. apply try_except_inv in H as [(a & H1 & _)|(e & s' & H1 & H2)].
  - eapply Hm, H1.
  - rewrite (Hh _ _ _ _ H2). eapply Hm, H1.
Qed.

Lemma preserves_modify (g : State -> State) :
  (forall s, f (g s) = f s) -> preserves f (modify g).
Proof. intros Hg s r s' [= _ <-]. apply Hg. Qed.

Lemma preserves_for_each {A B : Type} (l : list A) (acc : B) (body : B -> A -> M B) :
  (forall b a, preserves f (body b a)) -> preserves f (for_each l acc body).
Proof.
  intros Hb. revert acc. induction l as [|x l IH]; intros acc; cbn [for_each].
  - apply preserves_ret.
  - apply preserves_bind; auto.
Qed.

Lemma preserves_if {A : Type} (b : bool) (m1 m2 : M A) :
  preserves f m1 -> preserves f m2 -> preserves f (if b then m1 else m2).
Proof. now destruct b. Qed.

End Frames.

Create HintDb frame.
#[local] Hint Resolve preserves_ret preserves_raise preserves_lift preserves_get_state
  preserves_bind preserves_try_except preserves_for_each preserves_if : frame.

Ltac frame :=
  repeat first
    [ apply preserves_ret | apply preserves_raise | apply preserves_lift
    | apply preserves_get_state
    | apply preserves_bind; [|intros ?]
    | apply preserves_try_except; [|intros ?]
    | apply preserves_for_each; intros ? ?
    | apply preserves_if
    | apply preserves_modify; intros ?; reflexivity
    | intros ? ? ? [= _ <-]; reflexivity
    | progress auto with frame ].

(** *** How often an action calls the generation service *)

Lemma calls_weaken {A : Type} (k k' : nat) (m : M A) :
  k <= k' -> calls_within k m -> calls_within k' m.
Proof. intros Hk Hm s r s' H. specialize (Hm _ _ _ H). lia. Qed.

Lemma calls_none {A : Type} (m : M A) : preserves llm_calls m -> calls_within 0 m.
Proof. intros Hm s r s' H. rewrite (Hm _ _ _ H). lia. Qed.

Lemma calls_bind {A B : Type} (k1 k2 : nat) (m : M A) (k : A -> M B) :
  calls_within k1 m -> (forall a, calls_within k2 (k a)) ->
  calls_within (k1 + k2) (bind m k).
Proof.
  intros Hm Hk s r s'' H. apply bind_inv in H as [(a & s' & H1 & H2)|(e & H1 & _)].
  - specialize (Hm _ _ _ H1). specialize (Hk _ _ _ _ H2). lia.
  - specialize (Hm _ _ _ H1). lia.
Qed.

Lemma calls_try_except {A : Type} (k1 k2 : nat) (m : M A) (h : exn -> M A) :
  calls_within k1 m -> (forall e, calls_within k2 (h e)) ->
  calls_within (k1 + k2) (try_except m h).
Proof.
  intros Hm Hh s r s'' H.
  apply try_except_inv in H as [(a & H1 & _)|(e & s' & H1 & H2)].
  - specialize (Hm _ _ _ H1). lia.
  - specialize (Hm _ _ _ H1). specialize (Hh _ _ _ _ H2). lia.
Qed.

Lemma calls_generate (temperature max_tokens : value) :
  calls_within 1 (generate temperature max_tokens).
Proof.
  intros s r s'. unfold generate.
  destruct (llm_script s (llm_calls s)); intros [= _ <-]; cbn; lia.
Qed.

Lemma calls_think_json (self : Agent) (temperature : value) :
  calls_within 1 (think_json self temperature).
Proof.
  unfold think_json, generate_json.
  apply (calls_bind 0 1); [apply calls_none; frame|intros temp].
  apply (calls_bind 0 1); [apply calls_none; frame|intros max_tokens].
  apply (calls_bind 1 0); [apply calls_generate|intros response].
  apply calls_none; frame.
Qed.

Lemma preserves_now {X : Type} (f : State -> X) :
  (forall n s, f (set_ticks n s) = f s) -> preserves f now.
Proof. intros Hf s r s' [= _ <-]. apply Hf. Qed.

Lemma preserves_log_execution {X : Type} (f : State -> X)
    (self : Agent) (task : string) (result : value) :
  (forall n s, f (set_ticks n s) = f s) ->
  (forall h s, f (set_execution_history h s) = f s) ->
  preserves f (log_execution self task result).
Proof.
  intros Ht Hh. unfold log_execution. apply preserves_bind.
  - now apply preserves_now.
  - intros ts. apply preserves_modify. intros s. apply Hh.
Qed.

(** *** The generation service failing *)

Lemma think_json_all_fail (self : Agent) (temperature : value) (s : State) :
  truthy temperature = true -> all_fail s ->
  exists e n, think_json self temperature s = (Raise e, set_llm_calls n s)
              /\ str_exn e <> EmptyString.
Proof.
  intros Ht Hfail. unfold think_json. rewrite Ht.
  rewrite (bind_eq_ok (ret temperature) _ s s temperature eq_refl).
  destruct (py_get (config self) "max_tokens" (VInt 2048)) as [mt|e] eqn:E.
  - rewrite (bind_eq_ok (lift (Ok mt)) _ s s mt eq_refl).
    unfold generate_json, generate, bind.
    destruct (Hfail (llm_calls s)) as [msg ->].
    eexists _, _. split; [reflexivity|]. discriminate.
  - rewrite (bind_eq_raise (lift (Raise e)) _ s s e eq_refl).
    exists e, (llm_calls s). rewrite set_llm_calls_same. split; [reflexivity|].
    unfold py_get in E. destruct (config self); try discriminate;
      injection E as <-; discriminate.
Qed.


(** ** Reasoning stages when the generation service fails *)

Lemma open_read_readable (path : string) (s : State) :
  template_readable path s -> exists text, open_read path s = (Ok text, s).
Proof. intros [text H]. exists text. unfold open_read. now rewrite H. Qed.

Lemma planner_all_fail (self : Agent) (task : string) (context : list (string * value))
    (s : State) :
  template_readable "prompts/planner.md" s -> all_fail s ->
  exists msg n,
    planner_execute self task context s =
      (Ok (VDict [("status", VStr "partial");
                  ("plan", planner_create_fallback_plan task context);
                  ("error", VStr msg)]),
       set_llm_calls n s)
    /\ msg <> EmptyString.
Proof.
  intros Hr Hf. destruct (open_read_readable _ _ Hr) as [text Ht].
  destruct (think_json_all_fail self (VFloat 0.3) s eq_refl Hf) as (e & n & He & Hne).
  exists (str_exn e), n. split; [|exact Hne].
  unfold planner_execute. rewrite (bind_eq_ok _ _ _ _ _ Ht).
  unfold try_except. now rewrite (bind_eq_raise _ _ _ _ _ He).
Qed.

Lemma insight_all_fail (self : Agent) (task : string) (context : list (string * value))
    (s : State) :
  template_readable "prompts/insight_agent.md" s -> all_fail s ->
  exists msg n,
    insight_execute self task context s =
      (Ok (VDict [("status", VStr "partial");
                  ("hypotheses", insight_create_fallback_hypotheses task context);
                  ("error", VStr msg)]),
       set_llm_calls n s)
    /\ msg <> EmptyString.
Proof.
  intros Hr Hf. destruct (open_read_readable _ _ Hr) as [text Ht].
  destruct (think_json_all_fail self (VFloat 0.7) s eq_refl Hf) as (e & n & He & Hne).
  exists (str_exn e), n. split; [|exact Hne].
  unfold insight_execute. rewrite (bind_eq_ok _ _ _ _ _ Ht).
  unfold try_except. now rewrite (bind_eq_raise _ _ _ _ _ He).
Qed.

Lemma fallback_items_ok (l : list value) :
  forallb is_dict l = true ->
  exists evals, map_outcome evaluator_fallback_item l = Ok evals
                /\ List.length evals = List.length l.
Proof.
  induction l as [|h l IH]; cbn [forallb map_outcome]; [eauto|].
  intros H. apply andb_true_iff in H as [Hh Hl].
  destruct h; try discriminate. destruct (IH Hl) as (evals & -> & Hlen).
  cbn. eexists. split; [reflexivity|]. cbn. now rewrite Hlen.
Qed.

Lemma fallback_evaluation_ok (hs : list value) :
  forallb is_dict (firstn 3 hs) = true ->
  exists evaluation evals,
    evaluator_create_fallback_evaluation (VList hs) = Ok evaluation
    /\ truthy evaluation = true
    /\ py_get evaluation "hypothesis_evaluations" VNone = Ok (VList evals)
    /\ List.length evals = Nat.min 3 (List.length hs).
Proof.
  intros H. destruct (fallback_items_ok _ H) as (evals & He & Hlen).
  unfold evaluator_create_fallback_evaluation. cbn [py_slice_items obind]. rewrite He.
  cbn [obind]. eexists _, evals. repeat split. now rewrite Hlen, length_firstn.
Qed.

Lemma evaluator_all_fail (self : Agent) (task : string) (context : list (string * value))
    (s : State) (hd : list (string * value)) (hs : list value) :
  template_readable "prompts/evaluator.md" s -> all_fail s ->
  dict_get context "hypotheses" (VDict []) = VDict hd ->
  dict_get hd "hypotheses" (VList []) = VList hs ->
  forallb is_dict (firstn 3 hs) = true ->
  exists msg n evaluation evals,
    evaluator_execute self task context s =
      (Ok (VDict [("status", VStr "partial");
                  ("evaluation", evaluation);
                  ("error", VStr msg)]),
       set_llm_calls n s)
    /\ msg <> EmptyString
    /\ evaluator_create_fallback_evaluation (VList hs) = Ok evaluation
    /\ truthy evaluation = true
    /\ py_get evaluation "hypothesis_evaluations" VNone = Ok (VList evals)
    /\ List.length evals = Nat.min 3 (List.length hs).
Proof.
  intros Hr Hf Hhd Hhs Hd. destruct (open_read_readable _ _ Hr) as [text Ht].
  destruct (think_json_all_fail self (VFloat 0.2) s eq_refl Hf) as (e & n & He & Hne).
  destruct (fallback_evaluation_ok hs Hd) as (evaluation & evals & Hev & Htr & Hget & Hlen).
  exists (str_exn e), n, evaluation, evals. repeat split; auto.
  unfold evaluator_execute. rewrite (bind_eq_ok _ _ _ _ _ Ht), Hhd.
  cbn [py_get]. rewrite Hhs.
  rewrite (bind_eq_ok (lift (Ok (VList hs))) _ s s _ eq_refl).
  unfold try_except. rewrite (bind_eq_raise _ _ _ _ _ He).
  now rewrite (bind_eq_ok (lift (evaluator_create_fallback_evaluation (VList hs))) _ _ _
                 evaluation) by (unfold lift; now rewrite Hev).
Qed.






(** ** The Creative stage's bound of three *)

Lemma calls_creative_step (self : Agent) (recs : list value) (c : value) :
  calls_within 1 (creative_step self recs c).
Proof.
  unfold creative_step.
  apply (calls_bind 0 1); [apply calls_none; frame|intros _].
  apply (calls_try_except 1 0).
  - apply (calls_bind 1 0); [apply calls_think_json|intros ?; apply calls_none; frame].
  - intros e. apply calls_none; frame.
Qed.

Lemma creative_step_appends (self : Agent) (recs : list value) (c : value)
    (s s' : State) (recs' : list value) :
  creative_step self recs c s = (Ok recs', s') ->
  List.length recs' = S (List.length recs).
Proof.
  unfold creative_step. intros H.
  apply bind_ok in H as (? & s1 & _ & H).
  apply try_except_inv in H as [(a & H & [= <-])|(e & s2 & _ & H)].
  - apply bind_ok in H as (v & s3 & _ & [= <- _]).
    rewrite length_app. cbn. lia.
  - apply bind_ok in H as (v & s3 & _ & [= <- _]).
    rewrite length_app. cbn. lia.
Qed.

Lemma creative_loop_bound (self : Agent) (l recs : list value) (s s' : State)
    (recs' : list value) :
  for_each l recs (creative_step self) s = (Ok recs', s') ->
  List.length recs' = List.length recs + List.length l
  /\ llm_calls s <= llm_calls s' <= llm_calls s + List.length l.
Proof.
  revert recs s. induction l as [|c l IH]; intros recs s H; cbn [for_each] in H.
  - injection H as <- <-. cbn. lia.
  - apply bind_ok in H as (recs1 & s1 & Hstep & Hloop).
    pose proof (creative_step_appends _ _ _ _ _ _ Hstep) as Hlen.
    pose proof (calls_creative_step _ _ _ _ _ _ Hstep) as Hcalls.
    destruct (IH _ _ Hloop) as [Hlen' Hcalls']. cbn [List.length]. lia.
Qed.

Lemma chars_take_length (n : nat) (x : string) : List.length (chars (str_take n x)) <= n.
Proof.
  revert x; induction n as [|n IH]; intros [|c x]; cbn [str_take chars List.length]; try lia.
  specialize (IH x). lia.
Qed.

Lemma slice_items_length (v : value) (n : nat) (items : list value) :
  py_slice_items v n = Ok items -> List.length items <= n.
Proof.
  destruct v; try discriminate; cbn [py_slice_items]; intros [= <-].
  - apply chars_take_length.
  - rewrite length_firstn. lia.
Qed.

Lemma slice_items_list (l : list value) (n : nat) (items : list value) :
  py_slice_items (VList l) n = Ok items -> items = firstn n l.
Proof. cbn [py_slice_items]. now intros [= <-]. Qed.

Lemma calls_log_execution (self : Agent) (task : string) (result : value)
    (s s' : State) (r : outcome unit) :
  log_execution self task result s = (r, s') -> llm_calls s' = llm_calls s.
Proof.
  apply (preserves_log_execution llm_calls); reflexivity.
Qed.

Lemma creative_execute_cut (self : Agent) (task : string) (campaigns : list value)
    (s : State) :
  creative_execute self task (creative_context (firstn 3 campaigns)) s =
  creative_execute self task (creative_context campaigns) s.
Proof.
  unfold creative_execute, creative_context, bind.
  destruct (open_read "prompts/creative_generator.md" s) as [[text|e] s0]; [|reflexivity].
  cbn [dict_get dict_lookup String.eqb Ascii.eqb Bool.eqb py_get lift].
  destruct campaigns as [|c campaigns]; [reflexivity|].
  change (firstn 3 (c :: campaigns)) with (c :: firstn 2 campaigns).
  cbn [truthy negb py_slice_items].
  change (c :: firstn 2 campaigns) with (firstn 3 (c :: campaigns)).
  now rewrite firstn_firstn.
Qed.

Lemma creative_step_recommended (self : Agent) (recs recs' : list value) (c : value)
    (s s' : State) :
  creative_step self recs c s = (Ok recs', s') ->
  creative_prompt c = Ok tt
  /\ exists r,
       recs' = recs ++ [r]
       /\ (think_json self (VFloat 0.8) s = (Ok r, s')
           \/ exists e, think_json self (VFloat 0.8) s = (Raise e, s')
                        /\ creative_create_fallback_creative c = Ok r).
Proof.
  intros H. unfold creative_step in H.
  apply bind_ok in H as ([] & s1 & Hprompt & H).
  assert (Hp : creative_prompt c = Ok tt /\ s1 = s)
    by (unfold lift in Hprompt; injection Hprompt; auto).
  destruct Hp as [Hp ->]. split; [exact Hp|].
  apply try_except_inv in H as [(a & H & [= <-])|(e & s2 & Hthink & H)].
  - apply bind_ok in H as (v & s2 & Hthink & [= <- <-]).
    exists v. split; [reflexivity|now left].
  - apply bind_ok in H as (v & s3 & Hfb & [= <- <-]).
    assert (Hf : creative_create_fallback_creative c = Ok v /\ s3 = s2)
      by (unfold lift in Hfb; injection Hfb; auto).
    destruct Hf as [Hf ->].
    exists v. split; [reflexivity|]. right. exists e. split; [|exact Hf].
    unfold bind in Hthink.
    destruct (think_json self (VFloat 0.8) s) as [[x|e'] sx]; [discriminate|].
    now injection Hthink as -> ->.
Qed.

Lemma creative_loop_recommended (self : Agent) (l recs recs' : list value) (s s' : State) :
  for_each l recs (creative_step self) s = (Ok recs', s') ->
  exists new, recs' = recs ++ new /\ recommended self l s new s'.
Proof.
  revert recs s. induction l as [|c l IH]; intros recs s H; cbn [for_each] in H.
  - injection H as <- <-. exists []. split; [now rewrite app_nil_r|constructor].
  - apply bind_ok in H as (recs1 & s1 & Hstep & Hloop).
    destruct (creative_step_recommended _ _ _ _ _ _ Hstep) as (Hp & r & -> & Hr).
    destruct (IH _ _ Hloop) as (new & -> & Hall).
    exists (r :: new). split; [now rewrite <- app_assoc|].
    destruct Hr as [Hgen|(e & Hraise & Hfb)].
    + eapply recommended_generated; eassumption.
    + eapply recommended_fallback; eassumption.
Qed.

(** C10: whatever the agent's configuration, the generation service and the
    campaigns are, a Creative stage that returns has produced at most three
    recommendation records and called the service at most three times.
    For a list of campaigns it returns one record for each of the first
    three (all of them when they are fewer), in their order: the record of
    a campaign is what the call of the service made for that campaign
    yielded, or the template record of that campaign when that call
    failed; the campaigns after the third are not read, and the stage does
    the same on the list cut to its first three items. *)
Theorem creative_first_three (self : Agent) (task : string)
    (context : list (string * value)) (s s' : State) (r : value) :
  creative_execute self task context s = (Ok r, s') ->
  exists recs,
    py_get r "recommendations" VNone = Ok (VList recs)
    /\ List.length recs <= 3
    /\ llm_calls s <= llm_calls s' <= llm_calls s + 3
    /\ (forall campaigns,
          py_get (dict_get context "analysis" (VDict [])) "low_ctr_campaigns" (VList []) =
            Ok (VList campaigns) ->
          List.length recs = Nat.min 3 (List.length campaigns)
          /\ llm_calls s' <= llm_calls s + Nat.min 3 (List.length campaigns)
          /\ exists s1,
               recommended self (firstn 3 campaigns) s recs s1
               /\ llm_calls s' = llm_calls s1
               /\ (campaigns <> [] ->
                   r = VDict [("status", VStr "success");
                              ("recommendations", VList recs);
                              ("count", VInt (Z.of_nat (List.length recs)))]))
    /\ (forall campaigns, context = creative_context campaigns ->
          creative_execute self task (creative_context (firstn 3 campaigns)) s = (Ok r, s')).
Proof.
  intros H. pose proof H as Hrun. unfold creative_execute in H.
  apply bind_ok in H as (text & s0 & Hopen & H).
  assert (s0 = s) as -> by (unfold open_read in Hopen; now injection Hopen).
  apply bind_ok in H as (low & s1 & Hlow & H).
  assert (Hlow' : py_get (dict_get context "analysis" (VDict [])) "low_ctr_campaigns"
                    (VList []) = Ok low /\ s1 = s)
    by (unfold lift in Hlow; injection Hlow; auto).
  destruct Hlow' as [Hget ->]. clear Hlow.
  apply bind_ok in H as (perf & s1 & Hperf & H).
  assert (s1 = s) as -> by (unfold lift in Hperf; now injection Hperf).
  destruct (truthy low) eqn:Htruthy; cbn [negb] in H.
  - apply bind_ok in H as (items & s1 & Hitems & H).
    assert (Hitems' : py_slice_items low 3 = Ok items /\ s1 = s)
      by (unfold lift in Hitems; injection Hitems; auto).
    destruct Hitems' as [Hslice ->]. clear Hitems.
    apply bind_ok in H as (recs & s2 & Hloop & H).
    apply bind_ok in H as ([] & s3 & Hlog & [= <- <-]).
    destruct (creative_loop_bound _ _ _ _ _ _ Hloop) as [Hlen Hcalls].
    destruct (creative_loop_recommended _ _ _ _ _ _ Hloop) as (new & Hnew & Hrec).
    cbn [app] in Hnew. subst new.
    pose proof (calls_log_execution _ _ _ _ _ _ Hlog) as Hsame.
    pose proof (slice_items_length _ _ _ Hslice) as Hitems.
    exists recs. cbn [py_get dict_get dict_lookup String.eqb Ascii.eqb Bool.eqb].
    split; [reflexivity|]. cbn [List.length] in Hlen.
    split; [lia|]. split; [lia|]. split.
    + intros campaigns Hc. rewrite Hget in Hc. injection Hc as ->.
      apply slice_items_list in Hslice as ->. rewrite length_firstn in *.
      split; [lia|]. split; [lia|].
      exists s2. split; [exact Hrec|]. split; [exact Hsame|reflexivity].
    + intros campaigns ->.
      exact (eq_trans (creative_execute_cut self task campaigns s) Hrun).
  - injection H as <- <-. exists []. cbn.
    split; [reflexivity|]. split; [lia|]. split; [lia|]. split.
    + intros campaigns Hc. rewrite Hget in Hc. injection Hc as ->.
      destruct campaigns; [|discriminate].
      split; [reflexivity|]. split; [cbn; lia|].
      exists s. split; [constructor|]. split; [reflexivity|]. now intros Hne.
    + intros campaigns ->.
      exact (eq_trans (creative_execute_cut self task campaigns s) Hrun).
Qed.


(** ** The shape of stage results *)

Ltac peel H :=
  repeat (let a := fresh "a" in
          let s := fresh "s" in
          let Hstep := fresh "Hstep" in
          apply bind_ok in H as (a & s & Hstep & H)).

Lemma fallback_evaluation_truthy (hypotheses evaluation : value) :
  evaluator_create_fallback_evaluation hypotheses = Ok evaluation ->
  truthy evaluation = true.
Proof.
  unfold evaluator_create_fallback_evaluation.
  destruct (py_slice_items hypotheses 3) as [items|]; [|discriminate]. cbn [obind].
  destruct (map_outcome evaluator_fallback_item items); [|discriminate].
  now intros [= <-].
Qed.

Lemma planner_result_ok (self : Agent) (task : string) (context : list (string * value))
    (s s' : State) (r : value) :
  planner_execute self task context s = (Ok r, s') -> stage_result_ok "plan" r = true.
Proof.
  unfold planner_execute. intros H. peel H.
  apply try_except_inv in H as [(v & H & [= <-])|(e & ? & _ & [= <- _])]; [|reflexivity].
  peel H. now injection H as <- _.
Qed.

Lemma insight_result_ok (self : Agent) (task : string) (context : list (string * value))
    (s s' : State) (r : value) :
  insight_execute self task context s = (Ok r, s') -> stage_result_ok "hypotheses" r = true.
Proof.
  unfold insight_execute. intros H. peel H.
  apply try_except_inv in H as [(v & H & [= <-])|(e & ? & _ & [= <- _])]; [|reflexivity].
  peel H. now injection H as <- _.
Qed.

Lemma evaluator_result_ok (self : Agent) (task : string) (context : list (string * value))
    (s s' : State) (r : value) :
  evaluator_execute self task context s = (Ok r, s') ->
  stage_result_ok "evaluation" r = true.
Proof.
  unfold evaluator_execute. intros H. peel H.
  apply try_except_inv in H as [(v & H & [= <-])|(e & ? & _ & H)].
  - peel H. now injection H as <- _.
  - peel H. injection H as <- _.
    unfold lift in Hstep1. injection Hstep1 as Hev _.
    cbn. now rewrite (fallback_evaluation_truthy _ _ Hev).
Qed.

Lemma creative_result_ok (self : Agent) (task : string) (context : list (string * value))
    (s s' : State) (r : value) :
  creative_execute self task context s = (Ok r, s') ->
  stage_result_ok "recommendations" r = true.
Proof.
  unfold creative_execute. intros H.
  apply bind_ok in H as (? & ? & _ & H). apply bind_ok in H as (low & ? & _ & H).
  apply bind_ok in H as (perf & ? & _ & H).
  destruct (negb (truthy low)).
  - now injection H as <- _.
  - peel H. now injection H as <- _.
Qed.

Lemma data_result_cases (self : Agent) (task : string) (context : list (string * value))
    (s s' : State) (r : outcome value) :
  data_execute self task context s = (r, s') ->
  (exists summary analysis findings count,
     r = Ok (VDict [("status", VStr "success");
                    ("data_summary", summary);
                    ("analysis", analysis);
                    ("structured_findings", findings);
                    ("record_count", count)]))
  \/ (exists e, r = Ok (VDict [("status", VStr "error"); ("error", VStr (str_exn e))])).
Proof.
  unfold data_execute. intros H.
  apply try_except_inv in H as [(v & H & ->)|(e & ? & _ & [= <- _])]; [|eauto].
  peel H. injection H as <- _. left. eauto.
Qed.

Lemma data_result_ok (self : Agent) (task : string) (context : list (string * value))
    (s s' : State) (r : outcome value) :
  data_execute self task context s = (r, s') ->
  exists v, r = Ok v /\ stage_result_ok "analysis" v = true.
Proof.
  intros H. apply data_result_cases in H
    as [(summary & analysis & findings & count & ->)|(e & ->)]; eauto.
Qed.


(** ** The analysis step of the data agent *)

Lemma dict_set_nonempty (k : string) (v : value) (d : list (string * value)) :
  dict_set k v d <> [].
Proof.
  destruct d as [|[k' v'] d]; cbn [dict_set]; [discriminate|].
  destruct (String.eqb k k'); discriminate.
Qed.

Lemma perform_analysis_loaded (requirements : value) (s : State) (df : frame) :
  agent_df s = Some df ->
  data_perform_analysis requirements s = (Ok (VDict []), s).
Proof.
  intros H. unfold data_perform_analysis.
  rewrite (bind_eq_ok get_state _ s s s eq_refl). now rewrite H.
Qed.

(** One optional entry of the analysis: what was there stays there. *)
Lemma analysis_entry_nonempty (wanted : bool) (m : M (list (string * value)))
    (analysis analysis' : list (string * value)) (s s' : State) :
  (if wanted then m else ret analysis) s = (Ok analysis', s') ->
  (forall a s1, m s = (Ok a, s1) -> a <> []) ->
  analysis <> [] -> analysis' <> [].
Proof.
  destruct wanted; intros H Hm Ha.
  - eapply Hm, H.
  - now injection H as <- _.
Qed.

Lemma perform_analysis_unloaded (requirements : value) (s s' : State) (r : value) :
  agent_df s = None ->
  required "campaign_performance" requirements = Ok true ->
  data_perform_analysis requirements s = (Ok r, s') ->
  exists analysis, r = VDict analysis /\ analysis <> [].
Proof.
  intros Hdf Hreq H. unfold data_perform_analysis in H.
  rewrite (bind_eq_ok get_state _ s s s eq_refl) in H. rewrite Hdf in H. cbn [negb] in H.
  rewrite Hreq in H. rewrite (bind_eq_ok (lift (Ok true)) _ s s true eq_refl) in H.
  apply bind_ok in H as (a1 & s1 & H1 & H).
  assert (Ha1 : a1 <> []).
  { apply bind_ok in H1 as (v & ? & _ & [= <- _]).
    first [apply dict_set_nonempty | discriminate]. }
  apply bind_ok in H as (w2 & s2 & _ & H). apply bind_ok in H as (a2 & s3 & H2 & H).
  assert (Ha2 : a2 <> []).
  { eapply analysis_entry_nonempty; [exact H2| |exact Ha1].
    intros a ? Hm. apply bind_ok in Hm as (v & ? & _ & [= <- _]).
    first [apply dict_set_nonempty | discriminate]. }
  apply bind_ok in H as (w3 & s4 & _ & H). apply bind_ok in H as (a3 & s5 & H3 & H).
  assert (Ha3 : a3 <> []).
  { eapply analysis_entry_nonempty; [exact H3| |exact Ha2].
    intros a ? Hm. apply bind_ok in Hm as (v & ? & _ & [= <- _]).
    first [apply dict_set_nonempty | discriminate]. }
  apply bind_ok in H as (w4 & s6 & _ & H). apply bind_ok in H as (a4 & s7 & H4 & H).
  assert (Ha4 : a4 <> []).
  { eapply analysis_entry_nonempty; [exact H4| |exact Ha3].
    intros a ? Hm. apply bind_ok in Hm as (v & ? & _ & [= <- _]).
    first [apply dict_set_nonempty | discriminate]. }
  injection H as <- _. eauto.
Qed.

Lemma preserves_the_loader {X : Type} (f : State -> X) (attr : string) :
  preserves f (the_loader attr).
Proof.
  intros s r s'. unfold the_loader. destruct (data_loader s); now intros [= _ <-].
Qed.

Lemma preserves_set_loader_df {X : Type} (f : State -> X) (df : frame) :
  (forall l s, f (set_data_loader l s) = f s) -> preserves f (set_loader_df df).
Proof.
  intros Hf. unfold set_loader_df. apply preserves_modify. intros s.
  destruct (data_loader s); [apply Hf|reflexivity].
Qed.

Lemma preserves_load {X : Type} (f : State -> X) :
  (forall l s, f (set_data_loader l s) = f s) -> preserves f DataLoader_load.
Proof.
  intros Hf. unfold DataLoader_load.
  apply preserves_bind; [apply preserves_the_loader|intros self].
  apply preserves_bind; [apply preserves_lift|intros path].
  apply preserves_bind; [apply preserves_get_state|intros s0].
  apply preserves_if; [apply preserves_raise|].
  apply preserves_bind; [apply preserves_lift|intros raw].
  apply preserves_bind; [now apply preserves_set_loader_df|intros _].
  apply preserves_bind; [now apply preserves_set_loader_df|intros _].
  apply preserves_if; [|apply preserves_ret].
  apply preserves_bind; [apply preserves_lift|intros sampled].
  apply preserves_bind; [now apply preserves_set_loader_df|intros _].
  apply preserves_ret.
Qed.

Lemma preserves_get_summary {X : Type} (f : State -> X) :
  (forall l s, f (set_data_loader l s) = f s) -> preserves f DataLoader_get_summary.
Proof.
  intros Hf. unfold DataLoader_get_summary, loaded_df.
  apply preserves_bind; [|intros df; apply preserves_ret].
  apply preserves_bind; [apply preserves_the_loader|intros self].
  destruct (loader_df self); [apply preserves_ret|now apply preserves_load].
Qed.

Lemma data_execute_analysis (self : Agent) (task : string) (context : list (string * value))
    (s s' : State) (r : outcome value) :
  data_execute self task context s = (r, s') ->
  (exists summary findings count,
     r = Ok (VDict [("status", VStr "success");
                    ("data_summary", summary);
                    ("analysis", VDict []);
                    ("structured_findings", findings);
                    ("record_count", count)]))
  \/ (exists e, r = Ok (VDict [("status", VStr "error"); ("error", VStr (str_exn e))])).
Proof.
  unfold data_execute. intros H.
  apply try_except_inv in H as [(v & H & ->)|(e & ? & _ & [= <- _])]; [|eauto].
  left.
  apply bind_ok in H as ([] & s1 & _ & H).
  apply bind_ok in H as (df & s2 & _ & H).
  apply bind_ok in H as ([] & s3 & Hset & H).
  apply bind_ok in H as (summary & s4 & Hsum & H).
  apply bind_ok in H as (analysis & s5 & Han & H).
  assert (Hdf : agent_df s4 = Some df).
  { rewrite (preserves_get_summary agent_df (fun _ _ => eq_refl) _ _ _ Hsum).
    now injection Hset as <-. }
  rewrite (perform_analysis_loaded _ _ _ Hdf) in Han. injection Han as <- <-.
  peel H. injection H as <- _. eauto.
Qed.

(** C4: once the frame is loaded, the analysis step returns the empty
    mapping: its guard returns [{}] when the frame is there, and is passed
    only when the frame is missing (the step then raises or returns a
    non-empty mapping).  So a run of the data agent has [analysis = {}] when
    it succeeds and no [analysis] when it fails; the context the Creative
    stage receives has no low-CTR campaign, and a Creative stage that can
    read its template answers [info] with no recommendation; whenever it
    returns at all it returns that answer, and the state is as it was. *)
Theorem analysis_always_empty (self : Agent) (task : string)
    (context : list (string * value)) (s : State) :
  (forall requirements s0 df, agent_df s0 = Some df ->
     data_perform_analysis requirements s0 = (Ok (VDict []), s0))
  /\ (forall requirements s0 s1 r, agent_df s0 = None ->
        required "campaign_performance" requirements = Ok true ->
        data_perform_analysis requirements s0 = (Ok r, s1) ->
        exists analysis, r = VDict analysis /\ analysis <> [])
  /\ exists data_result creative_ctx,
       fst (data_execute self task context s) = Ok data_result
       /\ py_get data_result "analysis" (VDict []) = Ok (VDict [])
       /\ (status_of data_result = Some "success" ->
           py_get data_result "analysis" VNone = Ok (VDict []))
       /\ (forall stage_result ctx,
             prepare_insight_context stage_result data_result = Ok ctx
             \/ prepare_eval_context stage_result data_result = Ok ctx ->
             dict_get ctx "analysis" (VDict []) = VDict [])
       /\ prepare_creative_context data_result = Ok creative_ctx
       /\ py_get (dict_get creative_ctx "analysis" (VDict [])) "low_ctr_campaigns" (VList [])
          = Ok (VList [])
       /\ (forall creative task' s2,
             template_readable "prompts/creative_generator.md" s2 ->
             creative_execute creative task' creative_ctx s2 = (Ok creative_info, s2))
       /\ (forall creative task' s2 r s3,
             creative_execute creative task' creative_ctx s2 = (Ok r, s3) ->
             r = creative_info /\ s3 = s2).
Proof.
  split; [exact perform_analysis_loaded|].
  split; [exact perform_analysis_unloaded|].
  destruct (data_execute self task context s) as [r s'] eqn:E.
  assert (Hcreative : forall summary creative task' s2,
    template_readable "prompts/creative_generator.md" s2 ->
    creative_execute creative task'
      [("analysis", VDict []); ("data_summary", summary)] s2 = (Ok creative_info, s2)).
  { intros summary creative task' s2 Hr.
    destruct (open_read_readable _ _ Hr) as [text Ht].
    unfold creative_execute. now rewrite (bind_eq_ok _ _ _ _ _ Ht). }
  assert (Hinfo : forall summary creative task' s2 res s3,
    creative_execute creative task'
      [("analysis", VDict []); ("data_summary", summary)] s2 = (Ok res, s3) ->
    res = creative_info /\ s3 = s2).
  { intros summary creative task' s2 res s3 H. unfold creative_execute in H.
    apply bind_ok in H as (text & s4 & Hopen & H).
    unfold open_read in Hopen. injection Hopen as _ <-.
    now injection H as <- <-. }
  apply data_execute_analysis in E as [(summary & findings & count & ->)|(e & ->)].
  - eexists _, _. split; [reflexivity|]. split; [reflexivity|]. split; [reflexivity|].
    split; [|split; [reflexivity|]; split; [reflexivity|];
             split; [apply Hcreative|apply Hinfo]].
    intros stage_result ctx.
    unfold prepare_insight_context, prepare_eval_context.
    destruct (py_get stage_result "plan" (VDict [])), (py_get stage_result "hypotheses" (VDict []));
      cbn; intros [H|H]; try discriminate; now injection H as <-.
  - eexists _, _. split; [reflexivity|]. split; [reflexivity|]. split; [discriminate|].
    split; [|split; [reflexivity|]; split; [reflexivity|];
             split; [apply Hcreative|apply Hinfo]].
    intros stage_result ctx.
    unfold prepare_insight_context, prepare_eval_context.
    destruct (py_get stage_result "plan" (VDict [])), (py_get stage_result "hypotheses" (VDict []));
      cbn; intros [H|H]; try discriminate; now injection H as <-.
Qed.

(** ** A dataset path that does not resolve *)

Lemma data_execute_missing (self : Agent) (task : string) (context : list (string * value))
    (s : State) (path : string) :
  dict_get context "dataset_path" (VStr "data/synthetic_fb_ads_undergarments.csv")
    = VStr path ->
  path_exists s path = false ->
  data_execute self task context s =
    (Ok (VDict [("status", VStr "error");
                ("error", VStr ("Dataset not found: " ++ path))]),
     set_data_loader
       (Some (new_DataLoader (VStr path)
                (dict_get context "sample_mode" (VBool false))
                (dict_get context "sample_size" (VInt 100)))) s).
Proof.
  intros Hp He. unfold data_execute. rewrite Hp.
  unfold try_except, bind, modify, DataLoader_load, bind, the_loader, lift, get_state.
  cbn. now rewrite He.
Qed.

Lemma now_eq (s : State) : now s = (Ok (clock s (ticks s)), set_ticks (S (ticks s)) s).
Proof. reflexivity. Qed.

Lemma record_execution_eq (agent_name : string) (d : list (string * value)) (s : State) :
  record_execution agent_name (VDict d) s =
    (Ok tt,
     set_results (dict_set agent_name (VDict d) (results s))
       (set_execution_trace
          (execution_trace s ++
             [VDict [("agent", VStr agent_name);
                     ("status", dict_get d "status" (VStr "unknown"));
                     ("timestamp", VStr (clock s (ticks s)))]])
          (set_ticks (S (ticks s)) s))).
Proof. reflexivity. Qed.

Lemma all_fail_same (s s' : State) :
  llm_script s' = llm_script s -> all_fail s -> all_fail s'.
Proof. intros E H n. rewrite E. apply H. Qed.

Lemma template_readable_same (path : string) (s s' : State) :
  read_text s' = read_text s -> template_readable path s -> template_readable path s'.
Proof. intros E [text H]. exists text. now rewrite E. Qed.

Lemma creative_no_campaigns (self : Agent) (task : string) (summary : value) (s : State) :
  template_readable "prompts/creative_generator.md" s ->
  creative_execute self task [("analysis", VDict []); ("data_summary", summary)] s =
    (Ok creative_info, s).
Proof.
  intros Hr. destruct (open_read_readable _ _ Hr) as [text Ht].
  unfold creative_execute. now rewrite (bind_eq_ok _ _ _ _ _ Ht).
Qed.

Lemma open_write_ok (path : value) (doc : document) (s : State) :
  write_error s path = None ->
  open_write path doc s = (Ok tt, set_written (written s ++ [(path, doc)]) s).
Proof. unfold open_write. now intros ->. Qed.

Lemma save_outputs_ok (self : Orchestrator) (report : list (string * value)) (s : State)
    (cfg ocfg : list (string * value)) (logs_path insights_path : string) :
  orch_config self = VDict cfg ->
  dict_get cfg "output" (VDict []) = VDict ocfg ->
  dict_get ocfg "logs_path" (VStr "logs") = VStr logs_path ->
  dict_get ocfg "insights_path" (VStr "reports/insights.json") = VStr insights_path ->
  (forall path,
     In path [VStr insights_path;
              dict_get ocfg "creatives_path" (VStr "reports/creatives.json");
              dict_get ocfg "report_path" (VStr "reports/report.md")] ->
     write_error s path = None) ->
  markdown_text report = Ok tt ->
  save_outputs self report s =
    (Ok tt,
     set_written
       (written s ++
          [(VStr insights_path, JsonDoc (dict_get report "insights" (VDict [])));
           (dict_get ocfg "creatives_path" (VStr "reports/creatives.json"),
            JsonDoc (dict_get report "creative_recommendations" (VList [])));
           (dict_get ocfg "report_path" (VStr "reports/report.md"),
            MarkdownDoc (VDict report))]) s).
Proof.
  intros Hcfg Hout Hlogs Hins Hwrite Hmd.
  unfold save_outputs, get_dict. rewrite Hcfg. cbn [py_get]. rewrite Hout.
  rewrite (bind_eq_ok (lift (Ok (VDict ocfg))) _ s s _ eq_refl).
  cbn [py_get]. rewrite Hlogs, Hins.
  rewrite (bind_eq_ok (lift (Ok (VStr logs_path))) _ s s _ eq_refl).
  rewrite (bind_eq_ok (mkdir (VStr logs_path)) _ s s tt eq_refl).
  rewrite (bind_eq_ok (lift (Ok (VStr insights_path))) _ s s _ eq_refl).
  rewrite (bind_eq_ok (mkdir (VStr insights_path)) _ s s tt eq_refl).
  rewrite (bind_eq_ok (lift (Ok (VStr insights_path))) _ s s _ eq_refl).
  rewrite (bind_eq_ok _ _ _ _ _ (open_write_ok _ _ s (Hwrite _ (or_introl eq_refl)))).
  match goal with |- context [bind (lift (Ok ?v)) ?k ?st] =>
    rewrite (bind_eq_ok (lift (Ok v)) k st st v eq_refl) end.
  match goal with |- context [bind (open_write ?p ?d) ?k ?st] =>
    rewrite (bind_eq_ok _ k _ _ _
               (open_write_ok p d st (Hwrite _ (or_intror (or_introl eq_refl)))))
  end.
  match goal with |- context [bind (lift (Ok ?v)) ?k ?st] =>
    rewrite (bind_eq_ok (lift (Ok v)) k st st v eq_refl) end.
  unfold generate_markdown_report. rewrite Hmd.
  match goal with |- context [bind (lift (Ok tt)) ?k ?st] =>
    rewrite (bind_eq_ok (lift (Ok tt)) k st st tt eq_refl) end.
  match goal with |- open_write ?p ?d ?st = _ =>
    rewrite (open_write_ok p d st (Hwrite _ (or_intror (or_intror (or_introl eq_refl)))))
  end.
  cbn [written set_written]. now rewrite <- !app_assoc.
Qed.

Lemma dict_lookup_set_same (k : string) (v : value) (d : list (string * value)) :
  dict_lookup k (dict_set k v d) = Some v.
Proof.
  induction d as [|[k' v'] d IH]; cbn [dict_set dict_lookup].
  - now rewrite String.eqb_refl.
  - destruct (String.eqb k k') eqn:E; cbn [dict_lookup].
    + now rewrite String.eqb_refl.
    + now rewrite E.
Qed.

Lemma dict_lookup_set_other (k k' : string) (v : value) (d : list (string * value)) :
  String.eqb k k' = false ->
  dict_lookup k (dict_set k' v d) = dict_lookup k d.
Proof.
  intros Hk. induction d as [|[k0 v0] d IH]; cbn [dict_set dict_lookup].
  - now rewrite Hk.
  - destruct (String.eqb k' k0) eqn:E; cbn [dict_lookup].
    + apply String.eqb_eq in E as <-. now rewrite Hk.
    + now rewrite IH.
Qed.

(** Going on after both fallbacks: the Evaluator's template answer to the
    Insight stage's template hypotheses, and the rendered summary of a
    report that holds them. *)
Lemma fallback_evaluation_of_fallback (task : string) (context : list (string * value)) :
  exists evaluation,
    evaluator_create_fallback_evaluation
      (dict_get
         match insight_create_fallback_hypotheses task context with
         | VDict d => d
         | _ => []
         end "hypotheses" (VList [])) = Ok evaluation
    /\ forall execution_id timestamp query plan trace,
         markdown_text
           [("execution_id", execution_id);
            ("timestamp", timestamp);
            ("query", query);
            ("status", VStr "success");
            ("plan", plan);
            ("data_summary", VDict []);
            ("insights", insight_create_fallback_hypotheses task context);
            ("evaluation", evaluation);
            ("creative_recommendations", VList []);
            ("execution_trace", trace)] = Ok tt.
Proof.
  eexists. split; [vm_compute; reflexivity|].
  intros. vm_compute. reflexivity.
Qed.

Ltac flat :=
  cbn [set_llm_calls set_ticks set_written set_logged set_execution_history
       set_data_loader set_agent_df set_execution_trace set_results
       llm_script llm_calls clock ticks read_text path_exists read_csv write_error
       written logged execution_history data_loader agent_df execution_trace results].

Ltac step_lift :=
  match goal with
  | |- context [bind (lift ?o) ?k ?st] => rewrite (bind_eq_ok (lift o) k st st _ eq_refl)
  end.

(** C1 (as amended): when the dataset path does not resolve, the
    [FileNotFoundError] of the loader is caught inside the Load&Analyze
    stage, which returns [status = error] with the loader's message; the
    orchestrator records that result and goes on: with the templates
    readable, the generation service down and the outputs writable, it
    runs the three remaining stages, compiles the report, writes its three
    files and returns [status = success]. *)
Theorem missing_dataset_run (self : Orchestrator) (user_query : string) (s : State)
    (path : string) (outputs : list value) :
  dataset_missing self s path outputs ->
  (exists data_ctx s1,
     prepare_data_context self = Ok data_ctx
     /\ data_execute (data_agent self) user_query data_ctx s =
          (Ok (VDict [("status", VStr "error");
                      ("error", VStr ("Dataset not found: " ++ path))]), s1))
  /\ exists report s' new,
       orchestrator_execute self user_query s = (Ok (VDict report), s')
       /\ dict_get report "status" VNone = VStr "success"
       /\ execution_trace s' = execution_trace s ++ new
       /\ map (fun e => (py_get e "agent" VNone, status_of e)) new =
            [(Ok (VStr "planner"), Some "partial");
             (Ok (VStr "data_agent"), Some "error");
             (Ok (VStr "insight_agent"), Some "partial");
             (Ok (VStr "evaluator"), Some "partial");
             (Ok (VStr "creative_generator"), Some "info")]
       /\ dict_lookup "data_agent" (results s') =
            Some (VDict [("status", VStr "error");
                         ("error", VStr ("Dataset not found: " ++ path))])
       /\ map fst (written s') = map fst (written s) ++ outputs
       /\ dict_get report "execution_trace" VNone = VList (execution_trace s').
Proof.
  intros [(cfg & dcfg & Hcfg & Hdata & Hpath) Hmissing
          (cfg' & ocfg & logs_path & insights_path & Hcfg' & Hout & Hlogs & Hins & ->)
          Hwrite Hfail (Hplanner & Hinsight & Hevaluator & Hcreative)].
  rewrite Hcfg in Hcfg'. injection Hcfg' as <-.
  assert (Hdctx : prepare_data_context self =
    Ok [("dataset_path", VStr path);
        ("sample_mode", dict_get dcfg "sample_mode" (VBool true));
        ("sample_size", dict_get dcfg "sample_size" (VInt 100));
        ("analysis_requirements",
         strs ["campaign_performance"; "creative_performance";
               "roas_timeline"; "low_ctr_campaigns"])]).
  { unfold prepare_data_context, get_dict. rewrite Hcfg. cbn [py_get obind].
    rewrite Hdata. cbn [py_get obind]. now rewrite Hpath. }
  split.
  { eexists _, _. split; [exact Hdctx|].
    now apply data_execute_missing. }
  unfold orchestrator_execute.
  rewrite (bind_eq_ok _ _ _ _ _ (now_eq s)).
  unfold log_metrics at 1.
  rewrite (bind_eq_ok (bind now _) _ _ _ tt eq_refl). flat.
  unfold try_except.
  assert (Hpctx : exists plan_ctx, prepare_plan_context self = Ok plan_ctx).
  { unfold prepare_plan_context, get_dict. rewrite Hcfg. cbn [py_get obind].
    rewrite Hdata. cbn [py_get obind]. eauto. }
  destruct Hpctx as [plan_ctx Hpctx]. rewrite Hpctx. step_lift.
  match goal with |- context [bind (planner_execute ?a ?q ?c) _ ?st] =>
    destruct (planner_all_fail a q c st
                (template_readable_same _ s st eq_refl Hplanner)
                (all_fail_same s st eq_refl Hfail))
      as (msg1 & n1 & Hrun1 & _)
  end.
  rewrite (bind_eq_ok _ _ _ _ _ Hrun1). clear Hrun1. flat.
  rewrite (bind_eq_ok _ _ _ _ _ (record_execution_eq _ _ _)). flat.
  match goal with |- context [bind (lift (printed_len ?r ?a ?b)) ?k ?st] =>
    rewrite (bind_eq_ok (lift (printed_len r a b)) k st st 4 eq_refl) end.
  rewrite Hdctx. step_lift.
  match goal with |- context [bind (data_execute ?a ?q ?c) _ ?st] =>
    rewrite (bind_eq_ok _ _ _ _ _
               (data_execute_missing a q c st path eq_refl
                  (Hmissing : path_exists st path = false)))
  end.
  flat.
  rewrite (bind_eq_ok _ _ _ _ _ (record_execution_eq _ _ _)). flat.
  step_lift. step_lift.
  match goal with |- context [bind (insight_execute ?a ?q ?c) _ ?st] =>
    destruct (insight_all_fail a q c st
                (template_readable_same _ s st eq_refl Hinsight)
                (all_fail_same s st eq_refl Hfail))
      as (msg3 & n3 & Hrun3 & _);
    rewrite (bind_eq_ok _ _ _ _ _ Hrun3); clear Hrun3;
    set (ictx := c) in *
  end.
  flat.
  rewrite (bind_eq_ok _ _ _ _ _ (record_execution_eq _ _ _)). flat.
  match goal with |- context [bind (lift (printed_len ?r ?a ?b)) ?k ?st] =>
    rewrite (bind_eq_ok (lift (printed_len r a b)) k st st 4 eq_refl) end.
  step_lift.
  destruct (fallback_evaluation_of_fallback user_query ictx) as (evaluation & Hev & Hmd).
  match goal with |- context [bind (evaluator_execute ?a ?q ?c) _ ?st] =>
    destruct (evaluator_all_fail a q c st _ _
                (template_readable_same _ s st eq_refl Hevaluator)
                (all_fail_same s st eq_refl Hfail) eq_refl eq_refl eq_refl)
      as (msg4 & n4 & evaluation' & evals & Hrun4 & _ & Hev' & _);
    rewrite (bind_eq_ok _ _ _ _ _ Hrun4); clear Hrun4
  end.
  assert (evaluation' = evaluation) as ->
    by (assert (E : Ok evaluation = Ok evaluation') by exact (eq_trans (eq_sym Hev) Hev');
        now injection E).
  clear Hev Hev'. flat.
  rewrite (bind_eq_ok _ _ _ _ _ (record_execution_eq _ _ _)). flat.
  step_lift.
  match goal with |- context [bind (creative_execute ?a ?q ?c) ?k ?st] =>
    rewrite (bind_eq_ok (creative_execute a q c) k st st creative_info
               (creative_no_campaigns a q _ st
                  (template_readable_same _ s st eq_refl Hcreative)))
  end.
  unfold creative_info.
  rewrite (bind_eq_ok _ _ _ _ _ (record_execution_eq _ _ _)). flat.
  match goal with |- context [bind (lift ?o) ?k ?st] =>
    rewrite (bind_eq_ok (lift o) k st st (VInt 0) eq_refl) end.
  unfold compile_report.
  rewrite (bind_eq_ok _ _ _ _ _ (now_eq _)). flat.
  do 5 step_lift.
  match goal with |- context [bind get_state ?k ?st] =>
    rewrite (bind_eq_ok get_state k st st st eq_refl) end.
  flat.
  match goal with |- context [bind (save_outputs self ?r) ?k ?st] =>
    rewrite (bind_eq_ok _ k _ _ _
               (save_outputs_ok self r st cfg ocfg logs_path insights_path
                  Hcfg Hout Hlogs Hins Hwrite (Hmd _ _ _ _ _)))
  end.
  flat.
  eexists _, _, _. split; [reflexivity|]. split; [reflexivity|].
  split; [flat; rewrite <- !app_assoc; reflexivity|].
  split; [reflexivity|].
  split.
  { flat. rewrite !dict_lookup_set_other by reflexivity. apply dict_lookup_set_same. }
  split; [|reflexivity].
  flat. now rewrite map_app.
Qed.


(** ** The trace of a pipeline run *)

Lemma keeps_preserved {X A : Type} (f : State -> X) (I : State -> Prop) (m : M A) :
  (forall s s', f s' = f s -> I s -> I s') ->
  preserves f m -> keeps I m.
Proof. intros HI Hm s r s' Hs H. eapply HI; [eapply Hm, H|exact Hs]. Qed.

Lemma keeps_bind {A B : Type} (I : State -> Prop) (post : A -> Prop)
    (m : M A) (k : A -> M B) :
  keeps I m ->
  (forall s a s', m s = (Ok a, s') -> post a) ->
  (forall a, post a -> keeps I (k a)) ->
  keeps I (bind m k).
Proof.
  intros Hm Hpost Hk s r s'' Hs H.
  apply bind_inv in H as [(a & s' & H1 & H2)|(e & H1 & _)].
  - eapply (Hk a); [eapply Hpost, H1|eapply Hm; [exact Hs|exact H1]|exact H2].
  - eapply Hm; [exact Hs|exact H1].
Qed.

Lemma keeps_then {A B : Type} (I : State -> Prop) (m : M A) (k : A -> M B) :
  keeps I m -> (forall a, keeps I (k a)) -> keeps I (bind m k).
Proof.
  intros Hm Hk. apply (keeps_bind I (fun _ => True)); auto.
Qed.

Lemma keeps_try_except {A : Type} (I : State -> Prop) (m : M A) (h : exn -> M A) :
  keeps I m -> (forall e, keeps I (h e)) -> keeps I (try_except m h).
Proof.
  intros Hm Hh s r s'' Hs H.
  apply try_except_inv in H as [(a & H1 & _)|(e & s' & H1 & H2)].
  - eapply Hm; [exact Hs|exact H1].
  - eapply Hh; [eapply Hm; [exact Hs|exact H1]|exact H2].
Qed.

Lemma trace_extends_refl (s : State) : trace_extends s s.
Proof. exists []. now rewrite app_nil_r. Qed.

Lemma trace_extends_same (s0 s s' : State) :
  execution_trace s' = execution_trace s -> trace_extends s0 s -> trace_extends s0 s'.
Proof. intros E (new & H & Hall). exists new. now rewrite E. Qed.

Lemma keeps_trace {A : Type} (s0 : State) (m : M A) :
  preserves execution_trace m -> keeps (trace_extends s0) m.
Proof. apply keeps_preserved. intros s s'. apply trace_extends_same. Qed.

(** *** Stages leave the trace alone *)

Lemma trace_open_read (path : string) : preserves execution_trace (open_read path).
Proof. intros s r s' [= _ <-]. reflexivity. Qed.

Lemma trace_open_write (path : value) (doc : document) :
  preserves execution_trace (open_write path doc).
Proof.
  intros s r s'. unfold open_write. destruct (write_error s path); now intros [= _ <-].
Qed.

Lemma trace_generate (temperature max_tokens : value) :
  preserves execution_trace (generate temperature max_tokens).
Proof.
  intros s r s'. unfold generate. destruct (llm_script s (llm_calls s)); now intros [= _ <-].
Qed.

Lemma trace_now : preserves execution_trace now.
Proof. now apply preserves_now. Qed.

Lemma trace_log_execution (self : Agent) (task : string) (result : value) :
  preserves execution_trace (log_execution self task result).
Proof. now apply preserves_log_execution. Qed.

Lemma trace_think_json (self : Agent) (temperature : value) :
  preserves execution_trace (think_json self temperature).
Proof.
  unfold think_json, generate_json.
  apply preserves_bind; [apply preserves_if; frame|intros temp].
  apply preserves_bind; [frame|intros max_tokens].
  apply preserves_bind; [apply trace_generate|intros response]. frame.
Qed.

#[local] Hint Resolve trace_open_read trace_open_write trace_generate trace_now
  trace_log_execution trace_think_json : frame.

Lemma trace_planner (self : Agent) (task : string) (context : list (string * value)) :
  preserves execution_trace (planner_execute self task context).
Proof. unfold planner_execute. frame. Qed.

Lemma trace_insight (self : Agent) (task : string) (context : list (string * value)) :
  preserves execution_trace (insight_execute self task context).
Proof. unfold insight_execute. frame. Qed.

Lemma trace_evaluator (self : Agent) (task : string) (context : list (string * value)) :
  preserves execution_trace (evaluator_execute self task context).
Proof. unfold evaluator_execute. frame. Qed.

Lemma trace_creative (self : Agent) (task : string) (context : list (string * value)) :
  preserves execution_trace (creative_execute self task context).
Proof. unfold creative_execute, creative_step. frame. Qed.

Lemma preserves_loaded_df {X : Type} (f : State -> X) (attr : string) :
  (forall l s, f (set_data_loader l s) = f s) -> preserves f (loaded_df attr).
Proof.
  intros Hf. unfold loaded_df.
  apply preserves_bind; [apply preserves_the_loader|intros self].
  destruct (loader_df self); [apply preserves_ret|now apply preserves_load].
Qed.

Lemma trace_perform_analysis (requirements : value) :
  preserves execution_trace (data_perform_analysis requirements).
Proof.
  assert (Hl : forall attr, preserves execution_trace (loaded_df attr))
    by (intros attr; now apply preserves_loaded_df).
  unfold data_perform_analysis.
  apply preserves_bind; [apply preserves_get_state|intros s0].
  apply preserves_if; [apply preserves_ret|].
  unfold data_analyze_campaign_performance, DataLoader_get_creative_performance,
    DataLoader_get_roas_timeline, DataLoader_filter_low_ctr.
  repeat first
    [ apply preserves_ret | apply preserves_lift | apply preserves_get_state | apply Hl
    | apply preserves_bind; [|intros ?]
    | apply preserves_if
    | match goal with |- preserves _ (match ?x with _ => _ end) => destruct x end ].
Qed.

Lemma trace_data (self : Agent) (task : string) (context : list (string * value)) :
  preserves execution_trace (data_execute self task context).
Proof.
  unfold data_execute, data_structure_findings.
  apply preserves_try_except; [|intros e; apply preserves_ret].
  apply preserves_bind; [apply preserves_modify; reflexivity|intros _].
  apply preserves_bind; [now apply preserves_load|intros df].
  apply preserves_bind; [apply preserves_modify; reflexivity|intros _].
  apply preserves_bind; [now apply preserves_get_summary|intros summary].
  apply preserves_bind; [apply trace_perform_analysis|intros analysis].
  frame.
Qed.

Lemma trace_compile_report (self : Orchestrator) (query : string)
    (plan data insights evaluation creatives : value) (execution_id : string) :
  preserves execution_trace
    (compile_report self query plan data insights evaluation creatives execution_id).
Proof.
  unfold compile_report, save_outputs, generate_markdown_report, mkdir. frame.
Qed.

Lemma trace_log_metrics (metrics : value) : preserves execution_trace (log_metrics metrics).
Proof. unfold log_metrics. frame. Qed.

Lemma trace_log_error (agent_name trace_id error : string) :
  preserves execution_trace (log_error agent_name trace_id error).
Proof. unfold log_error. frame. Qed.

(** *** Recording a stage result *)

Lemma stage_result_status (payload : string) (r : value) :
  stage_result_ok payload r = true ->
  exists d st, r = VDict d
               /\ dict_lookup "status" d = Some (VStr st)
               /\ In st ["success"; "partial"; "error"; "info"].
Proof.
  unfold stage_result_ok, status_of. destruct r as [| | | | | |d|]; try discriminate.
  destruct (dict_lookup "status" d) as [[| | | |st| | |]|] eqn:E; try discriminate.
  intros H. exists d, st. split; [reflexivity|]. split; [exact E|].
  destruct (String.eqb_spec st "success"); [subst; cbn; auto|].
  destruct (String.eqb_spec st "partial"); [subst; cbn; auto|].
  destruct (String.eqb_spec st "error"); [subst; cbn; auto|].
  destruct (String.eqb_spec st "info"); [subst; cbn; auto 6|discriminate].
Qed.

Lemma keeps_record_execution (s0 : State) (agent_name payload : string) (r : value) :
  stage_result_ok payload r = true ->
  keeps (trace_extends s0) (record_execution agent_name r).
Proof.
  intros Hok s o s' (new & Htrace & Hall) H.
  destruct (stage_result_status _ _ Hok) as (d & st & -> & Hst & Hin).
  rewrite record_execution_eq in H. injection H as _ <-.
  unfold dict_get. rewrite Hst. cbn [execution_trace set_results set_execution_trace].
  eexists (new ++ [_]). rewrite Htrace, <- app_assoc. split; [reflexivity|].
  apply Forall_app. split; [exact Hall|]. constructor; [|constructor].
  exists st. split; [reflexivity|exact Hin].
Qed.

(** Whatever the generation service answers and however the run ends, the
    entries that a run adds to the trace carry one of the four statuses. *)
Lemma orchestrator_trace (self : Orchestrator) (user_query : string) (s s' : State)
    (r : outcome value) :
  orchestrator_execute self user_query s = (r, s') -> trace_extends s s'.
Proof.
  intros H.
  assert (K : keeps (trace_extends s) (orchestrator_execute self user_query));
    [|exact (K s r s' (trace_extends_refl s) H)].
  clear H. unfold orchestrator_execute.
  apply keeps_then; [apply keeps_trace, trace_now|intros execution_id].
  apply keeps_then; [apply keeps_trace, trace_log_metrics|intros _].
  apply keeps_try_except.
  2:{ intros e. apply keeps_trace. apply preserves_bind;
        [apply trace_log_error|intros _; apply preserves_ret]. }
  apply keeps_then; [apply keeps_trace, preserves_lift|intros plan_context].
  apply (keeps_bind _ (fun r => stage_result_ok "plan" r = true));
    [apply keeps_trace, trace_planner|intros ? ? ?; apply planner_result_ok|].
  intros plan_result Hplan.
  apply keeps_then; [now apply (keeps_record_execution s _ "plan")|intros _].
  apply keeps_then; [apply keeps_trace, preserves_lift|intros _].
  apply keeps_then; [apply keeps_trace, preserves_lift|intros data_context].
  apply (keeps_bind _ (fun r => stage_result_ok "analysis" r = true));
    [apply keeps_trace, trace_data| |].
  { intros s1 a s2 Hd. destruct (data_result_ok _ _ _ _ _ _ Hd) as (v & [= <-] & Hv).
    exact Hv. }
  intros data_result Hdata.
  apply keeps_then; [now apply (keeps_record_execution s _ "analysis")|intros _].
  apply keeps_then; [apply keeps_trace, preserves_lift|intros _].
  apply keeps_then; [apply keeps_trace, preserves_lift|intros insight_context].
  apply (keeps_bind _ (fun r => stage_result_ok "hypotheses" r = true));
    [apply keeps_trace, trace_insight|intros ? ? ?; apply insight_result_ok|].
  intros insight_result Hinsight.
  apply keeps_then; [now apply (keeps_record_execution s _ "hypotheses")|intros _].
  apply keeps_then; [apply keeps_trace, preserves_lift|intros _].
  apply keeps_then; [apply keeps_trace, preserves_lift|intros eval_context].
  apply (keeps_bind _ (fun r => stage_result_ok "evaluation" r = true));
    [apply keeps_trace, trace_evaluator|intros ? ? ?; apply evaluator_result_ok|].
  intros eval_result Heval.
  apply keeps_then; [now apply (keeps_record_execution s _ "evaluation")|intros _].
  apply keeps_then; [apply keeps_trace, preserves_lift|intros creative_context'].
  apply (keeps_bind _ (fun r => stage_result_ok "recommendations" r = true));
    [apply keeps_trace, trace_creative|intros ? ? ?; apply creative_result_ok|].
  intros creative_result Hcreative.
  apply keeps_then; [now apply (keeps_record_execution s _ "recommendations")|intros _].
  apply keeps_then; [apply keeps_trace, preserves_lift|intros _].
  apply keeps_trace, trace_compile_report.
Qed.

(** C3 (as amended): whatever the generation service answers, a stage that
    returns gives a record whose status is one of [success], [partial],
    [error] and [info]; a [partial] record holds a non-empty fallback
    payload and the text of the error, an [error] record the text of the
    error, an [info] record a message and no recommendation.  The
    Load&Analyze stage always returns.  In a pipeline run, however it
    ends, every entry added to the trace has one of these four statuses. *)
Theorem stage_results_well_formed (self : Agent) (task : string)
    (context : list (string * value)) (s : State) :
  (forall r s', planner_execute self task context s = (Ok r, s') ->
                stage_result_ok "plan" r = true)
  /\ (forall r s', insight_execute self task context s = (Ok r, s') ->
                   stage_result_ok "hypotheses" r = true)
  /\ (forall r s', evaluator_execute self task context s = (Ok r, s') ->
                   stage_result_ok "evaluation" r = true)
  /\ (forall r s', creative_execute self task context s = (Ok r, s') ->
                   stage_result_ok "recommendations" r = true)
  /\ (exists v, fst (data_execute self task context s) = Ok v
                /\ stage_result_ok "analysis" v = true)
  /\ (forall payload r, stage_result_ok payload r = true ->
        exists st, status_of r = Some st
                   /\ In st ["success"; "partial"; "error"; "info"])
  /\ (forall orchestrator user_query s0 r s',
        orchestrator_execute orchestrator user_query s0 = (r, s') ->
        trace_extends s0 s').
Proof.
  split; [intros r s'; apply planner_result_ok|].
  split; [intros r s'; apply insight_result_ok|].
  split; [intros r s'; apply evaluator_result_ok|].
  split; [intros r s'; apply creative_result_ok|].
  split.
  - destruct (data_execute self task context s) as [r s'] eqn:E.
    destruct (data_result_ok _ _ _ _ _ _ E) as (v & -> & Hv). exists v. now split.
  - split; [|intros orchestrator user_query s0 r s'; apply orchestrator_trace].
    intros payload r H.
    destruct (stage_result_status payload r H) as (d & st & -> & Hst & Hin).
    exists st. split; [|exact Hin]. unfold status_of. now rewrite Hst.
Qed.


(** * Further properties *)

(** ** Dotted keys of the configuration *)

#[local] Open Scope string_scope.

Lemma partition_length (sep s a b : string) :
  str_partition sep s = Some (a, b) ->
  String.length s = String.length a + String.length sep + String.length b.
Proof.
  revert a b; induction s as [|c s IH]; intros a b.
  - cbn [str_partition]. destruct (starts_with sep EmptyString) eqn:E; [|discriminate].
    intros [= <- <-]. destruct sep; [reflexivity|discriminate].
  - rewrite partition_cons. destruct (starts_with sep (String c s)) eqn:E.
    + intros [= <- <-]. clear IH. revert E. generalize (String c s). clear.
      induction sep as [|x sep IH]; intros t E; [reflexivity|].
      destruct t as [|y t]; [discriminate|]. cbn [starts_with] in E.
      apply andb_true_iff in E as [_ E]. cbn [String.length str_drop]. rewrite (IH t E).
      reflexivity.
    + destruct (str_partition sep s) as [[a' b']|]; [|discriminate].
      intros [= <- <-]. cbn [String.length]. rewrite (IH a' b' eq_refl). reflexivity.
Qed.

(** The rounds [split] allows itself are enough: more change nothing. *)
Lemma split_fuel_same (c : ascii) (sep : string) (n m : nat) (s : string) :
  String.length s <= n -> String.length s <= m ->
  split_fuel n (String c sep) s = split_fuel m (String c sep) s.
Proof.
  revert m s. induction n as [|n IH]; intros m s Hn Hm.
  - destruct s; [|cbn [String.length] in Hn; lia]. now destruct m.
  - cbn [split_fuel]. destruct (str_partition (String c sep) s) as [[a b]|] eqn:E.
    + pose proof (partition_length _ _ _ _ E) as Hlen. cbn [String.length] in Hlen.
      destruct m as [|m]; [lia|]. cbn [split_fuel]. rewrite E. f_equal.
      apply IH; lia.
    + symmetry. apply split_fuel_none, E.
Qed.

Lemma split_fuel_enough (c : ascii) (sep : string) (n : nat) (s : string) :
  String.length s <= n -> split_fuel n (String c sep) s = split (String c sep) s.
Proof. intros H. unfold split. apply split_fuel_same; [exact H|lia]. Qed.

(** A separator of one character splits a text at the first place it
    stands. *)
Lemma partition_char (q : ascii) (a rest : string) :
  str_in (String q "") a = false ->
  str_partition (String q "") (a ++ String q rest) = Some (a, rest).
Proof.
  rewrite str_in_false. induction a as [|c a IH]; intros H.
  - cbn [append str_partition starts_with]. now rewrite Ascii.eqb_refl.
  - apply partition_none_cons in H as [Hp Hs].
    change (String c a ++ String q rest) with (String c (a ++ String q rest)).
    rewrite partition_cons. cbn [starts_with] in *.
    destruct (Ascii.eqb q c); [discriminate|]. cbn [andb]. now rewrite (IH Hs).
Qed.

Lemma split_char (q : ascii) (a rest : string) :
  str_in (String q "") a = false ->
  split (String q "") (a ++ String q rest) = a :: split (String q "") rest.
Proof.
  intros H. unfold split at 1.
  destruct (String.length (a ++ String q rest)) as [|n] eqn:E.
  - rewrite str_length_app in E. cbn [String.length] in E. lia.
  - cbn [split_fuel]. rewrite (partition_char q a rest H). f_equal.
    apply split_fuel_enough. rewrite str_length_app in E. cbn [String.length] in E. lia.
Qed.

#[local] Open Scope list_scope.

Lemma split_whole (sep s : string) : str_in sep s = false -> split sep s = [s].
Proof. intros H. apply split_fuel_none, str_in_false, H. Qed.

(** X1: [Config.get] follows a dotted key one section at a time: at a key
    without a dot it is the entry of the mapping, or [default] when the
    entry is missing or the configuration is no mapping; at [section.rest] it
    is [get rest] of the section's value, or [default] when there is no such
    section.  An entry bound to [None] is answered as [None], not as
    [default]. *)
Theorem Config_get_descends (config : value) (section rest : string) (default : value) :
  str_in "." section = false ->
  Config_get config section default =
    match py_getitem config section with
    | Item v => v
    | _ => default
    end
  /\ Config_get config (section ++ "." ++ rest)%string default =
       match py_getitem config section with
       | Item v => Config_get v rest default
       | _ => default
       end
  /\ (forall d, config = VDict d -> dict_lookup section d = Some VNone ->
        Config_get config section default = VNone).
Proof.
  intros H. unfold Config_get.
  split; [|split].
  - rewrite (split_whole _ _ H). cbn [Config_walk].
    now destruct (py_getitem config section).
  - change (section ++ "." ++ rest)%string with (section ++ String "." rest)%string.
    rewrite (split_char "." section rest H). cbn [Config_walk].
    now destruct (py_getitem config section).
  - intros d -> Hd. rewrite (split_whole _ _ H). cbn [Config_walk py_getitem].
    now rewrite Hd.
Qed.

Lemma split_first_of_dotted (key : string) :
  str_in "." key = true ->
  exists a b rest, split "." key = a :: b :: rest.
Proof. apply split_two. Qed.

(** X2: in a configuration whose entries are all scalars or lists, no key
    that holds a dot is ever found by [Config.get], not even when the
    mapping has an entry under that very key, which [Config.__getitem__]
    finds. *)
Theorem Config_get_dotted_key_unreachable (d : list (string * value)) (key : string)
    (default : value) :
  Forall (fun kv => is_dict (snd kv) = false) d ->
  str_in "." key = true ->
  Config_get (VDict d) key default = default
  /\ (forall v, dict_lookup key d = Some v -> Config_getitem (VDict d) key = Item v).
Proof.
  intros Hflat Hdot. split.
  - unfold Config_get. destruct (split_first_of_dotted key Hdot) as (a & b & rest & ->).
    cbn [Config_walk py_getitem].
    destruct (dict_lookup a d) as [v|] eqn:E; [|reflexivity].
    assert (Hv : is_dict v = false).
    { clear -Hflat E. induction d as [|[k x] d IH]; [discriminate|].
      inversion Hflat as [|? ? Hx Hrest]; subst. cbn [dict_lookup] in E.
      destruct (String.eqb a k); [now injection E as <-|auto]. }
    destruct v; try discriminate; reflexivity.
  - intros v Hv. unfold Config_getitem, py_getitem. now rewrite Hv.
Qed.

(** X3: a configuration document that is no mapping (an empty file loads
    as [None]): [Config.get] answers the default at every key, while
    [Config.get_dict] raises an [AttributeError], and with it
    [_init_agents]. *)
Theorem config_not_a_mapping (config : value) :
  is_dict config = false ->
  (forall key default, Config_get config key default = default)
  /\ (forall section, get_dict config section = Raise (no_attribute config "get"))
  /\ init_agents config = Raise (no_attribute config "get").
Proof.
  intros H. split; [|split].
  - intros key default. unfold Config_get.
    destruct (split_nonempty "." key) as (a & rest & ->). cbn [Config_walk].
    destruct config; try discriminate; reflexivity.
  - intros section. destruct config; try discriminate; reflexivity.
  - destruct config; try discriminate; reflexivity.
Qed.

(** ** The key of the generation service *)

(** X4: the client of a run takes the content of the environment variable
    [GOOGLE_API_KEY] when it is set and not empty, whatever the
    configuration says.  Otherwise it takes the configuration's entry
    [model.api_key_env] itself as the key (the entry, not the variable it
    names) when that entry is truthy, and raises the [ValueError] of a
    missing key when it is not.  With a key, the library is configured with
    it and the model [model.name] (default [gemini-2.0-flash]) is built:
    what either call raises leaves the constructor, and a client that is
    returned holds a truthy key and a model name that the library has
    accepted. *)
Theorem api_key_of_run (genai_configure GenerativeModel : value -> outcome unit)
    (environ : string -> option string) (config : value) :
  let client_of := orchestrator_llm_client genai_configure GenerativeModel environ config in
  let name := Config_get config "model.name" (VStr "gemini-2.0-flash") in
  let connect key :=
    (_ <~ genai_configure key ;;
     _ <~ GenerativeModel name ;;
     Ok {| api_key := key; model_name := name |})%outcome in
  (forall key, environ "GOOGLE_API_KEY" = Some key -> key <> "" ->
     client_of = connect (VStr key))
  /\ (environ "GOOGLE_API_KEY" = None \/ environ "GOOGLE_API_KEY" = Some "" ->
      client_of =
        if truthy (Config_get config "model.api_key_env" VNone)
        then connect (Config_get config "model.api_key_env" VNone)
        else Raise (Exn ValueError "GOOGLE_API_KEY environment variable not set"))
  /\ (forall client, client_of = Ok client ->
        truthy (api_key client) = true
        /\ model_name client = name
        /\ genai_configure (api_key client) = Ok tt
        /\ GenerativeModel name = Ok tt
        /\ (forall key, environ "GOOGLE_API_KEY" = Some key -> key <> "" ->
              api_key client = VStr key))
  /\ (forall key e, environ "GOOGLE_API_KEY" = Some key -> key <> "" ->
        genai_configure (VStr key) = Ok tt -> GenerativeModel name = Raise e ->
        client_of = Raise e).
Proof.
  assert (Ht : forall x, x <> "" -> truthy (VStr x) = true).
  { intros x Hx. unfold truthy. now destruct (String.eqb_spec x ""). }
  cbv zeta.
  assert (Henv : forall key, environ "GOOGLE_API_KEY" = Some key -> key <> "" ->
            orchestrator_llm_client genai_configure GenerativeModel environ config =
              (_ <~ genai_configure (VStr key) ;;
               _ <~ GenerativeModel (Config_get config "model.name" (VStr "gemini-2.0-flash")) ;;
               Ok {| api_key := VStr key;
                     model_name := Config_get config "model.name"
                                     (VStr "gemini-2.0-flash") |})%outcome).
  { intros key Hk Hkey. unfold orchestrator_llm_client, new_LLMClient, getenv.
    rewrite Hk. now rewrite !(Ht key Hkey). }
  assert (Hnone : environ "GOOGLE_API_KEY" = None \/ environ "GOOGLE_API_KEY" = Some "" ->
            orchestrator_llm_client genai_configure GenerativeModel environ config =
              if truthy (Config_get config "model.api_key_env" VNone)
              then (_ <~ genai_configure (Config_get config "model.api_key_env" VNone) ;;
                    _ <~ GenerativeModel
                           (Config_get config "model.name" (VStr "gemini-2.0-flash")) ;;
                    Ok {| api_key := Config_get config "model.api_key_env" VNone;
                          model_name := Config_get config "model.name"
                                          (VStr "gemini-2.0-flash") |})%outcome
              else Raise (Exn ValueError "GOOGLE_API_KEY environment variable not set")).
  { unfold orchestrator_llm_client, new_LLMClient, getenv.
    intros [-> | ->]; change (truthy VNone) with false; change (truthy (VStr "")) with false;
      cbv iota; destruct (truthy (Config_get config "model.api_key_env" VNone)) eqn:E;
      cbv iota; rewrite ?E; reflexivity. }
  split; [exact Henv|]. split; [exact Hnone|]. split.
  - intros client Hc.
    destruct (environ "GOOGLE_API_KEY") as [key|] eqn:Ek;
      [destruct (String.eqb_spec key "") as [->|Hkey]|].
    + rewrite (Hnone (or_intror eq_refl)) in Hc.
      destruct (truthy (Config_get config "model.api_key_env" VNone)) eqn:E; [|discriminate].
      destruct (genai_configure (Config_get config "model.api_key_env" VNone))
        as [[]|] eqn:E1; [|discriminate]. cbn [obind] in Hc.
      destruct (GenerativeModel (Config_get config "model.name" (VStr "gemini-2.0-flash")))
        as [[]|] eqn:E2; [|discriminate]. cbn [obind] in Hc.
      injection Hc as <-. cbn [api_key model_name].
      repeat split; try assumption. intros key [= <-] Hne. now contradiction Hne.
    + rewrite (Henv key eq_refl Hkey) in Hc.
      destruct (genai_configure (VStr key)) as [[]|] eqn:E1; [|discriminate]. cbn [obind] in Hc.
      destruct (GenerativeModel (Config_get config "model.name" (VStr "gemini-2.0-flash")))
        as [[]|] eqn:E2; [|discriminate]. cbn [obind] in Hc.
      injection Hc as <-. cbn [api_key model_name].
      repeat split; try assumption; [now apply Ht|]. now intros key' [= <-] _.
    + rewrite (Hnone (or_introl eq_refl)) in Hc.
      destruct (truthy (Config_get config "model.api_key_env" VNone)) eqn:E; [|discriminate].
      destruct (genai_configure (Config_get config "model.api_key_env" VNone))
        as [[]|] eqn:E1; [|discriminate]. cbn [obind] in Hc.
      destruct (GenerativeModel (Config_get config "model.name" (VStr "gemini-2.0-flash")))
        as [[]|] eqn:E2; [|discriminate]. cbn [obind] in Hc.
      injection Hc as <-. cbn [api_key model_name].
      repeat split; try assumption. intros key [=].
  - intros key e Hk Hkey Hconf Hmodel. rewrite (Henv key Hk Hkey), Hconf. cbn [obind].
    now rewrite Hmodel.
Qed.



(** ** Loading the dataset *)

Lemma date_leb_trans (a b c : option Z) :
  date_leb a b = true -> date_leb b c = true -> date_leb a c = true.
Proof.
  destruct a, b, c; cbn [date_leb]; try discriminate; try reflexivity.
  rewrite !Z.leb_le. lia.
Qed.

Lemma date_leb_total (a b : option Z) : date_leb a b = false -> date_leb b a = true.
Proof.
  destruct a, b; cbn [date_leb]; try discriminate; try reflexivity.
  rewrite Z.leb_gt, Z.leb_le. lia.
Qed.

Lemma insert_by_date_perm (r : DatasetRecord) (l : frame) :
  Permutation (r :: l) (insert_by_date r l).
Proof.
  induction l as [|h t IH]; cbn [insert_by_date]; [reflexivity|].
  destruct (date_leb (date r) (date h)); [reflexivity|].
  rewrite perm_swap. now constructor.
Qed.

Lemma insert_by_date_sorted (r : DatasetRecord) (l : frame) :
  StronglySorted by_date l -> StronglySorted by_date (insert_by_date r l).
Proof.
  induction 1 as [|h t Hs IH Hh]; cbn [insert_by_date].
  - repeat constructor.
  - destruct (date_leb (date r) (date h)) eqn:E.
    + constructor; [now constructor|]. constructor; [assumption|].
      eapply Forall_impl; [|exact Hh]. unfold by_date. intros x Hx.
      exact (date_leb_trans _ _ _ E Hx).
    + constructor; [assumption|].
      apply Forall_forall. intros x Hx.
      apply (Permutation_in _ (Permutation_sym (insert_by_date_perm r t))) in Hx.
      destruct Hx as [<-|Hx]; [exact (date_leb_total _ _ E)|].
      rewrite Forall_forall in Hh. auto.
Qed.

Lemma sort_values_date_perm (df : frame) : Permutation df (sort_values_date df).
Proof.
  unfold sort_values_date. induction df as [|r df IH]; cbn [fold_right]; [constructor|].
  rewrite <- insert_by_date_perm. now constructor.
Qed.

Lemma sort_values_date_sorted (df : frame) : StronglySorted by_date (sort_values_date df).
Proof.
  unfold sort_values_date. induction df as [|r df IH]; cbn [fold_right]; [constructor|].
  now apply insert_by_date_sorted.
Qed.

(** What [DataLoader.load] does once the file is there and parses. *)
Lemma load_eq (s : State) (l : DataLoader) (path : string) (raw : frame) :
  data_loader s = Some l -> dataset_path l = VStr path ->
  path_exists s path = true -> read_csv s path = Ok raw ->
  DataLoader_load s =
    if truthy (sample_mode l) then
      match head (sample_size l) (sort_values_date raw) with
      | Ok sampled =>
          (Ok sampled, set_data_loader (Some (with_loader_df l (Some sampled))) s)
      | Raise e =>
          (Raise e, set_data_loader (Some (with_loader_df l (Some (sort_values_date raw)))) s)
      end
    else (Ok (sort_values_date raw),
          set_data_loader (Some (with_loader_df l (Some (sort_values_date raw)))) s).
Proof.
  intros Hl Hp He Hr.
  unfold DataLoader_load, bind, the_loader, lift, get_state, set_loader_df, modify, ret, raise.
  rewrite Hl, Hp. cbn [as_path]. rewrite He, Hr. cbn [negb]. rewrite Hl. flat.
  destruct (truthy (sample_mode l)); [|reflexivity].
  destruct (head (sample_size l) (sort_values_date raw)); reflexivity.
Qed.

(** X5: when the file is there and parses and no sample is asked for,
    [DataLoader.load] returns the rows of the file in ascending order of
    date, none lost and none added, and keeps that frame in the loader;
    nothing else changes. *)
Theorem load_sorts_by_date (s : State) (l : DataLoader) (path : string) (raw : frame) :
  data_loader s = Some l -> dataset_path l = VStr path ->
  path_exists s path = true -> read_csv s path = Ok raw ->
  truthy (sample_mode l) = false ->
  exists df,
    DataLoader_load s = (Ok df, set_data_loader (Some (with_loader_df l (Some df))) s)
    /\ Permutation raw df
    /\ StronglySorted by_date df.
Proof.
  intros Hl Hp He Hr Hm. exists (sort_values_date raw).
  rewrite (load_eq s l path raw Hl Hp He Hr), Hm.
  split; [reflexivity|]. split; [apply sort_values_date_perm|apply sort_values_date_sorted].
Qed.

Lemma sorted_app_le {A : Type} (R : A -> A -> Prop) (l1 l2 : list A) :
  StronglySorted R (l1 ++ l2) ->
  StronglySorted R l1 /\ forall a b, In a l1 -> In b l2 -> R a b.
Proof.
  induction l1 as [|x l1 IH]; cbn [app]; intros H.
  - split; [constructor|intros a b []].
  - inversion H as [|? ? Hs Hx]; subst. destruct (IH Hs) as [Hs1 Hle].
    apply Forall_app in Hx as [Hx1 Hx2]. split; [now constructor|].
    intros a b [<-|Ha] Hb; [|auto]. rewrite Forall_forall in Hx2. auto.
Qed.

(** X6: with [sample_mode] on and a sample size [n >= 0], [DataLoader.load]
    keeps the [n] rows of earliest date (all rows when there are fewer): the
    sample is in ascending order of date, together with the rows left out
    it makes up the file, and no row left out is dated before a row of the
    sample.  The sample, not the file, is the frame the loader keeps. *)
Theorem load_sample_is_earliest (s : State) (l : DataLoader) (path : string) (raw : frame)
    (n : Z) :
  data_loader s = Some l -> dataset_path l = VStr path ->
  path_exists s path = true -> read_csv s path = Ok raw ->
  truthy (sample_mode l) = true -> sample_size l = VInt n -> (0 <= n)%Z ->
  exists df rest,
    DataLoader_load s = (Ok df, set_data_loader (Some (with_loader_df l (Some df))) s)
    /\ Permutation raw (df ++ rest)
    /\ List.length df = Nat.min (Z.to_nat n) (List.length raw)
    /\ StronglySorted by_date df
    /\ (forall a b, In a df -> In b rest -> by_date a b).
Proof.
  intros Hl Hp He Hr Hm Hn Hpos.
  exists (firstn (Z.to_nat n) (sort_values_date raw)),
         (skipn (Z.to_nat n) (sort_values_date raw)).
  rewrite (load_eq s l path raw Hl Hp He Hr), Hm, Hn. cbn [head].
  destruct (Z.leb_spec 0 n); [|lia].
  split; [reflexivity|].
  rewrite firstn_skipn.
  split; [apply sort_values_date_perm|].
  split; [rewrite length_firstn;
          now rewrite (Permutation_length (sort_values_date_perm raw))|].
  apply sorted_app_le. rewrite firstn_skipn. apply sort_values_date_sorted.
Qed.

(** ** Loading on demand *)

Lemma load_caches (s s' : State) (df : frame) :
  DataLoader_load s = (Ok df, s') ->
  exists l, data_loader s' = Some l /\ loader_df l = Some df.
Proof.
  unfold DataLoader_load, bind, the_loader, lift, get_state, set_loader_df, modify, ret, raise.
  destruct (data_loader s) as [l|] eqn:El; [|discriminate].
  destruct (as_path (dataset_path l)) as [path|]; [|discriminate].
  destruct (negb (path_exists s path)); [discriminate|].
  destruct (read_csv s path) as [raw|]; [|discriminate].
  rewrite El. flat.
  destruct (truthy (sample_mode l)).
  - destruct (head (sample_size l) (sort_values_date raw)); [|discriminate].
    intros [= <- <-]. flat. eauto.
  - intros [= <- <-]. flat. eauto.
Qed.

Lemma loaded_df_caches (attr : string) (s s' : State) (df : frame) :
  loaded_df attr s = (Ok df, s') ->
  exists l, data_loader s' = Some l /\ loader_df l = Some df.
Proof.
  unfold loaded_df, bind, the_loader.
  destruct (data_loader s) as [l|] eqn:El; [|discriminate].
  destruct (loader_df l) as [df0|] eqn:Edf.
  - intros [= <- <-]. eauto.
  - apply load_caches.
Qed.

Lemma answers_from_held (s : State) (l : DataLoader) (df : frame) :
  data_loader s = Some l -> loader_df l = Some df -> answers_from df s.
Proof.
  intros Hl Hdf. unfold answers_from, DataLoader_get_summary, DataLoader_filter_low_ctr,
    DataLoader_get_campaign_performance, DataLoader_get_roas_timeline,
    DataLoader_get_creative_performance, bind.
  repeat split; intros; now rewrite (loaded_df_held _ s l df Hl Hdf).
Qed.

Lemma query_caches {A : Type} (attr : string) (f : frame -> A) (s s' : State) (r : A) :
  (df <- loaded_df attr ;; ret (f df)) s = (Ok r, s') ->
  exists df, r = f df
             /\ forall s2, data_loader s2 = data_loader s' -> answers_from df s2.
Proof.
  intros H. apply bind_ok in H as (df & s1 & Hload & [= <- <-]).
  destruct (loaded_df_caches _ _ _ _ Hload) as (l & Hl & Hdf).
  exists df. split; [reflexivity|]. intros s2 E. apply (answers_from_held s2 l df); [|exact Hdf].
  now rewrite E.
Qed.

(** X7: the loader reads the file at most once.  Whichever query comes
    first, when it returns it has answered from a frame that the loader
    keeps; from then on every query (the summary, the low-CTR filter, the
    rows of a campaign, the timeline, the creative performance) answers
    from that frame and changes nothing, whatever has become of the file. *)
Theorem loader_reads_once (s s' : State) :
  (forall r, DataLoader_get_summary s = (Ok r, s') ->
     exists df, r = DataSummary_to_dict df
                /\ forall s2, data_loader s2 = data_loader s' -> answers_from df s2)
  /\ (forall threshold r, DataLoader_filter_low_ctr threshold s = (Ok r, s') ->
        exists df, r = low_ctr_rows threshold df
                   /\ forall s2, data_loader s2 = data_loader s' -> answers_from df s2)
  /\ (forall campaign r, DataLoader_get_campaign_performance campaign s = (Ok r, s') ->
        exists df, r = campaign_rows campaign df
                   /\ forall s2, data_loader s2 = data_loader s' -> answers_from df s2)
  /\ (forall r, DataLoader_get_roas_timeline s = (Ok r, s') ->
        exists df, r = map daily_row_to_dict (daily_roas df)
                   /\ forall s2, data_loader s2 = data_loader s' -> answers_from df s2)
  /\ (forall r, DataLoader_get_creative_performance s = (Ok r, s') ->
        exists df, r = VDict (creative_performance_of df)
                   /\ forall s2, data_loader s2 = data_loader s' -> answers_from df s2).
Proof.
  repeat split; intros; eapply query_caches; eassumption.
Qed.

(** ** The summary of a frame *)

Lemma unique_In (x : string) (l : list string) : In x (unique l) <-> In x l.
Proof.
  induction l as [|y l IH]; cbn [unique In]; [reflexivity|].
  rewrite filter_In, IH. destruct (String.eqb_spec x y) as [->|Hne]; cbn [negb].
  - split; intros _; now left.
  - split.
    + intros [E|[H _]]; [now left|now right].
    + intros [E|H]; [now left|right; now split].
Qed.

Lemma unique_NoDup (l : list string) : NoDup (unique l).
Proof.
  induction l as [|y l IH]; cbn [unique]; constructor.
  - rewrite filter_In, String.eqb_refl. cbn [negb]. intros [_ H]. discriminate.
  - now apply NoDup_filter.
Qed.

Lemma fold_min_spec (l : list Z) (d : Z) :
  In (fold_left Z.min l d) (d :: l)
  /\ forall x, In x (d :: l) -> (fold_left Z.min l d <= x)%Z.
Proof.
  revert d. induction l as [|y l IH]; intros d; cbn [fold_left].
  - split; [now left|]. intros x [<-|[]]. lia.
  - destruct (IH (Z.min d y)) as [Hin Hle]. split.
    + destruct Hin as [E|Hin]; [|right; right; exact Hin].
      rewrite <- E. destruct (Z.min_spec d y) as [[_ ->]|[_ ->]]; cbn [In]; auto.
    + intros x [<-|[<-|Hx]].
      * specialize (Hle (Z.min d y) (or_introl eq_refl)). lia.
      * specialize (Hle (Z.min d y) (or_introl eq_refl)). lia.
      * apply Hle. now right.
Qed.

Lemma fold_max_spec (l : list Z) (d : Z) :
  In (fold_left Z.max l d) (d :: l)
  /\ forall x, In x (d :: l) -> (x <= fold_left Z.max l d)%Z.
Proof.
  revert d. induction l as [|y l IH]; intros d; cbn [fold_left].
  - split; [now left|]. intros x [<-|[]]. lia.
  - destruct (IH (Z.max d y)) as [Hin Hle]. split.
    + destruct Hin as [E|Hin]; [|right; right; exact Hin].
      rewrite <- E. destruct (Z.max_spec d y) as [[_ ->]|[_ ->]]; cbn [In]; auto.
    + intros x [<-|[<-|Hx]].
      * specialize (Hle (Z.max d y) (or_introl eq_refl)). lia.
      * specialize (Hle (Z.max d y) (or_introl eq_refl)). lia.
      * apply Hle. now right.
Qed.

(** X8: the summary of a frame counts its rows; its date range is [NaT] to
    [NaT] for a frame without a dated row and otherwise runs from the
    earliest to the latest date that occurs, both dates of rows of the
    frame; and each of its five lists of names (campaigns, adsets, creative
    types, audience types, countries) holds every name of its column
    exactly once. *)
Theorem summary_describes_frame (df : frame) :
  let summary := DataSummary_to_dict df in
  py_get summary "row_count" VNone = Ok (VInt (Z.of_nat (List.length df)))
  /\ py_get summary "date_range" VNone =
       Ok (VDict [("start", VTimestamp (date_min df)); ("end", VTimestamp (date_max df))])
  /\ (df = [] -> date_min df = None /\ date_max df = None)
  /\ ((forall r, In r df -> date r = None) -> date_min df = None /\ date_max df = None)
  /\ (forall r0 d0, In r0 df -> date r0 = Some d0 ->
      exists first last dmin dmax,
        date_min df = Some dmin /\ date first = Some dmin /\ In first df
        /\ date_max df = Some dmax /\ date last = Some dmax /\ In last df
        /\ forall r d, In r df -> date r = Some d -> (dmin <= d <= dmax)%Z)
  /\ Forall (fun column =>
       let names := unique (map (snd column) df) in
       py_get summary (fst column) VNone = Ok (strs names)
       /\ NoDup names
       /\ forall x, In x names <-> exists r, In r df /\ snd column r = x)
       [("campaigns", campaign_name); ("adsets", adset_name);
        ("creative_types", creative_type); ("audience_types", audience_type);
        ("countries", country)].
Proof.
  cbv zeta. split; [reflexivity|]. split; [reflexivity|].
  split; [now intros ->|]. split; [|split].
  - intros Hnone. assert (E : dates df = []).
    { destruct (dates df) as [|d l] eqn:E; [reflexivity|].
      assert (Hin : In d (dates df)) by (rewrite E; now left).
      apply dates_In in Hin as (r & Hr & Hd). rewrite (Hnone r Hr) in Hd. discriminate. }
    unfold date_min, date_max. now rewrite E.
  - intros r0 d0 Hr0 Hd0. unfold date_min, date_max.
    destruct (dates df) as [|d l] eqn:E.
    { assert (Hin : In d0 (dates df)) by (apply dates_In; eauto).
      rewrite E in Hin. destruct Hin. }
    destruct (fold_min_spec l d) as [Hmin Hle].
    destruct (fold_max_spec l d) as [Hmax Hge].
    rewrite <- E in Hmin, Hmax, Hle, Hge.
    apply dates_In in Hmin as (first & Hfirst & Efirst).
    apply dates_In in Hmax as (last & Hlast & Elast).
    exists first, last, (fold_left Z.min l d), (fold_left Z.max l d).
    repeat split; auto.
    + apply Hle. apply dates_In. eauto.
    + apply Hge. apply dates_In. eauto.
  - assert (Hcol : forall col : DatasetRecord -> string,
              NoDup (unique (map col df))
              /\ forall x, In x (unique (map col df)) <-> exists r, In r df /\ col r = x).
    { intros col. split; [apply unique_NoDup|]. intros x.
      rewrite unique_In, in_map_iff. split; intros (r & H1 & H2); eauto. }
    repeat (apply Forall_cons; [cbn [fst snd]; split; [reflexivity|apply Hcol]|]).
    apply Forall_nil.
Qed.

(** ** Groups of rows *)

Lemma zsum_from (l : list Z) (a : Z) : fold_left Z.add l a = (a + zsum l)%Z.
Proof.
  unfold zsum. revert a. induction l as [|x l IH]; intros a; cbn [fold_left]; [lia|].
  rewrite (IH (a + x)%Z), (IH (0 + x)%Z). lia.
Qed.

Lemma zsum_cons (x : Z) (l : list Z) : zsum (x :: l) = (x + zsum l)%Z.
Proof. unfold zsum at 1. cbn [fold_left]. now rewrite zsum_from. Qed.

Lemma zsum_add {A : Type} (f g : A -> Z) (l : list A) :
  zsum (map (fun x => (f x + g x)%Z) l) = (zsum (map f l) + zsum (map g l))%Z.
Proof.
  induction l as [|x l IH]; cbn [map]; [reflexivity|]. rewrite !zsum_cons, IH. lia.
Qed.

Lemma zsum_nonneg (l : list Z) : Forall (fun x => (0 <= x)%Z) l -> (0 <= zsum l)%Z.
Proof.
  induction 1 as [|x l Hx _ IH]; [reflexivity|]. rewrite zsum_cons. lia.
Qed.

Lemma zsum_bounds_item (l : list Z) (x : Z) :
  Forall (fun y => (0 <= y)%Z) l -> In x l -> (0 <= x <= zsum l)%Z.
Proof.
  induction 1 as [|y l Hy Hl IH]; intros Hin; [destruct Hin|].
  rewrite zsum_cons. pose proof (zsum_nonneg l Hl). destruct Hin as [->|Hin]; [lia|].
  specialize (IH Hin). lia.
Qed.

(** A sum of wrapped sums is the wrapped sum. *)
Lemma isum_wrapped (l : list Z) : isum (map wrap64 l) = isum l.
Proof.
  unfold isum.
  assert (H : (zsum (map wrap64 l) mod 2 ^ 64 = zsum l mod 2 ^ 64)%Z).
  { induction l as [|x l IH]; [reflexivity|]. cbn [map]. rewrite !zsum_cons.
    rewrite Z.add_mod, wrap64_mod, IH, <- Z.add_mod by lia. reflexivity. }
  unfold wrap64. f_equal.
  rewrite <- (Zplus_mod_idemp_l (zsum (map wrap64 l))), H, Zplus_mod_idemp_l. reflexivity.
Qed.

Section Groups.

Context {K : Type} (eqb : K -> K -> bool).
Hypothesis eqb_spec : forall a b, eqb a b = true <-> a = b.
Context (key : DatasetRecord -> K) (weight : DatasetRecord -> Z).

Lemma zsum_indicator (k : K) (w : Z) (ks : list K) :
  NoDup ks -> In k ks ->
  zsum (map (fun k' => if eqb k k' then w else 0%Z) ks) = w.
Proof.
  induction 1 as [|k0 ks Hnot Hnd IH]; intros Hin; [destruct Hin|].
  cbn [map]. rewrite zsum_cons. destruct Hin as [->|Hin].
  - assert (E : eqb k k = true) by now apply eqb_spec. rewrite E.
    assert (Hz : zsum (map (fun k' => if eqb k k' then w else 0%Z) ks) = 0%Z).
    { clear IH Hnd. induction ks as [|k1 ks IH]; [reflexivity|].
      cbn [map]. rewrite zsum_cons.
      destruct (eqb k k1) eqn:E1.
      - apply eqb_spec in E1 as <-. exfalso. apply Hnot. now left.
      - rewrite IH; [reflexivity|]. intros H. apply Hnot. now right. }
    lia.
  - destruct (eqb k k0) eqn:E0.
    + apply eqb_spec in E0 as <-. contradiction.
    + rewrite (IH Hin). lia.
Qed.

(** Summing a column group by group gives the sum of the column, when each
    key of the frame is among the groups once. *)
Lemma groups_cover (ks : list K) (df : frame) :
  NoDup ks -> (forall r, In r df -> In (key r) ks) ->
  zsum (map (fun k => zsum (map weight (filter (fun r => eqb (key r) k) df))) ks)
  = zsum (map weight df).
Proof.
  intros Hnd. induction df as [|r df IH]; intros Hin.
  - cbn [filter map]. clear. induction ks as [|k ks IH]; [reflexivity|].
    cbn [map]. now rewrite zsum_cons, IH.
  - cbn [map]. rewrite zsum_cons, <- IH by (intros x Hx; apply Hin; now right).
    rewrite <- (zsum_indicator (key r) (weight r) ks Hnd) at 1
      by (apply Hin; now left).
    rewrite <- zsum_add. f_equal. apply map_ext. intros k. cbn [filter].
    destruct (eqb (key r) k); [|lia]. cbn [map]. now rewrite zsum_cons.
Qed.

End Groups.

Lemma sorted_lt_NoDup (l : list Z) : StronglySorted Z.lt l -> NoDup l.
Proof.
  induction 1 as [|x l Hs IH Hx]; constructor; [|assumption].
  intros Hin. rewrite Forall_forall in Hx. specialize (Hx x Hin). lia.
Qed.

Lemma option_Z_eqb_iff (a b : option Z) :
  match a, b with
  | Some x, Some y => (x =? y)%Z
  | None, None => true
  | _, _ => false
  end = true <-> a = b.
Proof.
  destruct a as [x|], b as [y|]; try (split; discriminate); [|split; reflexivity].
  rewrite Z.eqb_eq. split; [now intros ->|now intros [= ->]].
Qed.

Lemma group_of_dated (d : Z) (df : frame) :
  filter (fun r => match date r, Some d with
                   | Some x, Some y => (x =? y)%Z
                   | None, None => true
                   | _, _ => false
                   end) (dated df) = group d df.
Proof.
  unfold dated, group, on_date. induction df as [|r df IH]; [reflexivity|].
  cbn [filter]. destruct (date r) as [x|] eqn:E; [|exact IH].
  cbn [filter]. rewrite E. destruct (x =? d)%Z; [now f_equal|exact IH].
Qed.

Lemma dated_In (df : frame) (r : DatasetRecord) :
  In r (dated df) <-> In r df /\ exists d, date r = Some d.
Proof.
  unfold dated. rewrite filter_In. destruct (date r) as [x|].
  - split; intros [H _]; split; eauto.
  - split; [intros [_ H]; discriminate|intros [_ [d H]]; discriminate].
Qed.

Lemma length_dated (df : frame) : List.length (dated df) = List.length (dates df).
Proof.
  unfold dated, dates. induction df as [|r df IH]; [reflexivity|].
  cbn [filter flat_map]. destruct (date r); cbn [List.length app]; now rewrite IH.
Qed.

(** The integer sums of the groups, as numbers, make up the sum of the
    dated rows. *)
Lemma groups_zsum (weight : DatasetRecord -> Z) (df : frame) :
  zsum (map (fun d => zsum (map weight (group d df))) (group_keys df))
  = zsum (map weight (dated df)).
Proof.
  pose proof (sorted_lt_NoDup _ (group_keys_sorted df)) as Hnd.
  rewrite <- (groups_cover _ option_Z_eqb_iff date weight (map Some (group_keys df))
                (dated df)).
  - rewrite map_map. f_equal. apply map_ext. intros d. now rewrite group_of_dated.
  - clear -Hnd. induction Hnd as [|k ks Hk _ IH]; cbn [map]; constructor; [|exact IH].
    intros Hin. apply in_map_iff in Hin as (k' & [= ->] & Hin). contradiction.
  - intros r Hr. apply dated_In in Hr as (Hr & d & Hd). rewrite Hd.
    apply in_map, group_keys_In. eauto.
Qed.

(** Where the cells of an integer column are not negative and their sum
    over the dated rows is below [2^63], no group sum wraps around. *)
Lemma groups_exact (count : DatasetRecord -> Z) (df : frame) :
  Forall (fun r => (0 <= count r)%Z) (dated df) ->
  (zsum (map count (dated df)) < 2 ^ 63)%Z ->
  zsum (map (fun d => isum (map count (group d df))) (group_keys df))
  = zsum (map count (dated df)).
Proof.
  intros Hpos Hbound.
  rewrite <- (groups_zsum count df). f_equal. apply map_ext_in. intros d Hd.
  unfold isum. apply wrap64_small.
  assert (Hgroups : Forall (fun x => (0 <= x)%Z)
                      (map (fun k => zsum (map count (group k df))) (group_keys df))).
  { apply Forall_forall. intros x Hx. apply in_map_iff in Hx as (k & <- & _).
    apply zsum_nonneg, Forall_forall. intros y Hy.
    apply in_map_iff in Hy as (r & <- & Hr). rewrite Forall_forall in Hpos.
    apply Hpos, dated_In. apply group_In in Hr as [Hr Hdate]. eauto. }
  pose proof (zsum_bounds_item _ (zsum (map count (group d df))) Hgroups
                (in_map (fun k => zsum (map count (group k df))) _ _ Hd)) as Hitem.
  rewrite groups_zsum in Hitem. lia.
Qed.

(** X11: the timeline loses no impression and no click of a row that has a
    date, and counts none of a row that has no date: the impressions of its
    rows and those of the dated rows of the frame have the same [int64]
    sum, and so have the clicks; where the counts are not negative and
    their sum is below [2^63], no sum wraps around and the impressions (the
    clicks) of the timeline add up to the same number as those of the dated
    rows.  The timeline has at most as many rows as the frame has dated
    rows, none for a frame without rows. *)
Theorem roas_timeline_conserves_counts (df : frame) :
  isum (map day_impressions (daily_roas df)) = isum (map impressions (dated df))
  /\ isum (map day_clicks (daily_roas df)) = isum (map clicks (dated df))
  /\ (Forall (fun r => (0 <= impressions r)%Z) (dated df) ->
      (zsum (map impressions (dated df)) < 2 ^ 63)%Z ->
      zsum (map day_impressions (daily_roas df)) = zsum (map impressions (dated df)))
  /\ (Forall (fun r => (0 <= clicks r)%Z) (dated df) ->
      (zsum (map clicks (dated df)) < 2 ^ 63)%Z ->
      zsum (map day_clicks (daily_roas df)) = zsum (map clicks (dated df)))
  /\ (forall r, In r (dated df) <-> In r df /\ exists d, date r = Some d)
  /\ List.length (daily_roas df) <= List.length (dated df) <= List.length df
  /\ (df = [] -> daily_roas df = []).
Proof.
  pose proof (sorted_lt_NoDup _ (group_keys_sorted df)) as Hnd.
  assert (Hwrapped : forall weight,
            isum (map (fun d => isum (map weight (group d df))) (group_keys df))
            = isum (map weight (dated df))).
  { intros weight.
    rewrite <- (map_map (fun d => zsum (map weight (group d df))) wrap64).
    rewrite isum_wrapped. unfold isum. now rewrite groups_zsum. }
  unfold daily_roas. rewrite !map_map. cbn [day_impressions day_clicks daily_row].
  split; [apply Hwrapped|]. split; [apply Hwrapped|].
  split; [apply groups_exact|]. split; [apply groups_exact|].
  split; [exact (dated_In df)|]. split; [|now intros ->].
  split.
  - rewrite length_map, length_dated.
    apply NoDup_incl_length; [exact Hnd|].
    intros d Hd. apply dates_In. now apply group_keys_In.
  - unfold dated. apply filter_length_le.
Qed.



(** ** What the stages leave alone *)

Lemma preserves_generate {X : Type} (f : State -> X) (temperature max_tokens : value) :
  (forall n s, f (set_llm_calls n s) = f s) ->
  preserves f (generate temperature max_tokens).
Proof.
  intros Hf s r s'. unfold generate.
  destruct (llm_script s (llm_calls s)); intros [= _ <-]; apply Hf.
Qed.

Lemma preserves_think_json {X : Type} (f : State -> X) (self : Agent) (temperature : value) :
  (forall n s, f (set_llm_calls n s) = f s) ->
  preserves f (think_json self temperature).
Proof.
  intros Hf. unfold think_json, generate_json.
  apply preserves_bind; [apply preserves_if; frame|intros temp].
  apply preserves_bind; [frame|intros max_tokens].
  apply preserves_bind; [now apply preserves_generate|intros response]. frame.
Qed.

Lemma frame_think_json {X : Type} (f : State -> X) (self : Agent) (temperature : value) :
  stage_frame f -> preserves f (think_json self temperature).
Proof. intros Hf. apply preserves_think_json, Hf. Qed.

Lemma frame_log_execution {X : Type} (f : State -> X) (self : Agent) (task : string)
    (result : value) :
  stage_frame f -> preserves f (log_execution self task result).
Proof. intros Hf. apply preserves_log_execution; apply Hf. Qed.

Lemma frame_open_read {X : Type} (f : State -> X) (path : string) :
  preserves f (open_read path).
Proof. intros s r s' [= _ <-]. reflexivity. Qed.

Lemma frame_planner {X : Type} (f : State -> X) (self : Agent) (task : string)
    (context : list (string * value)) :
  stage_frame f -> preserves f (planner_execute self task context).
Proof.
  intros Hf. unfold planner_execute.
  apply preserves_bind; [apply frame_open_read|intros _].
  apply preserves_try_except; [|intros e; apply preserves_ret].
  apply preserves_bind; [now apply frame_think_json|intros v].
  apply preserves_bind; [now apply frame_log_execution|intros _]. apply preserves_ret.
Qed.

Lemma frame_insight {X : Type} (f : State -> X) (self : Agent) (task : string)
    (context : list (string * value)) :
  stage_frame f -> preserves f (insight_execute self task context).
Proof.
  intros Hf. unfold insight_execute.
  apply preserves_bind; [apply frame_open_read|intros _].
  apply preserves_try_except; [|intros e; apply preserves_ret].
  apply preserves_bind; [now apply frame_think_json|intros v].
  apply preserves_bind; [now apply frame_log_execution|intros _]. apply preserves_ret.
Qed.

Lemma frame_evaluator {X : Type} (f : State -> X) (self : Agent) (task : string)
    (context : list (string * value)) :
  stage_frame f -> preserves f (evaluator_execute self task context).
Proof.
  intros Hf. unfold evaluator_execute.
  apply preserves_bind; [apply frame_open_read|intros _].
  apply preserves_bind; [apply preserves_lift|intros hypotheses].
  apply preserves_try_except.
  - apply preserves_bind; [now apply frame_think_json|intros v].
    apply preserves_bind; [now apply frame_log_execution|intros _]. apply preserves_ret.
  - intros e. apply preserves_bind; [apply preserves_lift|intros v]. apply preserves_ret.
Qed.

Lemma preserves_creative_step {X : Type} (f : State -> X) (self : Agent)
    (recommendations : list value) (campaign : value) :
  (forall n s, f (set_llm_calls n s) = f s) ->
  preserves f (creative_step self recommendations campaign).
Proof.
  intros Hf. unfold creative_step.
  apply preserves_bind; [apply preserves_lift|intros _].
  apply preserves_try_except.
  - apply preserves_bind; [now apply preserves_think_json|intros v]. apply preserves_ret.
  - intros e. apply preserves_bind; [apply preserves_lift|intros v]. apply preserves_ret.
Qed.

Lemma frame_creative_step {X : Type} (f : State -> X) (self : Agent)
    (recommendations : list value) (campaign : value) :
  stage_frame f -> preserves f (creative_step self recommendations campaign).
Proof. intros Hf. apply preserves_creative_step, Hf. Qed.

Lemma frame_creative {X : Type} (f : State -> X) (self : Agent) (task : string)
    (context : list (string * value)) :
  stage_frame f -> preserves f (creative_execute self task context).
Proof.
  intros Hf. unfold creative_execute.
  apply preserves_bind; [apply frame_open_read|intros _].
  apply preserves_bind; [apply preserves_lift|intros low].
  apply preserves_bind; [apply preserves_lift|intros perf].
  apply preserves_if; [apply preserves_ret|].
  apply preserves_bind; [apply preserves_lift|intros campaigns].
  apply preserves_bind;
    [apply preserves_for_each; intros b a; now apply frame_creative_step|intros recs].
  apply preserves_bind; [now apply frame_log_execution|intros _]. apply preserves_ret.
Qed.

Lemma preserves_perform_analysis {X : Type} (f : State -> X) (requirements : value) :
  (forall l s, f (set_data_loader l s) = f s) ->
  preserves f (data_perform_analysis requirements).
Proof.
  intros Hf.
  assert (Hl : forall attr, preserves f (loaded_df attr))
    by (intros attr; apply preserves_loaded_df, Hf).
  unfold data_perform_analysis.
  apply preserves_bind; [apply preserves_get_state|intros s0].
  apply preserves_if; [apply preserves_ret|].
  unfold data_analyze_campaign_performance, DataLoader_get_creative_performance,
    DataLoader_get_roas_timeline, DataLoader_filter_low_ctr.
  repeat first
    [ apply preserves_ret | apply preserves_lift | apply preserves_get_state | apply Hl
    | apply preserves_bind; [|intros ?]
    | apply preserves_if
    | match goal with |- preserves _ (match ?x with _ => _ end) => destruct x end ].
Qed.

Lemma preserves_structure_findings {X : Type} (f : State -> X) (self : Agent)
    (summary analysis : value) :
  (forall n s, f (set_llm_calls n s) = f s) ->
  preserves f (data_structure_findings self summary analysis).
Proof.
  intros Hf. unfold data_structure_findings.
  apply preserves_bind; [apply frame_open_read|intros _].
  apply preserves_try_except; [now apply preserves_think_json|intros e; apply preserves_ret].
Qed.

Lemma frame_data {X : Type} (f : State -> X) (self : Agent) (task : string)
    (context : list (string * value)) :
  stage_frame f -> preserves f (data_execute self task context).
Proof.
  intros Hf. unfold data_execute.
  apply preserves_try_except; [|intros e; apply preserves_ret].
  apply preserves_bind; [apply preserves_modify; intros s; apply Hf|intros _].
  apply preserves_bind; [apply preserves_load, Hf|intros df].
  apply preserves_bind; [apply preserves_modify; intros s; apply Hf|intros _].
  apply preserves_bind; [apply preserves_get_summary, Hf|intros summary].
  apply preserves_bind; [apply preserves_perform_analysis, Hf|intros analysis].
  apply preserves_bind; [apply preserves_structure_findings, Hf|intros findings].
  apply preserves_bind; [now apply frame_log_execution|intros _].
  apply preserves_bind; [apply preserves_get_state|intros s0].
  apply preserves_bind; [apply preserves_lift|intros n]. apply preserves_ret.
Qed.

Lemma frame_logged : stage_frame logged.
Proof. split; reflexivity. Qed.

Lemma frame_written : stage_frame written.
Proof. split; reflexivity. Qed.

Lemma frame_trace : stage_frame execution_trace.
Proof. split; reflexivity. Qed.

Lemma frame_results : stage_frame results.
Proof. split; reflexivity. Qed.

(** ** A reasoning stage whose call succeeds *)

Lemma think_json_reply (self : Agent) (temperature : value) (s : State)
    (text : string) (v : value) :
  truthy temperature = true -> is_dict (config self) = true ->
  llm_script s (llm_calls s) = Reply text -> extract_json text = Ok v ->
  think_json self temperature s = (Ok v, set_llm_calls (S (llm_calls s)) s).
Proof.
  intros Ht Hc Hreply Hv. unfold think_json. rewrite Ht.
  destruct (config self); try discriminate. cbn [py_get].
  unfold bind, ret, lift, generate_json, generate, bind. rewrite Hreply.
  unfold lift. now rewrite Hv.
Qed.

Lemma planner_success (self : Agent) (task : string) (context : list (string * value))
    (s : State) (text : string) (v : value) :
  is_dict (config self) = true ->
  llm_script s (llm_calls s) = Reply text ->
  extract_json text = Ok v ->
  template_readable "prompts/planner.md" s ->
  planner_execute self task context s =
    (Ok (VDict [("status", VStr "success"); ("plan", v); ("task", VStr task)]),
     set_execution_history
       (execution_history s ++
          [(name self,
            VDict [("timestamp", VStr (clock s (ticks s))); ("task", VStr task);
                   ("result", v)])])
       (set_ticks (S (ticks s)) (set_llm_calls (S (llm_calls s)) s))).
Proof.
  intros Hc Hreply Hv Hr. destruct (open_read_readable _ _ Hr) as [tpl Ht].
  unfold planner_execute. rewrite (bind_eq_ok _ _ _ _ _ Ht). unfold try_except.
  rewrite (bind_eq_ok _ _ _ _ _
             (think_json_reply self (VFloat 0.3) s text v eq_refl Hc Hreply Hv)).
  reflexivity.
Qed.

(** X12: when the template is readable and the generation service answers
    a text from which the extractor gets a value, the Planner, the Insight
    stage and the Evaluator return [status = success] with that value as
    their payload, whatever the value is (it is not checked against any
    schema), and with the task; they call the service once and log one
    entry, which holds the task and the value, in the agent's history. *)
Theorem reasoning_stage_success (self : Agent) (task : string)
    (context : list (string * value)) (s : State) (text : string) (v : value) :
  is_dict (config self) = true ->
  llm_script s (llm_calls s) = Reply text ->
  extract_json text = Ok v ->
  let entry :=
    VDict [("timestamp", VStr (clock s (ticks s))); ("task", VStr task); ("result", v)] in
  let s' :=
    set_execution_history (execution_history s ++ [(name self, entry)])
      (set_ticks (S (ticks s)) (set_llm_calls (S (llm_calls s)) s)) in
  (template_readable "prompts/planner.md" s ->
   planner_execute self task context s =
     (Ok (VDict [("status", VStr "success"); ("plan", v); ("task", VStr task)]), s'))
  /\ (template_readable "prompts/insight_agent.md" s ->
      insight_execute self task context s =
        (Ok (VDict [("status", VStr "success"); ("hypotheses", v); ("task", VStr task)]), s'))
  /\ (template_readable "prompts/evaluator.md" s ->
      is_dict (dict_get context "hypotheses" (VDict [])) = true ->
      evaluator_execute self task context s =
        (Ok (VDict [("status", VStr "success"); ("evaluation", v); ("task", VStr task)]), s'))
  /\ (forall st, get_history self st = (Ok [], st) ->
        execution_history st = execution_history s ->
        get_history self s' = (Ok [entry], s')).
Proof.
  intros Hc Hreply Hv. cbv zeta.
  split; [|split; [|split]].
  - intros Hr. now apply (planner_success self task context s text v).
  - intros Hr. destruct (open_read_readable _ _ Hr) as [tpl Ht].
    unfold insight_execute. rewrite (bind_eq_ok _ _ _ _ _ Ht). unfold try_except.
    rewrite (bind_eq_ok _ _ _ _ _
               (think_json_reply self (VFloat 0.7) s text v eq_refl Hc Hreply Hv)).
    reflexivity.
  - intros Hr Hd. destruct (open_read_readable _ _ Hr) as [tpl Ht].
    unfold evaluator_execute. rewrite (bind_eq_ok _ _ _ _ _ Ht).
    destruct (dict_get context "hypotheses" (VDict [])) as [| | | | | |hd|]; try discriminate.
    cbn [py_get].
    match goal with |- context [bind (lift (Ok ?x)) ?k ?st] =>
      rewrite (bind_eq_ok (lift (Ok x)) k st st x eq_refl) end.
    unfold try_except.
    rewrite (bind_eq_ok _ _ _ _ _
               (think_json_reply self (VFloat 0.2) s text v eq_refl Hc Hreply Hv)).
    reflexivity.
  - intros st Hst Hsame. unfold get_history, bind, get_state, ret in *.
    injection Hst as Hst. rewrite Hsame in Hst.
    cbn [execution_history set_execution_history].
    rewrite filter_app, map_app, Hst. cbn [filter fst]. rewrite String.eqb_refl.
    reflexivity.
Qed.

(** ** The history of an agent *)

Lemma history_log_execution (self : Agent) (task : string) (result : value) (s : State) :
  log_execution self task result s =
    (Ok tt,
     set_execution_history
       (execution_history s ++
          [(name self,
            VDict [("timestamp", VStr (clock s (ticks s))); ("task", VStr task);
                   ("result", result)])])
       (set_ticks (S (ticks s)) s)).
Proof. reflexivity. Qed.

Lemma frame_history_think_json (self : Agent) (temperature : value) :
  preserves execution_history (think_json self temperature).
Proof. now apply preserves_think_json. Qed.

Lemma succeeded_success (d : list (string * value)) :
  succeeded (Ok (VDict (("status", VStr "success") :: d))) = true.
Proof. reflexivity. Qed.

(** The body shared by the Planner, the Insight stage and the Evaluator. *)
Lemma history_reasoning_body (self : Agent) (task payload : string) (temperature : value)
    (fallback : exn -> M value) (s s' : State) (r : outcome value) :
  (forall e s0 r0 s1, fallback e s0 = (r0, s1) ->
     succeeded r0 = false /\ execution_history s1 = execution_history s0) ->
  try_except
    (response <- think_json self temperature ;;
     log_execution self task response ;;;
     ret (VDict [("status", VStr "success"); (payload, response); ("task", VStr task)]))
    fallback s = (r, s') ->
  history_step self task (succeeded r) s s'.
Proof.
  intros Hfb H. apply try_except_inv in H as [(a & H & ->)|(e & s1 & H & Hh)].
  - apply bind_ok in H as (v & s1 & Hthink & H).
    rewrite (bind_eq_ok _ _ _ _ _ (history_log_execution self task v s1)) in H.
    injection H as <- <-. rewrite succeeded_success. cbn [history_step].
    exists (clock s1 (ticks s1)), v. cbn [execution_history set_execution_history].
    now rewrite (frame_history_think_json _ _ _ _ _ Hthink).
  - destruct (Hfb _ _ _ _ Hh) as [-> E]. cbn [history_step]. rewrite E.
    apply bind_inv in H as [(v & s2 & Hthink & H)|(e' & Hthink & _)].
    + rewrite (bind_eq_ok _ _ _ _ _ (history_log_execution self task v s2)) in H.
      discriminate.
    + apply (frame_history_think_json _ _ _ _ _ Hthink).
Qed.

Lemma history_open_read {A : Type} (path : string) (k : string -> M A) (s s' : State)
    (r : outcome A) (P : outcome A -> State -> State -> Prop) :
  (forall e, P (Raise e) s s) ->
  (forall text, k text s = (r, s') -> P r s s') ->
  bind (open_read path) k s = (r, s') -> P r s s'.
Proof.
  intros Hraise Hk H. unfold bind, open_read in H.
  destruct (read_text s path) as [text|e]; [now apply (Hk text)|].
  injection H as <- <-. apply Hraise.
Qed.

Lemma history_step_none (self : Agent) (task : string) (s : State) :
  history_step self task false s s.
Proof. reflexivity. Qed.

Lemma history_planner (self : Agent) (task : string) (context : list (string * value))
    (s s' : State) (r : outcome value) :
  planner_execute self task context s = (r, s') ->
  history_step self task (succeeded r) s s'.
Proof.
  unfold planner_execute.
  apply (history_open_read _ _ s s' r (fun r s s' => history_step self task (succeeded r) s s'));
    [intros e; apply history_step_none|intros tpl].
  apply history_reasoning_body. intros e s0 r0 s1 [= <- <-]. now split.
Qed.

Lemma history_insight (self : Agent) (task : string) (context : list (string * value))
    (s s' : State) (r : outcome value) :
  insight_execute self task context s = (r, s') ->
  history_step self task (succeeded r) s s'.
Proof.
  unfold insight_execute.
  apply (history_open_read _ _ s s' r (fun r s s' => history_step self task (succeeded r) s s'));
    [intros e; apply history_step_none|intros tpl].
  apply history_reasoning_body. intros e s0 r0 s1 [= <- <-]. now split.
Qed.

Lemma history_evaluator (self : Agent) (task : string) (context : list (string * value))
    (s s' : State) (r : outcome value) :
  evaluator_execute self task context s = (r, s') ->
  history_step self task (succeeded r) s s'.
Proof.
  unfold evaluator_execute.
  apply (history_open_read _ _ s s' r (fun r s s' => history_step self task (succeeded r) s s'));
    [intros e; apply history_step_none|intros tpl].
  intros H. apply bind_inv in H as [(hs & s1 & Hhs & H)|(e & [= _ <-] & ->)];
    [|apply history_step_none].
  injection Hhs as _ <-. revert H. apply history_reasoning_body.
  intros e s0 r0 s1 H. apply bind_inv in H as [(v & s2 & [= _ <-] & [= <- <-])|(e' & [= _ <-] & ->)];
    now split.
Qed.

Lemma history_creative (self : Agent) (task : string) (context : list (string * value))
    (s s' : State) (r : outcome value) :
  creative_execute self task context s = (r, s') ->
  history_step self task (succeeded r) s s'.
Proof.
  unfold creative_execute.
  apply (history_open_read _ _ s s' r (fun r s s' => history_step self task (succeeded r) s s'));
    [intros e; apply history_step_none|intros tpl].
  intros H. apply bind_inv in H as [(low & s1 & [= _ <-] & H)|(e & [= _ <-] & ->)];
    [|apply history_step_none].
  apply bind_inv in H as [(perf & s1 & [= _ <-] & H)|(e & [= _ <-] & ->)];
    [|apply history_step_none].
  destruct (negb (truthy low)); [injection H as <- <-; apply history_step_none|].
  apply bind_inv in H as [(campaigns & s1 & [= _ <-] & H)|(e & [= _ <-] & ->)];
    [|apply history_step_none].
  assert (Hloop : preserves execution_history (for_each campaigns [] (creative_step self))).
  { apply preserves_for_each. intros b a. now apply preserves_creative_step. }
  apply bind_inv in H as [(recs & s1 & Hrecs & H)|(e & Hrecs & ->)].
  + rewrite (bind_eq_ok _ _ _ _ _ (history_log_execution self task _ s1)) in H.
    injection H as <- <-. rewrite succeeded_success. cbn [history_step].
    eexists _, _. cbn [execution_history set_execution_history].
    now rewrite (Hloop _ _ _ Hrecs).
  + cbn [succeeded history_step]. apply (Hloop _ _ _ Hrecs).
Qed.

Lemma history_data (self : Agent) (task : string) (context : list (string * value))
    (s s' : State) (r : outcome value) :
  data_execute self task context s = (r, s') ->
  history_step self task (succeeded r) s s'.
Proof.
  unfold data_execute. intros H.
  apply try_except_inv in H as [(a & H & ->)|(e & s1 & H & [= <- <-])].
  + apply bind_ok in H as ([] & s1 & [= <-] & H).
    apply bind_ok in H as (df & s2 & Hload & H).
    apply bind_ok in H as ([] & s3 & [= <-] & H).
    apply bind_ok in H as (summary & s4 & Hsum & H).
    apply bind_ok in H as (analysis & s5 & Han & H).
    apply bind_ok in H as (findings & s6 & Hfind & H).
    rewrite (bind_eq_ok _ _ _ _ _ (history_log_execution self task _ s6)) in H.
    apply bind_ok in H as (st & s7 & [= _ <-] & H).
    apply bind_ok in H as (n & s8 & [= _ <-] & [= <- <-]).
    rewrite succeeded_success. cbn [history_step]. eexists _, _.
    cbn [execution_history set_execution_history].
    rewrite (preserves_structure_findings execution_history _ _ _
               (fun _ _ => eq_refl) _ _ _ Hfind).
    rewrite (preserves_perform_analysis execution_history _
               (fun _ _ => eq_refl) _ _ _ Han).
    rewrite (preserves_get_summary execution_history (fun _ _ => eq_refl) _ _ _ Hsum).
    cbn [execution_history set_agent_df].
    rewrite (preserves_load execution_history (fun _ _ => eq_refl) _ _ _ Hload).
    reflexivity.
  + cbn [succeeded status_of dict_lookup String.eqb Ascii.eqb Bool.eqb history_step].
    apply bind_inv in H as [([] & s2 & [= <-] & H)|(e' & [=] & _)].
    apply bind_inv in H as [(df & s3 & Hload & H)|(e' & Hload & _)];
      [|exact (preserves_load execution_history (fun _ _ => eq_refl) _ _ _ Hload)].
    apply bind_inv in H as [([] & s4 & [= <-] & H)|(e' & [=] & _)].
    apply bind_inv in H as [(summary & s5 & Hsum & H)|(e' & Hsum & _)].
    2:{ rewrite (preserves_get_summary execution_history (fun _ _ => eq_refl) _ _ _ Hsum).
        exact (preserves_load execution_history (fun _ _ => eq_refl) _ _ _ Hload). }
    apply bind_inv in H as [(analysis & s6 & Han & H)|(e' & Han & _)].
    2:{ rewrite (preserves_perform_analysis execution_history _
                   (fun _ _ => eq_refl) _ _ _ Han).
        rewrite (preserves_get_summary execution_history (fun _ _ => eq_refl) _ _ _ Hsum).
        exact (preserves_load execution_history (fun _ _ => eq_refl) _ _ _ Hload). }
    apply bind_inv in H as [(findings & s7 & Hfind & H)|(e' & Hfind & _)].
    2:{ rewrite (preserves_structure_findings execution_history _ _ _
                   (fun _ _ => eq_refl) _ _ _ Hfind).
        rewrite (preserves_perform_analysis execution_history _
                   (fun _ _ => eq_refl) _ _ _ Han).
        rewrite (preserves_get_summary execution_history (fun _ _ => eq_refl) _ _ _ Hsum).
        exact (preserves_load execution_history (fun _ _ => eq_refl) _ _ _ Hload). }
    exfalso.
    rewrite (bind_eq_ok _ _ _ _ _ (history_log_execution self task _ s7)) in H.
    rewrite (bind_eq_ok get_state _ _ _ _ eq_refl) in H.
    cbn [agent_df set_execution_history set_ticks] in H.
    rewrite (preserves_structure_findings agent_df _ _ _ (fun _ _ => eq_refl) _ _ _ Hfind)
      in H.
    rewrite (preserves_perform_analysis agent_df _ (fun _ _ => eq_refl) _ _ _ Han) in H.
    rewrite (preserves_get_summary agent_df (fun _ _ => eq_refl) _ _ _ Hsum) in H.
    cbn [agent_df set_agent_df] in H.
    rewrite (bind_eq_ok (lift (Ok _)) _ _ _ _ eq_refl) in H. discriminate.
Qed.

(** X13: an agent's history records its successes and nothing else.
    Whatever the generation service answers, an [execute] of any of the five
    stages that returns [status = success] has added exactly one entry,
    for its task, to the history of its agent; one that returns another
    status ([partial], [error], [info]) or raises has left the history as
    it was. *)
Theorem history_records_successes (self : Agent) (task : string)
    (context : list (string * value)) (s s' : State) (r : outcome value) :
  (planner_execute self task context s = (r, s') ->
   history_step self task (succeeded r) s s')
  /\ (insight_execute self task context s = (r, s') ->
      history_step self task (succeeded r) s s')
  /\ (evaluator_execute self task context s = (r, s') ->
      history_step self task (succeeded r) s s')
  /\ (creative_execute self task context s = (r, s') ->
      history_step self task (succeeded r) s s')
  /\ (data_execute self task context s = (r, s') ->
      history_step self task (succeeded r) s s').
Proof.
  split; [apply history_planner|]. split; [apply history_insight|].
  split; [apply history_evaluator|]. split; [apply history_creative|apply history_data].
Qed.

(** ** A run of the pipeline *)

Lemma preserves_open_write {X : Type} (f : State -> X) (path : value) (doc : document) :
  (forall w s, f (set_written w s) = f s) -> preserves f (open_write path doc).
Proof.
  intros Hf s r s'. unfold open_write.
  destruct (write_error s path); intros [= _ <-]; [reflexivity|apply Hf].
Qed.

Lemma preserves_save_outputs {X : Type} (f : State -> X) (self : Orchestrator)
    (report : list (string * value)) :
  (forall w s, f (set_written w s) = f s) -> preserves f (save_outputs self report).
Proof.
  intros Hf. unfold save_outputs, generate_markdown_report, mkdir.
  repeat first
    [ apply preserves_ret | apply preserves_lift
    | now apply preserves_open_write
    | apply preserves_bind; [|intros ?] ].
Qed.

Lemma preserves_compile_report {X : Type} (f : State -> X) (self : Orchestrator)
    (query : string) (plan data insights evaluation creatives : value)
    (execution_id : string) :
  (forall w s, f (set_written w s) = f s) -> (forall n s, f (set_ticks n s) = f s) ->
  preserves f
    (compile_report self query plan data insights evaluation creatives execution_id).
Proof.
  intros Hw Ht. unfold compile_report.
  apply preserves_bind; [now apply preserves_now|intros ts].
  repeat (apply preserves_bind; [apply preserves_lift|intros ?]).
  apply preserves_bind; [apply preserves_get_state|intros s0].
  apply preserves_bind; [now apply preserves_save_outputs|intros _]. apply preserves_ret.
Qed.

Lemma preserves_record_execution {X : Type} (f : State -> X) (agent_name : string)
    (result : value) :
  (forall n s, f (set_ticks n s) = f s) ->
  (forall t s, f (set_execution_trace t s) = f s) ->
  (forall r s, f (set_results r s) = f s) ->
  preserves f (record_execution agent_name result).
Proof.
  intros Ht He Hr. unfold record_execution.
  apply preserves_bind; [apply preserves_lift|intros status].
  apply preserves_bind; [now apply preserves_now|intros ts].
  apply preserves_modify. intros s. now rewrite Hr, He.
Qed.

Lemma orchestrator_execute_eq (self : Orchestrator) (user_query : string) (s : State) :
  orchestrator_execute self user_query s =
    let execution_id := clock s (ticks s) in
    let started :=
      VDict [("timestamp", VStr (clock s (S (ticks s))));
             ("event", VStr "metrics");
             ("metrics", VDict [("execution_start", VStr execution_id);
                                ("query", VStr user_query)])] in
    try_except
      (pipeline self user_query execution_id)
      (fun e =>
       log_error "orchestrator" execution_id (str_exn e) ;;;
       ret (VDict [("status", VStr "error");
                   ("error", VStr (str_exn e));
                   ("execution_id", VStr execution_id)]))
      (set_logged (logged s ++ [started]) (set_ticks (S (S (ticks s))) s)).
Proof. reflexivity. Qed.

Lemma logged_pipeline (self : Orchestrator) (user_query execution_id : string) :
  preserves logged (pipeline self user_query execution_id).
Proof.
  unfold pipeline.
  repeat first
    [ apply preserves_lift
    | apply (frame_planner logged), frame_logged
    | apply (frame_data logged), frame_logged
    | apply (frame_insight logged), frame_logged
    | apply (frame_evaluator logged), frame_logged
    | apply (frame_creative logged), frame_logged
    | apply preserves_record_execution; reflexivity
    | apply preserves_compile_report; reflexivity
    | apply preserves_bind; [|intros ?] ].
Qed.

Lemma compile_report_shape (self : Orchestrator) (query : string)
    (plan data insights evaluation creatives : value) (execution_id : string)
    (s s' : State) (r : value) :
  compile_report self query plan data insights evaluation creatives execution_id s
    = (Ok r, s') ->
  exists ts plan_v data_summary insights_v evaluation_v recommendations,
    r = VDict [("execution_id", VStr execution_id);
               ("timestamp", VStr ts);
               ("query", VStr query);
               ("status", VStr "success");
               ("plan", plan_v);
               ("data_summary", data_summary);
               ("insights", insights_v);
               ("evaluation", evaluation_v);
               ("creative_recommendations", recommendations);
               ("execution_trace", VList (execution_trace s'))].
Proof.
  unfold compile_report. intros H.
  apply bind_ok in H as (ts & s1 & Hnow & H).
  apply bind_ok in H as (plan_v & s2 & [= _ <-] & H).
  apply bind_ok in H as (data_summary & s2 & [= _ <-] & H).
  apply bind_ok in H as (insights_v & s2 & [= _ <-] & H).
  apply bind_ok in H as (evaluation_v & s2 & [= _ <-] & H).
  apply bind_ok in H as (recommendations & s2 & [= _ <-] & H).
  apply bind_ok in H as (st & s2 & [= <- <-] & H).
  apply bind_ok in H as ([] & s2 & Hsave & [= <- <-]).
  rewrite <- (preserves_save_outputs execution_trace _ _ (fun _ _ => eq_refl) _ _ _ Hsave).
  eexists _, _, _, _, _, _. reflexivity.
Qed.

Lemma pipeline_shape (self : Orchestrator) (user_query execution_id : string)
    (s s' : State) (r : value) :
  pipeline self user_query execution_id s = (Ok r, s') ->
  exists report,
    r = VDict report
    /\ dict_get report "status" VNone = VStr "success"
    /\ dict_get report "execution_id" VNone = VStr execution_id
    /\ dict_get report "query" VNone = VStr user_query
    /\ dict_get report "execution_trace" VNone = VList (execution_trace s').
Proof.
  unfold pipeline. intros H. do 19 (apply bind_ok in H as (? & ? & _ & H)).
  apply compile_report_shape in H
    as (ts & plan_v & data_summary & insights_v & evaluation_v & recommendations & ->).
  eexists. repeat split.
Qed.

(** X14: [AgentOrchestrator.execute] never raises.  It returns either the
    report, with [status = success], the execution id and the query, or a
    record with [status = error], the text of the exception that left a
    step, and the execution id.  The run logs one [metrics] event when it
    starts and, when it fails, one [agent_error] event with the same id and
    text; it logs nothing else. *)
Theorem orchestrator_execute_returns (self : Orchestrator) (user_query : string)
    (s s' : State) (r : outcome value) :
  orchestrator_execute self user_query s = (r, s') ->
  let execution_id := clock s (ticks s) in
  let started :=
    VDict [("timestamp", VStr (clock s (S (ticks s))));
           ("event", VStr "metrics");
           ("metrics", VDict [("execution_start", VStr execution_id);
                              ("query", VStr user_query)])] in
  (exists report,
     r = Ok (VDict report)
     /\ dict_get report "status" VNone = VStr "success"
     /\ dict_get report "execution_id" VNone = VStr execution_id
     /\ dict_get report "query" VNone = VStr user_query
     /\ logged s' = logged s ++ [started])
  \/ (exists msg ts,
        r = Ok (VDict [("status", VStr "error");
                       ("error", VStr msg);
                       ("execution_id", VStr execution_id)])
        /\ logged s' =
             logged s ++
               [started;
                VDict [("timestamp", VStr ts);
                       ("event", VStr "agent_error");
                       ("agent", VStr "orchestrator");
                       ("trace_id", VStr execution_id);
                       ("error", VStr msg)]]).
Proof.
  rewrite orchestrator_execute_eq. cbv zeta. intros H.
  apply try_except_inv in H as [(a & H & ->)|(e & s1 & H & Hh)].
  - left. pose proof (logged_pipeline _ _ _ _ _ _ H) as Hlog.
    apply pipeline_shape in H as (report & -> & Hst & Hid & Hq & _).
    exists report. repeat split; auto.
  - right. pose proof (logged_pipeline _ _ _ _ _ _ H) as Hlog.
    unfold log_error, bind, now, modify, ret in Hh. injection Hh as <- <-.
    exists (str_exn e), (clock s1 (ticks s1)). split; [reflexivity|].
    cbn [logged set_logged set_ticks]. rewrite Hlog. cbn [logged set_logged].
    now rewrite <- app_assoc.
Qed.

(** *** The order of the stages *)

Lemma ran_stages_same (s0 s s' : State) (k : nat) :
  execution_trace s' = execution_trace s -> ran_stages s0 k s -> ran_stages s0 k s'.
Proof. intros E (new & H & Hn). exists new. now rewrite E. Qed.

Lemma triple_bind {A B : Type} (P : State -> Prop) (m : M A) (Q : A -> State -> Prop)
    (k : A -> M B) (R : B -> State -> Prop) (E : State -> Prop) :
  triple P m Q E -> (forall a, triple (Q a) (k a) R E) -> triple P (bind m k) R E.
Proof.
  intros Hm Hk s r s'' HP H.
  apply bind_inv in H as [(a & s' & H1 & H2)|(e & H1 & ->)].
  - apply (Hk a s' r s''); [|exact H2]. exact (Hm _ _ _ HP H1).
  - exact (Hm _ _ _ HP H1).
Qed.

(** A step that leaves the trace alone keeps the count of stages. *)
Lemma triple_stage {A : Type} (s0 : State) (k : nat) (m : M A) :
  preserves execution_trace m ->
  triple (ran_stages s0 k) m (fun _ s => ran_stages s0 k s)
    (fun s => exists j, ran_stages s0 j s).
Proof.
  intros Hm s r s' HP H.
  pose proof (ran_stages_same s0 s s' k (Hm _ _ _ H) HP) as Hran.
  destruct r as [a|e]; eauto.
Qed.

Lemma triple_lift {A : Type} (s0 : State) (k : nat) (o : outcome A) :
  triple (ran_stages s0 k) (lift o) (fun _ s => ran_stages s0 k s)
    (fun s => exists j, ran_stages s0 j s).
Proof. intros s r s' HP [= <- <-]. destruct o; eauto. Qed.

Lemma triple_record (s0 : State) (k : nat) (agent_name : string) (result : value) :
  nth_error stage_names k = Some agent_name ->
  triple (ran_stages s0 k) (record_execution agent_name result)
    (fun _ s => ran_stages s0 (S k) s) (fun s => exists j, ran_stages s0 j s).
Proof.
  intros Hk s r s' (new & Htrace & Hnames) H.
  unfold record_execution in H.
  apply bind_inv in H as [(status & s1 & [= _ <-] & H)|(e & [= _ <-] & ->)].
  - unfold bind, now, modify in H. injection H as <- <-.
    exists (new ++ [VDict [("agent", VStr agent_name); ("status", status);
                           ("timestamp", VStr (clock s (ticks s)))]]).
    cbn [execution_trace set_results set_execution_trace set_ticks].
    rewrite Htrace, <- app_assoc. split; [reflexivity|].
    rewrite map_app, Hnames. cbn [map agent_of dict_lookup String.eqb Ascii.eqb Bool.eqb].
    clear -Hk. unfold stage_names in *.
    do 5 (destruct k as [|k]; [injection Hk as <-; reflexivity|]). destruct k; discriminate.
  - exists k, new. now split.
Qed.

Ltac stage_step :=
  eapply triple_bind;
    [apply triple_stage;
       first [ apply trace_planner | apply trace_data | apply trace_insight
             | apply trace_evaluator | apply trace_creative ]
    |intros ?; cbv beta].

Ltac lift_step := eapply triple_bind; [apply triple_lift|intros ?; cbv beta].

Ltac record_step := eapply triple_bind; [apply triple_record; reflexivity|intros ?; cbv beta].

Lemma trace_pipeline (self : Orchestrator) (user_query execution_id : string) (s0 : State) :
  triple (ran_stages s0 0) (pipeline self user_query execution_id)
    (fun r s => ran_stages s0 5 s) (fun s => exists j, ran_stages s0 j s).
Proof.
  unfold pipeline.
  lift_step. stage_step. record_step. lift_step.
  lift_step. stage_step. record_step. lift_step.
  lift_step. stage_step. record_step. lift_step.
  lift_step. stage_step. record_step.
  lift_step. stage_step. record_step. lift_step.
  intros s r s' HP H.
  pose proof (ran_stages_same s0 s s' 5 (trace_compile_report _ _ _ _ _ _ _ _ _ _ _ H) HP).
  destruct r; eauto.
Qed.

(** X15: a run records its stages in the fixed order planner, data agent,
    insight agent, evaluator, creative generator: whatever happens, the
    entries it adds to the trace are those of the first stages in that
    order, one each, up to the stage that was recorded last.  When it
    returns the report, all five are there, and the trace in the report is
    the whole trace of the orchestrator, the entries of earlier runs
    included. *)
Theorem run_records_stages_in_order (self : Orchestrator) (user_query : string)
    (s s' : State) (r : outcome value) :
  orchestrator_execute self user_query s = (r, s') ->
  (exists k, k <= 5 /\ ran_stages s k s')
  /\ (forall report,
        r = Ok (VDict report) -> dict_get report "status" VNone = VStr "success" ->
        ran_stages s 5 s'
        /\ dict_get report "execution_trace" VNone = VList (execution_trace s')
        /\ List.length (execution_trace s') = List.length (execution_trace s) + 5).
Proof.
  rewrite orchestrator_execute_eq. cbv zeta. intros H.
  assert (H0 : ran_stages s 0
                 (set_logged
                    (logged s ++
                       [VDict [("timestamp", VStr (clock s (S (ticks s))));
                               ("event", VStr "metrics");
                               ("metrics",
                                VDict [("execution_start", VStr (clock s (ticks s)));
                                       ("query", VStr user_query)])]])
                    (set_ticks (S (S (ticks s))) s)))
    by (exists []; split; [now rewrite app_nil_r|reflexivity]).
  assert (Hle : forall j st, ran_stages s j st -> exists k, k <= 5 /\ ran_stages s k st).
  { intros j st (new & Ht & Hn). exists (Nat.min j 5). split; [lia|].
    exists new. split; [exact Ht|]. rewrite Hn. f_equal. unfold stage_names.
    do 6 (destruct j as [|j]; [reflexivity|]). reflexivity. }
  apply try_except_inv in H as [(a & H & ->)|(e & s1 & H & Hh)].
  - pose proof (trace_pipeline _ _ _ s _ _ _ H0 H) as Hran. cbv beta iota in Hran.
    split; [eauto|].
    intros report [= Hr] Hst.
    apply pipeline_shape in H as (report' & -> & _ & _ & _ & Htr). injection Hr as ->.
    split; [exact Hran|]. split; [exact Htr|].
    destruct Hran as (new & -> & Hn). rewrite length_app. f_equal.
    apply (f_equal (@List.length _)) in Hn. now rewrite !length_map in Hn.
  - pose proof (trace_pipeline _ _ _ s _ _ _ H0 H) as Hran. cbv beta iota in Hran.
    assert (E : execution_trace s' = execution_trace s1).
    { unfold log_error, bind, now, modify, ret in Hh. now injection Hh as _ <-. }
    destruct Hran as (j & Hran). split.
    + apply (Hle j). now apply (ran_stages_same s s1 s' j).
    + intros report ->. unfold log_error, bind, now, modify, ret in Hh.
      injection Hh as <- _. discriminate.
Qed.

(** ** The files of a run *)

Ltac save_cases :=
  split; [try reflexivity|
  split; [first [now (intros; discriminate) | now (intros _; split; reflexivity)]|
  split; [first [now (intros; lia) | now (intros; discriminate)]|
  split; [first [now (intros; split; [lia|discriminate]) | now (intros; discriminate)]|]]]].

(** X16: [_save_outputs] writes the insights file, then the creatives
    file, then the rendered report, each under its configured path, and
    stops at the first step that raises: what it has written is always a
    prefix of these three, all three exactly when it returns.  The report
    is rendered before its file is opened, so when rendering raises (a
    confidence score that is a text, say) and the two JSON files can be
    written, these two are written, the report file is not, and the
    exception leaves [_save_outputs]. *)
Theorem save_outputs_writes_in_order (self : Orchestrator)
    (report : list (string * value)) (s s' : State) (r : outcome unit) :
  save_outputs self report s = (r, s') ->
  exists k,
    written s' = written s ++ firstn k (planned_outputs self report)
    /\ (r = Ok tt -> k = 3 /\ List.length (planned_outputs self report) = 3)
    /\ (forall e, r = Raise e -> k <= 2)
    /\ (forall e, markdown_text report = Raise e -> k <= 2 /\ r <> Ok tt)
    /\ (forall e output_config logs_path insights_path,
          get_dict (orch_config self) "output" = Ok (VDict output_config) ->
          dict_get output_config "logs_path" (VStr "logs") = VStr logs_path ->
          dict_get output_config "insights_path" (VStr "reports/insights.json")
            = VStr insights_path ->
          write_error s (VStr insights_path) = None ->
          write_error s (dict_get output_config "creatives_path"
                           (VStr "reports/creatives.json")) = None ->
          markdown_text report = Raise e ->
          r = Raise e /\ k = 2).
Proof.
  unfold save_outputs, planned_outputs, generate_markdown_report, mkdir, open_write,
    bind, lift, ret.
  destruct (get_dict (orch_config self) "output") as [oc|e0] eqn:Eo.
  2:{ intros [= <- <-]. exists 0. rewrite app_nil_r. save_cases. intros; discriminate. }
  destruct oc as [| | | | | |oc|];
    try (intros [= <- <-]; exists 0; cbn [firstn]; rewrite app_nil_r; save_cases;
         intros; discriminate).
  cbn [py_get].
  destruct (as_path (dict_get oc "logs_path" (VStr "logs"))) as [logs|e1] eqn:El.
  2:{ intros [= <- <-]. exists 0. cbn [firstn]. rewrite app_nil_r. save_cases.
      intros e oc' lp ip [= <-] Hl. rewrite Hl in El. discriminate. }
  destruct (as_path (dict_get oc "insights_path" (VStr "reports/insights.json")))
    as [ins|e2] eqn:Ei.
  2:{ intros [= <- <-]. exists 0. cbn [firstn]. rewrite app_nil_r. save_cases.
      intros e oc' lp ip [= <-] _ Hi. rewrite Hi in Ei. discriminate. }
  destruct (write_error s (dict_get oc "insights_path" (VStr "reports/insights.json")))
    as [e3|] eqn:Ew1.
  { intros [= <- <-]. exists 0. cbn [firstn]. rewrite app_nil_r. save_cases.
    intros e oc' lp ip [= <-] _ Hi Hw. rewrite Hi in Ew1. congruence. }
  flat.
  destruct (write_error s (dict_get oc "creatives_path" (VStr "reports/creatives.json")))
    as [e4|] eqn:Ew2.
  { intros [= <- <-]. exists 1. flat. save_cases.
    intros e oc' lp ip [= <-] _ _ _ Hw. congruence. }
  flat.
  destruct (markdown_text report) as [[]|e5] eqn:Em.
  2:{ intros [= <- <-]. exists 2. flat. rewrite <- !app_assoc. save_cases.
      intros e oc' lp ip _ _ _ _ _ [= <-]. now split. }
  destruct (write_error s (dict_get oc "report_path" (VStr "reports/report.md")))
    as [e6|] eqn:Ew3.
  { intros [= <- <-]. exists 2. flat. rewrite <- !app_assoc. save_cases. intros; discriminate. }
  intros [= <- <-]. exists 3. flat. rewrite <- !app_assoc. save_cases. intros; discriminate.
Qed.

(** ** A plan that is no record *)

(** X17: the Planner does not check what the generation service returns,
    and the orchestrator reads the plan as a record.  When the service's
    first answer yields a value that is no mapping (a list, a text, a
    number, [null]), the Planner returns [status = success] with it, the
    orchestrator records that stage and then fails on the plan's
    [subtasks]: the run ends in [status = error] with the text of the
    [AttributeError], after one call of the service, with the planner's
    entry as the only new entry of the trace and no file written. *)
Theorem plan_that_is_no_record_aborts_run (self : Orchestrator) (user_query : string)
    (s : State) (text : string) (v : value) (plan_context : list (string * value)) :
  prepare_plan_context self = Ok plan_context ->
  template_readable "prompts/planner.md" s ->
  is_dict (config (planner_agent self)) = true ->
  llm_script s (llm_calls s) = Reply text ->
  extract_json text = Ok v ->
  is_dict v = false ->
  exists s' ts,
    orchestrator_execute self user_query s =
      (Ok (VDict [("status", VStr "error");
                  ("error", VStr (str_exn (no_attribute v "get")));
                  ("execution_id", VStr (clock s (ticks s)))]), s')
    /\ execution_trace s' =
         execution_trace s ++
           [VDict [("agent", VStr "planner"); ("status", VStr "success");
                   ("timestamp", VStr ts)]]
    /\ dict_lookup "planner" (results s') =
         Some (VDict [("status", VStr "success"); ("plan", v); ("task", VStr user_query)])
    /\ llm_calls s' = S (llm_calls s)
    /\ written s' = written s.
Proof.
  intros Hctx Hr Hc Hreply Hv Hd.
  rewrite orchestrator_execute_eq. cbv zeta. unfold pipeline, try_except.
  rewrite Hctx. step_lift.
  match goal with |- context [bind (planner_execute ?a ?q ?c) _ ?st] =>
    rewrite (bind_eq_ok _ _ _ _ _
               (planner_success a q c st text v Hc Hreply Hv
                  (template_readable_same _ s st eq_refl Hr)))
  end.
  flat.
  rewrite (bind_eq_ok _ _ _ _ _ (record_execution_eq _ _ _)). flat.
  match goal with |- context [bind (lift (printed_len ?r ?a ?b)) ?k ?st] =>
    rewrite (bind_eq_raise (lift (printed_len r a b)) k st st (no_attribute v "get"))
      by (destruct v; try discriminate; reflexivity)
  end.
  unfold log_error, bind, now, modify, ret. flat.
  eexists _, _. split; [reflexivity|]. flat.
  split; [reflexivity|]. split; [apply dict_lookup_set_same|]. split; reflexivity.
Qed.

(** ** Records that are no records *)





Lemma firstn_app_cons {A : Type} (n : nat) (good : list A) (bad : A) (rest : list A) :
  List.length good < n ->
  firstn n (good ++ bad :: rest) = good ++ bad :: firstn (n - S (List.length good)) rest.
Proof.
  revert n. induction good as [|x good IH]; intros n Hn; cbn [List.length app] in *.
  - destruct n; [lia|]. cbn [firstn]. do 2 f_equal. lia.
  - destruct n; [lia|]. cbn [firstn]. rewrite IH by lia. reflexivity.
Qed.


Lemma fallback_items_raise (good : list value) (bad : value) (rest : list value) :
  forallb is_dict good = true -> is_dict bad = false ->
  map_outcome evaluator_fallback_item (good ++ bad :: rest) = Raise (no_attribute bad "get").
Proof.
  intros Hgood Hbad. induction good as [|h good IH]; cbn [app map_outcome].
  - destruct bad; try discriminate; reflexivity.
  - cbn [forallb] in Hgood. apply andb_true_iff in Hgood as [Hh Hgood].
    destruct h; try discriminate. rewrite (IH Hgood). reflexivity.
Qed.

(** X19: the Evaluator reads its hypotheses as records, partly outside
    its [try].  When the [hypotheses] entry of its context is no mapping,
    [execute] raises an [AttributeError] before it calls the service.  When
    the service fails and one of the first three hypotheses is no mapping
    (the ones before it being mappings), the fallback raises an
    [AttributeError] inside the [except] block, and [execute] raises it:
    no [partial] result is returned. *)
Theorem evaluator_malformed_hypotheses_raise (self : Agent) (task : string)
    (context : list (string * value)) (s : State) :
  template_readable "prompts/evaluator.md" s ->
  (is_dict (dict_get context "hypotheses" (VDict [])) = false ->
   evaluator_execute self task context s =
     (Raise (no_attribute (dict_get context "hypotheses" (VDict [])) "get"), s))
  /\ (forall hd good bad rest,
        all_fail s ->
        dict_get context "hypotheses" (VDict []) = VDict hd ->
        dict_get hd "hypotheses" (VList []) = VList (good ++ bad :: rest) ->
        List.length good < 3 ->
        forallb is_dict good = true ->
        is_dict bad = false ->
        exists n,
          evaluator_execute self task context s =
            (Raise (no_attribute bad "get"), set_llm_calls n s)).
Proof.
  intros Hr. destruct (open_read_readable _ _ Hr) as [text Ht]. split.
  - intros Hd. unfold evaluator_execute. rewrite (bind_eq_ok _ _ _ _ _ Ht).
    destruct (dict_get context "hypotheses" (VDict [])); try discriminate; reflexivity.
  - intros hd good bad rest Hf Hhd Hhs Hlen Hgood Hbad.
    destruct (think_json_all_fail self (VFloat 0.2) s eq_refl Hf) as (e & n & He & _).
    exists n. unfold evaluator_execute. rewrite (bind_eq_ok _ _ _ _ _ Ht), Hhd.
    cbn [py_get]. rewrite Hhs.
    rewrite (bind_eq_ok (lift (Ok (VList (good ++ bad :: rest)))) _ s s _ eq_refl).
    unfold try_except. rewrite (bind_eq_raise _ _ _ _ _ He).
    unfold evaluator_create_fallback_evaluation. cbn [py_slice_items obind].
    rewrite (firstn_app_cons 3 good bad rest Hlen).
    rewrite (fallback_items_raise good bad _ Hgood Hbad). reflexivity.
Qed.


(** ** The data stage without the generation service *)

Lemma load_result_eq (s : State) (l : DataLoader) (path : string) (raw df : frame) :
  data_loader s = Some l -> dataset_path l = VStr path ->
  path_exists s path = true -> read_csv s path = Ok raw ->
  load_result l raw = Ok df ->
  DataLoader_load s = (Ok df, set_data_loader (Some (with_loader_df l (Some df))) s).
Proof.
  intros Hl Hp He Hr Hres. rewrite (load_eq s l path raw Hl Hp He Hr).
  unfold load_result in Hres. destruct (truthy (sample_mode l)).
  - now rewrite Hres.
  - now injection Hres as <-.
Qed.

Lemma structure_findings_fallback (self : Agent) (summary analysis : value) (s : State) :
  template_readable "prompts/data_agent.md" s -> all_fail s ->
  exists n,
    data_structure_findings self summary analysis s =
      (Ok (VDict [("summary", summary);
                  ("key_segments", analysis);
                  ("trend_observations", strs ["Data loaded successfully"]);
                  ("reasoning", VStr "Basic data analysis completed")]),
       set_llm_calls n s).
Proof.
  intros Hr Hf. destruct (open_read_readable _ _ Hr) as [text Ht].
  destruct (think_json_all_fail self (VFloat 0.2) s eq_refl Hf) as (e & n & He & _).
  exists n. unfold data_structure_findings. rewrite (bind_eq_ok _ _ _ _ _ Ht).
  unfold try_except. now rewrite He.
Qed.

(** X21: the data stage hides a failing generation service.  When the
    dataset loads, the template is readable and the service raises on
    every call, [DataAgent.execute] returns [status = success], not
    [partial], and no [error]: the summary of the loaded frame, the empty
    analysis, the number of loaded rows, and as structured findings the
    template record built from that summary; it logs these findings in its
    history and keeps the frame. *)
Theorem data_stage_hides_service_failure (self : Agent) (task : string)
    (context : list (string * value)) (s : State) (path : string) (raw df : frame) :
  all_fail s ->
  template_readable "prompts/data_agent.md" s ->
  dict_get context "dataset_path" (VStr "data/synthetic_fb_ads_undergarments.csv")
    = VStr path ->
  path_exists s path = true ->
  read_csv s path = Ok raw ->
  load_result
    (new_DataLoader (VStr path) (dict_get context "sample_mode" (VBool false))
       (dict_get context "sample_size" (VInt 100))) raw = Ok df ->
  let findings :=
    VDict [("summary", DataSummary_to_dict df);
           ("key_segments", VDict []);
           ("trend_observations", strs ["Data loaded successfully"]);
           ("reasoning", VStr "Basic data analysis completed")] in
  exists s',
    data_execute self task context s =
      (Ok (VDict [("status", VStr "success");
                  ("data_summary", DataSummary_to_dict df);
                  ("analysis", VDict []);
                  ("structured_findings", findings);
                  ("record_count", VInt (Z.of_nat (List.length df)))]), s')
    /\ agent_df s' = Some df
    /\ (forall s2, data_loader s2 = data_loader s' -> answers_from df s2)
    /\ history_step self task true s s'.
Proof.
  intros Hf Hr Hp He Hcsv Hres. cbv zeta.
  unfold data_execute. rewrite Hp. unfold try_except.
  rewrite (bind_eq_ok (modify _) _ s _ tt eq_refl).
  match goal with |- context [bind DataLoader_load _ ?st] =>
    rewrite (bind_eq_ok _ _ _ _ _
               (load_result_eq st _ path raw df eq_refl eq_refl He Hcsv Hres))
  end.
  flat.
  match goal with |- context [bind (modify ?f) ?k ?st] =>
    rewrite (bind_eq_ok (modify f) k st _ tt eq_refl) end.
  flat.
  match goal with |- context [bind DataLoader_get_summary ?k ?st] =>
    rewrite (bind_eq_ok DataLoader_get_summary k st st (DataSummary_to_dict df))
      by (unfold DataLoader_get_summary;
          now rewrite (bind_eq_ok _ _ _ _ _ (loaded_df_held _ st _ df eq_refl eq_refl)))
  end.
  match goal with |- context [bind (data_perform_analysis ?q) ?k ?st] =>
    rewrite (bind_eq_ok _ k _ _ _ (perform_analysis_loaded q st df eq_refl))
  end.
  match goal with |- context [bind (data_structure_findings ?a ?x ?y) ?k ?st] =>
    destruct (structure_findings_fallback a x y st
                (template_readable_same _ s st eq_refl Hr)
                (all_fail_same s st eq_refl Hf)) as (n & Hfind);
    rewrite (bind_eq_ok _ k _ _ _ Hfind); clear Hfind
  end.
  flat.
  match goal with |- context [bind (log_execution ?a ?t ?x) ?k ?st] =>
    rewrite (bind_eq_ok _ k _ _ _ (history_log_execution a t x st))
  end.
  flat.
  match goal with |- context [bind get_state ?k ?st] =>
    rewrite (bind_eq_ok get_state k st st st eq_refl) end.
  flat. step_lift.
  eexists. split; [reflexivity|]. flat. split; [reflexivity|].
  split.
  - intros s2 E. eapply answers_from_held; [rewrite E; reflexivity|reflexivity].
  - cbn [history_step]. eexists _, _. reflexivity.
Qed.

(** ** An agent whose configuration is no mapping *)



(** ** The template evaluation *)

Lemma fallback_items_echo (l : list value) :
  forallb is_dict l = true ->
  exists evals,
    map_outcome evaluator_fallback_item l = Ok evals
    /\ Forall2 (fun h evaluation =>
         py_get evaluation "hypothesis_id" VNone = py_get h "id" (VStr "h_unknown")
         /\ py_get evaluation "hypothesis_title" VNone = py_get h "title" (VStr "Unknown")
         /\ py_get evaluation "confidence_score" VNone = py_get h "confidence" (VFloat 0.7)
         /\ py_get evaluation "validation_status" VNone = Ok (VStr "PARTIALLY_CONFIRMED"))
         l evals.
Proof.
  induction l as [|h l IH]; cbn [forallb map_outcome]; [eexists; split; [reflexivity|constructor]|].
  intros H. apply andb_true_iff in H as [Hh Hl].
  destruct h as [| | | | | |d|]; try discriminate.
  destruct (IH Hl) as (evals & -> & Hall).
  cbn [evaluator_fallback_item py_get obind]. eexists. split; [reflexivity|].
  constructor; [|exact Hall]. repeat split.
Qed.

(** X23: the template evaluation answers the first three hypotheses, in
    their order, one evaluation each: an evaluation repeats the id, the
    title and the confidence of its hypothesis (or [h_unknown], [Unknown]
    and 0.7 where the hypothesis has none) and gives the status
    [PARTIALLY_CONFIRMED] whatever the confidence is; hypotheses after the
    third are not read. *)
Theorem fallback_evaluation_echoes_hypotheses (hs : list value) :
  forallb is_dict (firstn 3 hs) = true ->
  exists evaluation evals,
    evaluator_create_fallback_evaluation (VList hs) = Ok evaluation
    /\ py_get evaluation "hypothesis_evaluations" VNone = Ok (VList evals)
    /\ Forall2 (fun h evaluation =>
         py_get evaluation "hypothesis_id" VNone = py_get h "id" (VStr "h_unknown")
         /\ py_get evaluation "hypothesis_title" VNone = py_get h "title" (VStr "Unknown")
         /\ py_get evaluation "confidence_score" VNone = py_get h "confidence" (VFloat 0.7)
         /\ py_get evaluation "validation_status" VNone = Ok (VStr "PARTIALLY_CONFIRMED"))
         (firstn 3 hs) evals
    /\ (forall others,
          firstn 3 others = firstn 3 hs ->
          evaluator_create_fallback_evaluation (VList others) = Ok evaluation).
Proof.
  intros H. destruct (fallback_items_echo _ H) as (evals & He & Hall).
  unfold evaluator_create_fallback_evaluation. cbn [py_slice_items obind]. rewrite He.
  cbn [obind]. eexists _, evals. split; [reflexivity|]. split; [reflexivity|].
  split; [exact Hall|].
  intros others E. rewrite E, He. reflexivity.
Qed.

(** ** The entries of the analysis *)

Lemma dict_lookup_set (k k' : string) (v : value) (d : list (string * value)) :
  dict_lookup k' (dict_set k v d) = if String.eqb k' k then Some v else dict_lookup k' d.
Proof.
  destruct (String.eqb k' k) eqn:E.
  - apply String.eqb_eq in E as ->. apply dict_lookup_set_same.
  - now apply dict_lookup_set_other.
Qed.

Lemma analysis_set_ok (k : string) (v : value) (analysis : list (string * value)) :
  analysis_entry_ok k v ->
  (forall k' v', dict_lookup k' analysis = Some v' -> analysis_entry_ok k' v') ->
  forall k' v', dict_lookup k' (dict_set k v analysis) = Some v' -> analysis_entry_ok k' v'.
Proof.
  intros Hv Ha k' v'. rewrite dict_lookup_set.
  destruct (String.eqb_spec k' k) as [->|_]; [now intros [= <-]|apply Ha].
Qed.

Lemma analysis_entry_other (k : string) (v : value) :
  k <> "campaign_performance" -> k <> "roas_timeline" -> k <> "low_ctr_campaigns" ->
  analysis_entry_ok k v.
Proof. intros H1 H2 H3. repeat split; intros; contradiction. Qed.

(** X24: whatever [_perform_analysis] returns, no campaign is analysed
    in it: where it passes its guard the data agent has no frame, and
    [_analyze_campaign_performance] answers the empty mapping for the same
    reason.  Its timeline, when present, is cut to the first ten dates, and
    at most five low-CTR campaigns are listed. *)
Theorem analysis_entries_bounded (requirements : value) (s s' : State) (r : value) :
  data_perform_analysis requirements s = (Ok r, s') ->
  exists analysis,
    r = VDict analysis
    /\ (forall k v, dict_lookup k analysis = Some v -> analysis_entry_ok k v)
    /\ dict_get analysis "campaign_performance" (VDict []) = VDict [].
Proof.
  intros H. unfold data_perform_analysis in H.
  rewrite (bind_eq_ok get_state _ s s s eq_refl) in H.
  destruct (agent_df s) as [df|] eqn:Edf; cbn [negb] in H.
  { injection H as <- _. exists []. repeat split; discriminate. }
  assert (Hgoal : forall analysis,
            (forall k v, dict_lookup k analysis = Some v -> analysis_entry_ok k v) ->
            dict_get analysis "campaign_performance" (VDict []) = VDict []).
  { intros analysis Ha. unfold dict_get.
    destruct (dict_lookup "campaign_performance" analysis) as [v|] eqn:E; [|reflexivity].
    now apply (Ha _ _ E). }
  apply bind_ok in H as (w1 & s1 & [= _ <-] & H).
  apply bind_ok in H as (a1 & s1 & H1 & H).
  assert (Ha1 : forall k v, dict_lookup k a1 = Some v -> analysis_entry_ok k v).
  { destruct w1.
    - apply bind_ok in H1 as (v & s2 & Hv & Hret).
      unfold data_analyze_campaign_performance in Hv.
      rewrite (bind_eq_ok get_state _ s s s eq_refl) in Hv. rewrite Edf in Hv.
      injection Hv as Ev _. injection Hret as Ea _. rewrite <- Ea, <- Ev.
      apply (analysis_set_ok "campaign_performance" (VDict []) []); [|discriminate].
      repeat split; intros; discriminate.
    - injection H1 as <- _. discriminate. }
  apply bind_ok in H as (w2 & s2 & _ & H). apply bind_ok in H as (a2 & s3 & H2 & H).
  assert (Ha2 : forall k v, dict_lookup k a2 = Some v -> analysis_entry_ok k v).
  { destruct w2; [|now injection H2 as <- _].
    apply bind_ok in H2 as (v & ? & _ & [= <- _]).
    apply analysis_set_ok; [apply analysis_entry_other; discriminate|exact Ha1]. }
  apply bind_ok in H as (w3 & s4 & _ & H). apply bind_ok in H as (a3 & s5 & H3 & H).
  assert (Ha3 : forall k v, dict_lookup k a3 = Some v -> analysis_entry_ok k v).
  { destruct w3; [|now injection H3 as <- _].
    apply bind_ok in H3 as (timeline & ? & _ & Hret).
    assert (Ea : a3 = dict_set "roas_timeline" (VList (firstn 10 timeline)) a2)
      by (injection Hret; intros _ E; symmetry; exact E).
    rewrite Ea. apply analysis_set_ok; [|exact Ha2].
    split; [discriminate|split; [|discriminate]].
    intros _. exists (firstn 10 timeline). split; [reflexivity|].
    rewrite length_firstn. lia. }
  apply bind_ok in H as (w4 & s6 & _ & H). apply bind_ok in H as (a4 & s7 & H4 & H).
  assert (Ha4 : forall k v, dict_lookup k a4 = Some v -> analysis_entry_ok k v).
  { destruct w4; [|now injection H4 as <- _].
    apply bind_ok in H4 as (low & ? & _ & Hret).
    assert (Ea : a4 = dict_set "low_ctr_campaigns"
                        (VList (firstn 5 (map low_ctr_to_dict (drop_duplicates low))))
                        (dict_set "low_ctr_count" (VInt (Z.of_nat (List.length low))) a3))
      by (injection Hret; intros _ E; symmetry; exact E).
    rewrite Ea. apply analysis_set_ok.
    - split; [discriminate|split; [discriminate|]].
      intros _. exists (firstn 5 (map low_ctr_to_dict (drop_duplicates low))).
      split; [reflexivity|]. rewrite length_firstn. lia.
    - apply analysis_set_ok; [apply analysis_entry_other; discriminate|exact Ha3]. }
  injection H as <- _. exists a4. split; [reflexivity|]. split; [exact Ha4|now apply Hgoal].
Qed.

(** ** A fenced block inside prose *)

#[local] Open Scope string_scope.

Lemma str_app_assoc (a b c : string) : (a ++ b) ++ c = a ++ b ++ c.
Proof. induction a as [|x a IH]; [reflexivity|]. cbn [append]. now rewrite IH. Qed.

Lemma split_head (c : ascii) (sep s : string) :
  exists rest, split (String c sep) s = first_piece (String c sep) s :: rest.
Proof.
  unfold split, first_piece. destruct s as [|d s]; [cbn; eauto|].
  cbn [String.length split_fuel].
  destruct (str_partition (String c sep) (String d s)) as [[a b]|]; eauto.
Qed.

Lemma split_second (c : ascii) (sep s a b : string) :
  str_partition (String c sep) s = Some (a, b) ->
  exists rest, split (String c sep) s = a :: first_piece (String c sep) b :: rest.
Proof.
  intros E. pose proof (partition_length _ _ _ _ E) as Hlen. cbn [String.length] in Hlen.
  unfold split. destruct (String.length s) as [|n] eqn:Es; [lia|].
  cbn [split_fuel]. rewrite E.
  rewrite (split_fuel_enough c sep n b) by lia.
  destruct (split_head c sep b) as [rest ->]. eauto.
Qed.

Lemma first_piece_cons (sep : string) (c : ascii) (t : string) :
  starts_with sep (String c t) = false ->
  first_piece sep (String c t) = String c (first_piece sep t).
Proof.
  intros H. unfold first_piece. rewrite partition_cons, H.
  destruct (str_partition sep t) as [[a b]|]; reflexivity.
Qed.

Lemma starts_with_refl (s : string) : starts_with s s = true.
Proof. induction s as [|c s IH]; cbn [starts_with]; [reflexivity|]. now rewrite Ascii.eqb_refl. Qed.

Lemma first_piece_prefix (sep s : string) : starts_with (first_piece sep s) s = true.
Proof.
  unfold first_piece. induction s as [|c s IH].
  - cbn [str_partition]. destruct (starts_with sep ""); reflexivity.
  - rewrite partition_cons. destruct (starts_with sep (String c s)); [reflexivity|].
    destruct (str_partition sep s) as [[a b]|]; cbn [starts_with] in *.
    + now rewrite Ascii.eqb_refl, IH.
    + now rewrite Ascii.eqb_refl, starts_with_refl.
Qed.

Lemma starts_with_trans (sep p x : string) :
  starts_with sep p = true -> starts_with p x = true -> starts_with sep x = true.
Proof.
  revert p x. induction sep as [|a sep IH]; intros p x Hp Hx; [reflexivity|].
  destruct p as [|b p]; [discriminate|]. destruct x as [|c x]; [discriminate|].
  cbn [starts_with] in *.
  apply andb_true_iff in Hp as [Hab Hp]. apply andb_true_iff in Hx as [Hbc Hx].
  apply Ascii.eqb_eq in Hab as ->. rewrite Hbc. cbn [andb]. eapply IH; eassumption.
Qed.

(** The labelled fence does not overlap itself: it does not begin inside
    a text that it follows. *)
Lemma label_no_overlap (b x : string) :
  b <> "" -> starts_with "```json" b = false ->
  starts_with "```json" (b ++ "```json" ++ x) = false.
Proof.
  intros Hne H.
  destruct b as [|c0 [|c1 [|c2 [|c3 [|c4 [|c5 [|c6 b]]]]]]]; [contradiction|..];
    cbn [append starts_with] in *;
    try exact H;
    repeat match goal with
           | |- context [Ascii.eqb ?a ?c] => is_var c; destruct (Ascii.eqb a c)
           end;
    reflexivity.
Qed.

Lemma label_partition (before x : string) :
  str_in "```json" before = false ->
  str_partition "```json" (before ++ "```json" ++ x) = Some (before, x).
Proof.
  rewrite str_in_false. induction before as [|c b IH]; intros H.
  - reflexivity.
  - apply partition_none_cons in H as [Hp Hs].
    change (String c b ++ "```json" ++ x) with (String c (b ++ "```json" ++ x)).
    rewrite partition_cons.
    change (String c (b ++ "```json" ++ x)) with (String c b ++ "```json" ++ x).
    rewrite (label_no_overlap (String c b) x) by (discriminate || exact Hp).
    now rewrite (IH Hs).
Qed.

(** The interior of a labelled block: cut at the next labelled fence,
    then at the first fence. *)
Lemma closing_fence (a after : string) :
  str_partition "```" (a ++ "```" ++ after) = Some (a, after) ->
  starts_with "`" after = false ->
  first_piece "```" (first_piece "```json" (a ++ "```" ++ after)) = a.
Proof.
  intros Hq Hafter. induction a as [|c a IH].
  - clear Hq. change ("" ++ "```" ++ after) with ("```" ++ after).
    assert (E : exists u, first_piece "```json" ("```" ++ after) = "```" ++ u
                          \/ first_piece "```json" ("```" ++ after) = "").
    { unfold first_piece.
      change ("```" ++ after) with (String "`" (String "`" (String "`" after))).
      rewrite partition_cons.
      destruct (starts_with "```json" (String "`" (String "`" (String "`" after))));
        [exists ""; now right|].
      rewrite partition_cons.
      assert (E1 : starts_with "```json" (String "`" (String "`" after)) = false).
      { destruct after as [|d after]; [reflexivity|].
        cbn [starts_with] in *. destruct (Ascii.eqb "`" d); [discriminate|reflexivity]. }
      rewrite E1. rewrite partition_cons.
      assert (E2 : starts_with "```json" (String "`" after) = false).
      { destruct after as [|d after]; [reflexivity|].
        cbn [starts_with] in *. destruct (Ascii.eqb "`" d); [discriminate|reflexivity]. }
      rewrite E2.
      destruct (str_partition "```json" after) as [[u v]|]; eexists; left; reflexivity. }
    destruct E as (u & [-> | ->]); reflexivity.
  - change (String c a ++ "```" ++ after) with (String c (a ++ "```" ++ after)) in *.
    rewrite partition_cons in Hq.
    destruct (starts_with "```" (String c (a ++ "```" ++ after))) eqn:Hp; [discriminate|].
    destruct (str_partition "```" (a ++ "```" ++ after)) as [[a' b']|] eqn:E; [|discriminate].
    injection Hq as -> ->. specialize (IH eq_refl).
    assert (Hl : starts_with "```json" (String c (a ++ "```" ++ after)) = false).
    { destruct (starts_with "```json" (String c (a ++ "```" ++ after))) eqn:Hl; [|reflexivity].
      apply (prefix_app_true "```" "json") in Hl. congruence. }
    rewrite (first_piece_cons _ _ _ Hl).
    rewrite first_piece_cons; [now rewrite IH|].
    destruct (starts_with "```"
                (String c (first_piece "```json" (a ++ "```" ++ after)))) eqn:Hs;
      [|reflexivity].
    rewrite <- Hp. symmetry.
    apply (starts_with_trans _ _ _ Hs). cbn [starts_with].
    now rewrite Ascii.eqb_refl, first_piece_prefix.
Qed.

Lemma closing_fence_found (s after : string) :
  str_partition "```" s = None ->
  str_partition "```" ((nl ++ s ++ nl) ++ "```" ++ after) = Some (nl ++ s ++ nl, after).
Proof.
  intros H.
  assert (E : (nl ++ s ++ nl) ++ "```" ++ after
              = String "010" (s ++ String "010" (String "`" (String "`" (String "`" after))))).
  { change (nl ++ s ++ nl) with (String "010" (s ++ nl)). cbn [append]. f_equal.
    clear. induction s as [|c s IH]; [reflexivity|]. cbn [append]. now rewrite IH. }
  rewrite E. rewrite partition_cons.
  match goal with
  | |- context [starts_with ?a ?b] => change (starts_with a b) with false
  end.
  cbv iota.
  rewrite (partition_app_other "`" "010" "```" s _ backtick_fence newline_not_backtick H).
  reflexivity.
Qed.

#[local] Open Scope list_scope.

(** X25: a block labelled [json] is found inside prose.  When the answer
    of the service does not parse as a whole and holds, after a text
    without a labelled fence, the labelled fence, a line break, a text
    without fence, a line break and the closing fence, then the extractor
    parses exactly that text, stripped, whatever follows the closing fence
    (more prose, more blocks), as long as it does not begin with a
    backtick. *)
Theorem extract_json_block_in_prose (before text after : string) :
  is_decode_error
    (json_loads (before ++ fenced_labeled text ++ after)%string) = true ->
  str_in "```json" before = false ->
  str_in "```" text = false ->
  starts_with "`" after = false ->
  extract_json (before ++ fenced_labeled text ++ after)%string = loads (strip text)
  /\ (forall r, json_loads (strip text) = Loaded r ->
        extract_json (before ++ fenced_labeled text ++ after)%string = Ok r).
Proof.
  intros Hd Hb Ht Ha. apply str_in_false in Ht.
  assert (E : (before ++ fenced_labeled text ++ after
               = before ++ "```json" ++ ((nl ++ text ++ nl) ++ "```" ++ after))%string).
  { unfold fenced_labeled. now rewrite !str_app_assoc. }
  assert (Hrun : extract_json (before ++ fenced_labeled text ++ after)%string
                 = loads (strip text)).
  { rewrite (extract_json_decode_error _ Hd). rewrite E.
    pose proof (label_partition before ((nl ++ text ++ nl) ++ "```" ++ after) Hb) as Hp.
    unfold str_in. rewrite Hp.
    destruct (split_second _ _ _ _ _ Hp) as [rest ->]. cbn [subscript nth_error obind].
    destruct (split_head "`" "``"
                (first_piece "```json" ((nl ++ text ++ nl) ++ "```" ++ after)))
      as [rest' ->].
    cbn [subscript nth_error obind].
    rewrite (closing_fence _ _ (closing_fence_found text after Ht) Ha).
    now rewrite strip_newlines. }
  split; [exact Hrun|]. intros r Hr. rewrite Hrun. now apply loads_loaded.
Qed.

(** ** The error text of a partial result *)

Lemma think_json_failure (self : Agent) (temperature : value) (s : State) (msg : string) :
  truthy temperature = true -> is_dict (config self) = true ->
  llm_script s (llm_calls s) = Failure msg ->
  think_json self temperature s =
    (Raise (Exn RuntimeError ("LLM generation failed: " ++ msg)),
     set_llm_calls (S (llm_calls s)) s).
Proof.
  intros Ht Hc Hreply. unfold think_json. rewrite Ht.
  destruct (config self); try discriminate. cbn [py_get].
  unfold bind, ret, lift, generate_json, generate, bind. now rewrite Hreply.
Qed.

Lemma think_json_refused (self : Agent) (temperature : value) (s : State)
    (text : string) (e : exn) :
  truthy temperature = true -> is_dict (config self) = true ->
  llm_script s (llm_calls s) = Reply text -> extract_json text = Raise e ->
  think_json self temperature s = (Raise e, set_llm_calls (S (llm_calls s)) s).
Proof.
  intros Ht Hc Hreply He. unfold think_json. rewrite Ht.
  destruct (config self); try discriminate. cbn [py_get].
  unfold bind, ret, lift, generate_json, generate, bind. rewrite Hreply.
  unfold lift. now rewrite He.
Qed.

(** X26: what the [error] of a [partial] result says.  When the call of
    the generation service raises with a message, the Planner and the
    Insight stage return their fallback with the error text
    [LLM generation failed: ] followed by that message; when the service
    answers a text that the extractor refuses, they return their fallback
    with the text of the extractor's exception.  In both cases one call
    has been made and nothing else has changed; the answer of the service
    is not kept. *)
Theorem partial_result_error_text (self : Agent) (task : string)
    (context : list (string * value)) (s : State) :
  is_dict (config self) = true ->
  template_readable "prompts/planner.md" s ->
  template_readable "prompts/insight_agent.md" s ->
  let partial payload fallback text :=
    (Ok (VDict [("status", VStr "partial"); (payload, fallback); ("error", VStr text)]),
     set_llm_calls (S (llm_calls s)) s) in
  (forall msg, llm_script s (llm_calls s) = Failure msg ->
     planner_execute self task context s =
       partial "plan" (planner_create_fallback_plan task context)
         ("LLM generation failed: " ++ msg)%string
     /\ insight_execute self task context s =
          partial "hypotheses" (insight_create_fallback_hypotheses task context)
            ("LLM generation failed: " ++ msg)%string)
  /\ (forall text e, llm_script s (llm_calls s) = Reply text -> extract_json text = Raise e ->
        planner_execute self task context s =
          partial "plan" (planner_create_fallback_plan task context) (str_exn e)
        /\ insight_execute self task context s =
             partial "hypotheses" (insight_create_fallback_hypotheses task context)
               (str_exn e)).
Proof.
  intros Hc Hp Hi. cbv zeta.
  destruct (open_read_readable _ _ Hp) as [tp Htp].
  destruct (open_read_readable _ _ Hi) as [ti Hti].
  split.
  - intros msg Hreply. split.
    + unfold planner_execute. rewrite (bind_eq_ok _ _ _ _ _ Htp). unfold try_except.
      now rewrite (bind_eq_raise _ _ _ _ _
                     (think_json_failure self (VFloat 0.3) s msg eq_refl Hc Hreply)).
    + unfold insight_execute. rewrite (bind_eq_ok _ _ _ _ _ Hti). unfold try_except.
      now rewrite (bind_eq_raise _ _ _ _ _
                     (think_json_failure self (VFloat 0.7) s msg eq_refl Hc Hreply)).
  - intros text e Hreply He. split.
    + unfold planner_execute. rewrite (bind_eq_ok _ _ _ _ _ Htp). unfold try_except.
      now rewrite (bind_eq_raise _ _ _ _ _
                     (think_json_refused self (VFloat 0.3) s text e eq_refl Hc Hreply He)).
    + unfold insight_execute. rewrite (bind_eq_ok _ _ _ _ _ Hti). unfold try_except.
      now rewrite (bind_eq_raise _ _ _ _ _
                     (think_json_refused self (VFloat 0.7) s text e eq_refl Hc Hreply He)).
Qed.

(** ** The calls of a run *)

Lemma calls_bind_post {A B : Type} (k1 k2 : nat) (post : A -> Prop) (m : M A)
    (k : A -> M B) :
  calls_within k1 m ->
  (forall s a s', m s = (Ok a, s') -> post a) ->
  (forall a, post a -> calls_within k2 (k a)) ->
  calls_within (k1 + k2) (bind m k).
Proof.
  intros Hm Hpost Hk s r s'' H. apply bind_inv in H as [(a & s' & H1 & H2)|(e & H1 & _)].
  - specialize (Hm _ _ _ H1). specialize (Hk a (Hpost _ _ _ H1) _ _ _ H2). lia.
  - specialize (Hm _ _ _ H1). lia.
Qed.

Lemma calls_planner (self : Agent) (task : string) (context : list (string * value)) :
  calls_within 1 (planner_execute self task context).
Proof.
  unfold planner_execute.
  apply (calls_bind 0 1); [apply calls_none, frame_open_read|intros _].
  apply (calls_try_except 1 0); [|intros e; apply calls_none; frame].
  apply (calls_bind 1 0); [apply calls_think_json|intros v].
  apply calls_none. apply preserves_bind; [|intros _; apply preserves_ret].
  now apply preserves_log_execution.
Qed.

Lemma calls_insight (self : Agent) (task : string) (context : list (string * value)) :
  calls_within 1 (insight_execute self task context).
Proof.
  unfold insight_execute.
  apply (calls_bind 0 1); [apply calls_none, frame_open_read|intros _].
  apply (calls_try_except 1 0); [|intros e; apply calls_none; frame].
  apply (calls_bind 1 0); [apply calls_think_json|intros v].
  apply calls_none. apply preserves_bind; [|intros _; apply preserves_ret].
  now apply preserves_log_execution.
Qed.

Lemma calls_evaluator (self : Agent) (task : string) (context : list (string * value)) :
  calls_within 1 (evaluator_execute self task context).
Proof.
  unfold evaluator_execute.
  apply (calls_bind 0 1); [apply calls_none, frame_open_read|intros _].
  apply (calls_bind 0 1); [apply calls_none, preserves_lift|intros hs].
  apply (calls_try_except 1 0); [|intros e; apply calls_none; frame].
  apply (calls_bind 1 0); [apply calls_think_json|intros v].
  apply calls_none. apply preserves_bind; [|intros _; apply preserves_ret].
  now apply preserves_log_execution.
Qed.

Lemma calls_data (self : Agent) (task : string) (context : list (string * value)) :
  calls_within 1 (data_execute self task context).
Proof.
  unfold data_execute.
  apply (calls_try_except 1 0); [|intros e; apply calls_none, preserves_ret].
  apply (calls_bind 0 1); [apply calls_none, preserves_modify; reflexivity|intros _].
  apply (calls_bind 0 1); [apply calls_none, preserves_load; reflexivity|intros df].
  apply (calls_bind 0 1); [apply calls_none, preserves_modify; reflexivity|intros _].
  apply (calls_bind 0 1); [apply calls_none, preserves_get_summary; reflexivity|intros sm].
  apply (calls_bind 0 1);
    [apply calls_none, preserves_perform_analysis; reflexivity|intros analysis].
  apply (calls_bind 1 0).
  - unfold data_structure_findings.
    apply (calls_bind 0 1); [apply calls_none, frame_open_read|intros _].
    apply (calls_try_except 1 0); [apply calls_think_json|intros e; apply calls_none; frame].
  - intros findings. apply calls_none.
    apply preserves_bind; [now apply preserves_log_execution|intros _].
    apply preserves_bind; [apply preserves_get_state|intros st].
    apply preserves_bind; [apply preserves_lift|intros n]. apply preserves_ret.
Qed.

Lemma data_result_no_campaigns (self : Agent) (task : string)
    (context : list (string * value)) (s s' : State) (r : value) :
  data_execute self task context s = (Ok r, s') -> no_campaigns r.
Proof.
  intros H ctx Hctx.
  apply data_execute_analysis in H as [(sm & fd & n & [= ->])|(e & [= ->])];
    cbn in Hctx; now injection Hctx as <-.
Qed.

Lemma calls_creative_idle (self : Agent) (task : string)
    (context : list (string * value)) :
  dict_get context "analysis" (VDict []) = VDict [] ->
  calls_within 0 (creative_execute self task context).
Proof.
  intros Hc. apply calls_none. intros s r s'. unfold creative_execute. rewrite Hc.
  unfold bind, open_read, lift. cbn [py_get dict_get dict_lookup truthy negb].
  destruct (read_text s "prompts/creative_generator.md"); now intros [= _ <-].
Qed.

Lemma calls_record_execution (agent_name : string) (result : value) :
  calls_within 0 (record_execution agent_name result).
Proof. apply calls_none. now apply preserves_record_execution. Qed.

Lemma calls_lift {A : Type} (o : outcome A) : calls_within 0 (lift o).
Proof. apply calls_none, preserves_lift. Qed.

Lemma calls_pipeline (self : Orchestrator) (user_query execution_id : string) :
  calls_within 4 (pipeline self user_query execution_id).
Proof.
  unfold pipeline.
  apply (calls_bind 0 4); [apply calls_lift|intros plan_context].
  apply (calls_bind 1 3); [apply calls_planner|intros plan_result].
  apply (calls_bind 0 3); [apply calls_record_execution|intros _].
  apply (calls_bind 0 3); [apply calls_lift|intros _].
  apply (calls_bind 0 3); [apply calls_lift|intros data_context].
  apply (calls_bind_post 1 2 no_campaigns);
    [apply calls_data|intros s a s'; apply data_result_no_campaigns|].
  intros data_result Hdata.
  apply (calls_bind 0 2); [apply calls_record_execution|intros _].
  apply (calls_bind 0 2); [apply calls_lift|intros _].
  apply (calls_bind 0 2); [apply calls_lift|intros insight_context].
  apply (calls_bind 1 1); [apply calls_insight|intros insight_result].
  apply (calls_bind 0 1); [apply calls_record_execution|intros _].
  apply (calls_bind 0 1); [apply calls_lift|intros _].
  apply (calls_bind 0 1); [apply calls_lift|intros eval_context].
  apply (calls_bind 1 0); [apply calls_evaluator|intros eval_result].
  apply (calls_bind 0 0); [apply calls_record_execution|intros _].
  apply (calls_bind_post 0 0
           (fun ctx => dict_get ctx "analysis" (VDict []) = VDict []));
    [apply calls_lift|intros s a s' [= H _]; now apply Hdata|].
  intros creative_context Hctx.
  apply (calls_bind 0 0); [now apply calls_creative_idle|intros creative_result].
  apply (calls_bind 0 0); [apply calls_record_execution|intros _].
  apply (calls_bind 0 0); [apply calls_lift|intros _].
  apply calls_none. now apply preserves_compile_report.
Qed.

(** X27: a run calls the generation service at most four times: once
    at most for the Planner, the data agent, the Insight stage and the
    Evaluator, and never for the Creative stage, which gets no campaign
    from the data stage. *)
Theorem run_calls_service_at_most_four_times (self : Orchestrator) (user_query : string)
    (s s' : State) (r : outcome value) :
  orchestrator_execute self user_query s = (r, s') ->
  llm_calls s <= llm_calls s' <= llm_calls s + 4.
Proof.
  rewrite orchestrator_execute_eq. cbv zeta. intros H.
  apply try_except_inv in H as [(a & H & _)|(e & s1 & H & Hh)].
  - apply calls_pipeline in H. cbn [llm_calls set_logged set_ticks] in H. exact H.
  - apply calls_pipeline in H. cbn [llm_calls set_logged set_ticks] in H.
    unfold log_error, bind, now, modify, ret in Hh. injection Hh as _ <-.
    cbn [llm_calls set_logged set_ticks]. exact H.
Qed.

End Program.

(** * Concrete runs *)

(** The reference reader on the texts used below. *)
Example reference_loads_examples :
  reference_loads record_text = Loaded (VDict [("a", VInt 1)])
  /\ reference_loads fence_record_text = Loaded (VDict [("a", VStr "```")])
  /\ reference_loads "not structured at all" = DecodeError "Expecting value"
  /\ reference_loads (fenced_labeled record_text) = DecodeError "Expecting value"
  /\ reference_loads " [1, -2, true, null] " = Loaded (VList [VInt 1; VInt (-2); VBool true; VNone])
  /\ reference_loads "[0, 10]" = Loaded (VList [VInt 0; VInt 10])
  /\ is_decode_error (reference_loads "007") = true.
Proof. repeat split; vm_compute; reflexivity. Qed.

Example default_orchestrator_init :
  init_agents (VDict []) = Ok default_orchestrator.
Proof. reflexivity. Qed.

(** A labelled block is taken even when an unlabelled one stands before it. *)
Example extract_json_prefers_label :
  extract_json reference_loads
    (fenced_unlabeled "[1]" ++ nl ++ fenced_labeled "[2]") = Ok (VList [VInt 2]).
Proof. vm_compute. reflexivity. Qed.

(** ** C5 *)

(** C5, witness: the record [{"a": 1}] is recovered from its three wrappings. *)
Lemma extract_json_wrappings_witness :
  extract_json reference_loads record_text = Ok (VDict [("a", VInt 1)])
  /\ extract_json reference_loads (fenced_labeled record_text) = Ok (VDict [("a", VInt 1)])
  /\ extract_json reference_loads (fenced_unlabeled record_text) = Ok (VDict [("a", VInt 1)]).
Proof.
  destruct (extract_json_wrappings reference_loads record_text (VDict [("a", VInt 1)]))
    as (H1 & H2 & H3 & _); try (vm_compute; reflexivity).
  repeat split; assumption.
Defined.

(** C5, counterexample: the record [{"a": "```"}] parses from its bare text
    and from neither fenced wrapping: the fence inside the text ends the
    block early. *)
Lemma extract_json_fence_in_record :
  reference_loads fence_record_text = Loaded (VDict [("a", VStr "```")])
  /\ extract_json reference_loads fence_record_text = Ok (VDict [("a", VStr "```")])
  /\ (exists msg, extract_json reference_loads (fenced_labeled fence_record_text)
                  = Raise (Exn JSONDecodeError msg))
  /\ (exists msg, extract_json reference_loads (fenced_unlabeled fence_record_text)
                  = Raise (Exn JSONDecodeError msg)).
Proof.
  repeat split; try (vm_compute; reflexivity); eexists; vm_compute; reflexivity.
Qed.

(** ** C6 *)

(** C6, witness: ["not structured at all"] is refused with its own text as
    the prefix, and inside a fenced block with the decode error of the
    library. *)
Lemma extract_json_failure_witness :
  extract_json reference_loads "not structured at all" =
    Raise (Exn ValueError "Could not parse JSON from response: not structured at all")
  /\ extract_json reference_loads (fenced_labeled "not structured at all") =
       Raise (Exn JSONDecodeError "Expecting value")
  /\ extract_json reference_loads (fenced_unlabeled "not structured at all") =
       Raise (Exn JSONDecodeError "Expecting value").
Proof.
  destruct (extract_json_failure reference_loads "not structured at all" eq_refl eq_refl) as ((H & _) & Hfenced & _).
  destruct (Hfenced "Expecting value" eq_refl) as (Hl & Hu).
  split; [exact H|]. split; [exact (Hl eq_refl)|exact (Hu eq_refl)].
Defined.

(** A fenced block of prose yields no record by any of the three
    strategies, and is refused with the decode error of the interior,
    which holds no prefix of the input. *)
Example extract_json_fenced_prose :
  is_decode_error (reference_loads fenced_prose) = true
  /\ is_decode_error (reference_loads (strip (nl ++ "oops" ++ nl))) = true
  /\ exists e,
       extract_json reference_loads fenced_prose = Raise e
       /\ exn_cls e = JSONDecodeError
       /\ e <> Exn ValueError
                 ("Could not parse JSON from response: " ++ str_take 200 fenced_prose)
       /\ str_in (str_take 200 fenced_prose) (str_exn e) = false.
Proof.
  split; [vm_compute; reflexivity|]. split; [vm_compute; reflexivity|].
  eexists. split; [vm_compute; reflexivity|].
  split; [reflexivity|]. split; [discriminate|]. vm_compute. reflexivity.
Qed.

(** An exception of [json.loads] that is no decode error leaves the
    extractor as it is, fences or not. *)
Example extract_json_recursion_error :
  let deep := Exn RecursionError "maximum recursion depth exceeded" in
  extract_json (fun _ => Failed deep) (fenced_labeled record_text) = Raise deep.
Proof. reflexivity. Qed.

(** ** C8 *)

(** A row without a date is in no entry of the timeline, and sorts last. *)
Example roas_timeline_skips_undated :
  daily_roas (undated_row :: same_day_rows) = daily_roas same_day_rows
  /\ sort_values_date (undated_row :: same_day_rows) = same_day_rows ++ [undated_row]
  /\ date_min (undated_row :: same_day_rows) = Some 7%Z.
Proof. repeat split; vm_compute; reflexivity. Qed.

(** Impressions that add up to [2^63] wrap around to [-2^63], and the
    click-through-rate of the date is computed from the wrapped sum. *)
Example roas_timeline_wraps :
  map day_impressions (daily_roas overflow_rows) = [(- 2 ^ 63)%Z]
  /\ map day_ctr (daily_roas overflow_rows)
     = [PrimFloat.div 30 (PrimFloat.opp 0x1p63)].
Proof. split; vm_compute; reflexivity. Qed.

(** ** C1 *)

Lemma offline_dataset_missing :
  dataset_missing default_orchestrator offline_state
    "data/synthetic_fb_ads_undergarments.csv"
    [VStr "reports/insights.json"; VStr "reports/creatives.json"; VStr "reports/report.md"].
Proof.
  split.
  - exists [], []. repeat split.
  - reflexivity.
  - exists [], [], "logs", "reports/insights.json". repeat split.
  - reflexivity.
  - intros n. eexists. reflexivity.
  - repeat split; eexists; reflexivity.
Defined.

(** C1, witness: with the default configuration and no dataset on disk the
    run ends in [status = success] and the three files are written. *)
Lemma missing_dataset_run_witness :
  exists report s',
    orchestrator_execute reference_loads default_orchestrator example_query offline_state
      = (Ok (VDict report), s')
    /\ dict_get report "status" VNone = VStr "success"
    /\ map fst (written s') =
         [VStr "reports/insights.json"; VStr "reports/creatives.json";
          VStr "reports/report.md"].
Proof.
  destruct (missing_dataset_run reference_loads default_orchestrator example_query
              offline_state _ _ offline_dataset_missing)
    as (_ & report & s' & new & Hrun & Hstatus & _ & _ & _ & Hwritten & _).
  exists report, s'. repeat split; assumption.
Defined.

(** C1, counterexample: the dataset path does not resolve, and the
    orchestrator returns [status = success] after all five stages, with the
    report compiled and its three files written. *)
Lemma missing_dataset_reports_success :
  let run := orchestrator_execute reference_loads default_orchestrator example_query
               offline_state in
  path_exists offline_state "data/synthetic_fb_ads_undergarments.csv" = false
  /\ (exists report, fst run = Ok (VDict report)
                     /\ dict_get report "status" VNone = VStr "success")
  /\ map status_of (execution_trace (snd run)) =
       [Some "partial"; Some "error"; Some "partial"; Some "partial"; Some "info"]
  /\ map fst (written (snd run)) =
       [VStr "reports/insights.json"; VStr "reports/creatives.json";
        VStr "reports/report.md"].
Proof.
  cbv zeta. split; [reflexivity|]. split; [|split; vm_compute; reflexivity].
  eexists. split; vm_compute; reflexivity.
Qed.

(** ** C2 *)

Lemma offline_all_fail : all_fail offline_state.
Proof. intros n. eexists. reflexivity. Defined.



(** ** C3 *)

(** C3, counterexample: in a run over a dataset of three rows the Creative
    stage returns the status [info], which is none of the three statuses,
    and the analysis that the Load&Analyze stage hands on is empty. *)
Lemma pipeline_info_status :
  let run := orchestrator_execute reference_loads default_orchestrator example_query
               (offline_state_with ctr_rows) in
  exists creative_result data_result,
    dict_lookup "creative_generator" (results (snd run)) = Some creative_result
    /\ status_of creative_result = Some "info"
    /\ ~ In "info" spec_statuses
    /\ dict_lookup "data_agent" (results (snd run)) = Some data_result
    /\ status_of data_result = Some "success"
    /\ py_get data_result "analysis" VNone = Ok (VDict []).
Proof.
  cbv zeta. eexists _, _.
  split; [vm_compute; reflexivity|]. split; [reflexivity|].
  split; [intros [H|[H|[H|[]]]]; discriminate|].
  split; [vm_compute; reflexivity|]. split; reflexivity.
Qed.

(** ** C10 *)

(** C10, witness: of five campaigns the first three get a recommendation;
    with the service down these are their three template records. *)
Lemma creative_first_three_witness :
  let run := creative_execute reference_loads example_agent example_query
               (creative_context five_campaigns) offline_state in
  exists recs s1,
    fst run = Ok (VDict [("status", VStr "success");
                         ("recommendations", VList recs);
                         ("count", VInt 3)])
    /\ recommended reference_loads example_agent (firstn 3 five_campaigns)
         offline_state recs s1
    /\ map Ok recs = map creative_create_fallback_creative (firstn 3 five_campaigns).
Proof.
  cbv zeta.
  destruct (creative_first_three reference_loads example_agent example_query
              (creative_context five_campaigns) offline_state
              (snd (creative_execute reference_loads example_agent example_query
                      (creative_context five_campaigns) offline_state))
              (match fst (creative_execute reference_loads example_agent example_query
                            (creative_context five_campaigns) offline_state) with
               | Ok r => r
               | Raise _ => VNone
               end))
    as (recs & Hget & _ & _ & Hlist & _); [vm_compute; reflexivity|].
  destruct (Hlist five_campaigns eq_refl) as (_ & _ & s1 & Hrec & _ & _).
  exists recs, s1.
  vm_compute in Hget. injection Hget as <-.
  split; [vm_compute; reflexivity|]. split; [exact Hrec|]. vm_compute. reflexivity.
Defined.

(** * Concrete runs of the further properties *)

(** ** The configuration *)

(** X1, witness: [model.name] is found under the section [model]. *)
Lemma Config_get_descends_witness :
  Config_get example_config "model.name" VNone = VStr "gemini-2.0-flash"
  /\ Config_get example_config "model" VNone =
       VDict [("name", VStr "gemini-2.0-flash"); ("api_key_env", VStr "GOOGLE_API_KEY")].
Proof.
  destruct (Config_get_descends example_config "model" "name" VNone eq_refl)
    as (H1 & H2 & _).
  split; [exact H2|exact H1].
Defined.

(** X2, witness: the key [model.name] of a flat mapping is not found by
    [get]. *)
Lemma Config_get_dotted_key_unreachable_witness :
  Config_get (VDict flat_config) "model.name" (VStr "none") = VStr "none"
  /\ Config_getitem (VDict flat_config) "model.name" = Item (VStr "gemini-2.0-flash").
Proof.
  assert (Hflat : Forall (fun kv : string * value => is_dict (snd kv) = false) flat_config)
    by (repeat constructor).
  destruct (Config_get_dotted_key_unreachable flat_config "model.name" (VStr "none")
              Hflat eq_refl) as [H1 H2].
  split; [exact H1|exact (H2 _ eq_refl)].
Defined.

(** X3, witness: the configuration loaded from an empty file. *)
Lemma config_not_a_mapping_witness :
  Config_get VNone "model.name" (VStr "gemini-2.0-flash") = VStr "gemini-2.0-flash"
  /\ init_agents VNone = Raise (no_attribute VNone "get").
Proof.
  destruct (config_not_a_mapping VNone eq_refl) as (H1 & _ & H3).
  split; [apply H1|exact H3].
Defined.

(** The configured name of the variable is taken as the key when the
    variable is not set; and the exception of the library for a model name
    it refuses leaves the constructor. *)
Example api_key_is_the_variable_name :
  (exists client,
     orchestrator_llm_client (fun _ => Ok tt) (fun _ => Ok tt) (fun _ => None) example_config
       = Ok client
     /\ api_key client = VStr "GOOGLE_API_KEY")
  /\ orchestrator_llm_client (fun _ => Ok tt)
       (fun model_name => Raise (Exn TypeError "model name"))
       (fun _ => Some "key") example_config
     = Raise (Exn TypeError "model name").
Proof. split; [eexists; split; reflexivity|reflexivity]. Qed.

(** ** The dataset *)

(** X5, witness: three rows, latest first, are loaded earliest first. *)
Lemma load_sorts_by_date_witness :
  exists df,
    fst (DataLoader_load (loader_state (example_loader (VBool false) (VInt 100)))) = Ok df
    /\ Permutation unsorted_rows df
    /\ StronglySorted by_date df.
Proof.
  destruct (load_sorts_by_date (loader_state (example_loader (VBool false) (VInt 100)))
              (example_loader (VBool false) (VInt 100))
              "data/synthetic_fb_ads_undergarments.csv" unsorted_rows
              eq_refl eq_refl eq_refl eq_refl eq_refl) as (df & Hload & Hperm & Hsorted).
  exists df. rewrite Hload. repeat split; assumption.
Defined.

(** X6, witness: a sample of two of the three rows. *)
Lemma load_sample_is_earliest_witness :
  exists df rest,
    fst (DataLoader_load (loader_state (example_loader (VBool true) (VInt 2)))) = Ok df
    /\ List.length df = 2
    /\ Permutation unsorted_rows (df ++ rest)
    /\ forall a b, In a df -> In b rest -> by_date a b.
Proof.
  destruct (load_sample_is_earliest (loader_state (example_loader (VBool true) (VInt 2)))
              (example_loader (VBool true) (VInt 2))
              "data/synthetic_fb_ads_undergarments.csv" unsorted_rows 2
              eq_refl eq_refl eq_refl eq_refl eq_refl eq_refl ltac:(lia))
    as (df & rest & Hload & Hperm & Hlen & _ & Hle).
  exists df, rest. rewrite Hload. repeat split; assumption.
Defined.

(** ** The stages *)

(** X12, witness: the service answers [[1, 2]], and the Planner returns
    that list as its plan. *)
Lemma reasoning_stage_success_witness :
  exists s',
    planner_execute reference_loads example_agent example_query [] (online_state "[1, 2]")
      = (Ok (VDict [("status", VStr "success");
                    ("plan", VList [VInt 1; VInt 2]);
                    ("task", VStr example_query)]), s')
    /\ llm_calls s' = 1
    /\ List.length (execution_history s') = 1.
Proof.
  destruct (reasoning_stage_success reference_loads example_agent example_query []
              (online_state "[1, 2]") "[1, 2]" (VList [VInt 1; VInt 2])
              eq_refl eq_refl eq_refl) as (Hplanner & _).
  eexists. split; [apply Hplanner; eexists; reflexivity|]. split; reflexivity.
Defined.

(** X26, witness: the service is down, and the error of the Planner's
    partial result says so. *)
Lemma partial_result_error_text_witness :
  fst (planner_execute reference_loads example_agent example_query [] offline_state)
  = Ok (VDict [("status", VStr "partial");
               ("plan", planner_create_fallback_plan example_query []);
               ("error", VStr "LLM generation failed: 503 Service Unavailable")]).
Proof.
  destruct (partial_result_error_text reference_loads example_agent example_query []
              offline_state eq_refl
              (ex_intro _ _ eq_refl) (ex_intro _ _ eq_refl)) as (Hfail & _).
  destruct (Hfail _ eq_refl) as [Hplanner _]. now rewrite Hplanner.
Defined.



(** X19, witness: hypotheses that are a list, and a hypothesis that is a
    text. *)
Lemma evaluator_malformed_hypotheses_raise_witness :
  evaluator_execute reference_loads example_agent example_query
    [("hypotheses", VList [])] offline_state
  = (Raise (no_attribute (VList []) "get"), offline_state)
  /\ exists n,
       evaluator_execute reference_loads example_agent example_query
         [("hypotheses", VDict [("hypotheses", VList [VStr "Audience fatigue"])])]
         offline_state
       = (Raise (no_attribute (VStr "Audience fatigue") "get"),
          set_llm_calls n offline_state).
Proof.
  split.
  - destruct (evaluator_malformed_hypotheses_raise reference_loads example_agent
                example_query [("hypotheses", VList [])] offline_state
                (ex_intro _ _ eq_refl)) as (H & _).
    exact (H eq_refl).
  - destruct (evaluator_malformed_hypotheses_raise reference_loads example_agent
                example_query
                [("hypotheses", VDict [("hypotheses", VList [VStr "Audience fatigue"])])]
                offline_state (ex_intro _ _ eq_refl)) as (_ & H).
    exact (H _ [] (VStr "Audience fatigue") [] offline_all_fail eq_refl eq_refl
             ltac:(cbn; lia) eq_refl eq_refl).
Defined.

(** X23, witness: the template evaluation of the four template
    hypotheses. *)
Lemma fallback_evaluation_echoes_hypotheses_witness :
  exists evaluation evals,
    evaluator_create_fallback_evaluation
      (dict_get
         match insight_create_fallback_hypotheses example_query [] with
         | VDict d => d
         | _ => []
         end "hypotheses" (VList [])) = Ok evaluation
    /\ py_get evaluation "hypothesis_evaluations" VNone = Ok (VList evals)
    /\ List.length evals = 3.
Proof.
  destruct (fallback_evaluation_echoes_hypotheses
              match dict_get
                      match insight_create_fallback_hypotheses example_query [] with
                      | VDict d => d
                      | _ => []
                      end "hypotheses" (VList []) with
              | VList hs => hs
              | _ => []
              end eq_refl) as (evaluation & evals & Hev & Hget & Hall & _).
  exists evaluation, evals. split; [exact Hev|]. split; [exact Hget|].
  apply Forall2_length in Hall. now rewrite <- Hall.
Defined.

(** ** The data agent *)

(** X21, witness: three rows on disk, the service down. *)
Lemma data_stage_hides_service_failure_witness :
  exists s' findings,
    data_execute reference_loads example_agent example_query [] (offline_state_with ctr_rows)
    = (Ok (VDict [("status", VStr "success");
                  ("data_summary", DataSummary_to_dict ctr_rows);
                  ("analysis", VDict []);
                  ("structured_findings", findings);
                  ("record_count", VInt 3)]), s')
    /\ agent_df s' = Some ctr_rows.
Proof.
  destruct (data_stage_hides_service_failure reference_loads example_agent example_query []
              (offline_state_with ctr_rows) "data/synthetic_fb_ads_undergarments.csv"
              ctr_rows ctr_rows
              ltac:(intros n; eexists; reflexivity) (ex_intro _ _ eq_refl)
              eq_refl eq_refl eq_refl eq_refl)
    as (s' & Hrun & Hdf & _).
  eexists s', _. split; [exact Hrun|exact Hdf].
Defined.

(** X24, witness: the analysis of a data agent that has no frame, from a
    loader that holds three rows. *)
Lemma analysis_entries_bounded_witness :
  let st := loader_state (with_loader_df (example_loader (VBool false) (VInt 100))
                            (Some ctr_rows)) in
  let requirements := strs ["campaign_performance"; "roas_timeline"; "low_ctr_campaigns"] in
  exists analysis,
    fst (data_perform_analysis requirements st) = Ok (VDict analysis)
    /\ dict_get analysis "campaign_performance" VNone = VDict []
    /\ (forall k v, dict_lookup k analysis = Some v -> analysis_entry_ok k v).
Proof.
  cbv zeta.
  destruct (analysis_entries_bounded
              (strs ["campaign_performance"; "roas_timeline"; "low_ctr_campaigns"])
              (loader_state (with_loader_df (example_loader (VBool false) (VInt 100))
                               (Some ctr_rows)))
              _ _ (surjective_pairing _))
    as (analysis & Hr & Hok & _).
  exists analysis. split; [now rewrite <- Hr|]. split; [|exact Hok].
  vm_compute in Hr. injection Hr as <-. reflexivity.
Defined.

(** ** The extractor *)

(** X25, witness: the record [{"a": 1}] in a labelled block between two
    lines of prose. *)
Lemma extract_json_block_in_prose_witness :
  extract_json reference_loads (prose_before ++ fenced_labeled record_text ++ prose_after)
  = Ok (VDict [("a", VInt 1)]).
Proof.
  destruct (extract_json_block_in_prose reference_loads prose_before record_text prose_after
              eq_refl eq_refl eq_refl eq_refl) as (_ & H).
  apply H. reflexivity.
Defined.

(** ** Runs *)

(** X14, witness: the run on a missing dataset returns. *)
Lemma orchestrator_execute_returns_witness :
  let run := orchestrator_execute reference_loads default_orchestrator example_query
               offline_state in
  exists record, fst run = Ok (VDict record)
                 /\ List.length (logged (snd run)) = 1.
Proof.
  cbv zeta.
  destruct (orchestrator_execute_returns reference_loads default_orchestrator example_query
              offline_state _ _ (surjective_pairing _))
    as [(report & Hr & _ & _ & _ & Hlog)|(msg & ts & Hr & Hlog)].
  - exists report. split; [exact Hr|]. rewrite Hlog. reflexivity.
  - exfalso. apply (f_equal (@List.length _)) in Hlog. vm_compute in Hlog. discriminate.
Defined.

(** X15, witness: the five stages of that run. *)
Lemma run_records_stages_in_order_witness :
  let run := orchestrator_execute reference_loads default_orchestrator example_query
               offline_state in
  exists k, k <= 5 /\ ran_stages offline_state k (snd run).
Proof.
  cbv zeta.
  destruct (run_records_stages_in_order reference_loads default_orchestrator example_query
              offline_state _ _ (surjective_pairing _)) as (Hk & _).
  exact Hk.
Defined.

(** X27, witness: that run calls the service four times. *)
Lemma run_calls_service_at_most_four_times_witness :
  llm_calls (snd (orchestrator_execute reference_loads default_orchestrator example_query
                    (offline_state_with ctr_rows))) <= 4.
Proof.
  destruct (run_calls_service_at_most_four_times reference_loads default_orchestrator
              example_query (offline_state_with ctr_rows) _ _ (surjective_pairing _))
    as [_ H].
  exact H.
Defined.

Example run_calls_service_four_times :
  llm_calls (snd (orchestrator_execute reference_loads default_orchestrator example_query
                    (offline_state_with ctr_rows))) = 4.
Proof. vm_compute. reflexivity. Qed.

(** X16, witness: the three files of an empty report. *)
Lemma save_outputs_writes_in_order_witness :
  let run := save_outputs default_orchestrator [] offline_state in
  exists k,
    written (snd run) = firstn k (planned_outputs default_orchestrator [])
    /\ (fst run = Ok tt -> k = 3).
Proof.
  cbv zeta.
  destruct (save_outputs_writes_in_order default_orchestrator [] offline_state _ _
              (surjective_pairing _)) as (k & Hw & Hok & _).
  exists k. split; [exact Hw|]. intros H. now apply Hok.
Defined.

(** X17, witness: the service answers a list to the Planner. *)
Lemma plan_that_is_no_record_aborts_run_witness :
  exists s',
    orchestrator_execute reference_loads default_orchestrator example_query
      (online_state "[1, 2]")
    = (Ok (VDict [("status", VStr "error");
                  ("error", VStr "'list' object has no attribute 'get'");
                  ("execution_id", VStr "2025-01-01T09:00:00")]), s')
    /\ llm_calls s' = 1
    /\ written s' = [].
Proof.
  destruct (plan_that_is_no_record_aborts_run reference_loads default_orchestrator
              example_query (online_state "[1, 2]") "[1, 2]" (VList [VInt 1; VInt 2])
              default_plan_context eq_refl (ex_intro _ _ eq_refl) eq_refl eq_refl eq_refl
              eq_refl) as (s' & ts & Hrun & _ & _ & Hcalls & Hwritten).
  exists s'. split; [exact Hrun|]. split; assumption.
Defined.
